(** * django-celery-extensions: the task invocation layer

    A shallow embedding of [django_celery_extensions/task.py]: the result
    handles [OnCommitAsyncResult] and [AsyncResultWrapper] and the controller
    class [DjangoTask] (unique-task deduplication over the shared cache, time
    policy, list-indexed retry, protected call).

    Python objects become records, [None]-able values become [option],
    exceptions become the [Raise] outcome of a state-and-error monad over a
    [World] that holds everything the module shares with its collaborators:
    the wall clock, the Django cache, the Celery broker and result store, the
    worker's request stack, the database transaction and the heap of deferred
    handles.  The overridable hooks ([on_invocation_*], [on_task_*]), whose
    bodies are [pass] in the source, append an [Event] to the world's log so
    that their invocation can be observed. *)

From stdpp Require Import gmap strings list pretty.
From Stdlib Require Import ZArith Lia.

Open Scope Z_scope.

(** ** Python values, exceptions and outcomes *)

Inductive PyVal :=
| PyNone
| PyInt (z : Z)
| PyStr (s : string)
| PyExc (msg : string).

(** [str(v)] *)
Definition str (v : PyVal) : string :=
  match v with
  | PyNone => "None"
  | PyInt z => pretty z
  | PyStr s => s
  | PyExc msg => msg
  end.

Definition Args := list PyVal.
Definition Kwargs := list (string * PyVal).

(** The exception classes the module raises or catches, and the two the
    interpreter raises under it. [NotTriggeredCeleryError] and [TimeoutError]
    are both subclasses of [CeleryError], neither is a subclass of the
    other. [InterfaceError] and [OperationalError] are Django's, of
    [django.db.utils]; [KombuOperationalError] is the [OperationalError] of
    Kombu, which the broker raises and which is not Django's. *)
Inductive Exc :=
| CeleryError (msg : string)
| NotTriggeredCeleryError (msg : string)
| TimeoutError (msg : string)
| TypeError (msg : string)
| AttributeError (msg : string)
| InterfaceError (msg : string)
| OperationalError (msg : string)
| RecursionError
| TaskFailure (msg : string)
| KombuOperationalError (msg : string).

(** [isinstance(ex, TimeoutError)], the test of [except TimeoutError]. *)
Definition is_TimeoutError (ex : Exc) : bool :=
  match ex with TimeoutError _ => true | _ => false end.

(** [isinstance(ex, CeleryError)]. *)
Definition is_CeleryError (ex : Exc) : bool :=
  match ex with
  | CeleryError _ | NotTriggeredCeleryError _ | TimeoutError _ => true
  | _ => false
  end.

(** What a call does: return, raise, or never come back. *)
Inductive Res (A : Type) :=
| Ok (a : A)
| Raise (ex : Exc)
| Blocks.
Arguments Ok {A} a.
Arguments Raise {A} ex.
Arguments Blocks {A}.

(** ** Truthiness, the protocol behind [if x], [not x] and [x or y] *)

Class Truth (A : Type) := truth : A -> bool.

#[global] Instance Z_truth : Truth Z := fun z => negb (z =? 0).
#[global] Instance string_truth : Truth string := fun s => negb (String.eqb s "").
#[global] Instance list_truth {A} : Truth (list A) :=
  fun l => match l with [] => false | _ => true end.
#[global] Instance option_truth {A} `{Truth A} : Truth (option A) :=
  fun o => match o with Some a => truth a | None => false end.

(** ** Time *)

(** A [datetime], as seconds on the wall clock. A datetime object is always
    truthy. *)
Inductive datetime := Datetime (t : Z).

Definition seconds (d : datetime) : Z := match d with Datetime t => t end.

(** [d + timedelta(seconds=s)] *)
Definition plus_seconds (d : datetime) (s : Z) : datetime :=
  Datetime (seconds d + s).

#[global] Instance datetime_truth : Truth datetime := fun _ => true.

(** The [expires] option: a number of seconds (an [int]) or anything else,
    which for Celery is an absolute datetime. *)
Inductive Expires :=
| ExpiresIn (s : Z)
| ExpiresAt (d : datetime).

(** ** The keyword options of an invocation

    One record for the [**options] dictionary together with the named
    parameters that [_first_apply] and [_trigger] pick out of it and write
    back into it. An absent key is [None]. The queue is read with
    [options.get('queue', ...)], which tells an absent key from a key that is
    there with the value [None]: [o_queue] is [None] for the first and
    [Some PyNone] for the second. *)
Record Options := {
  o_invocation_id : option string;
  o_task_id : option string;
  o_trigger_time : option datetime;
  o_time_limit : option Z;
  o_eta : option datetime;
  o_countdown : option Z;
  o_expires : option Expires;
  o_is_async : option bool;
  o_stale_time_limit : option Z;
  o_queue : option PyVal;
  o_apply_time : option datetime;
  o_is_on_commit : option bool;
  o_using : option string;
  o_retries : option nat
}.

Definition no_options : Options :=
  {| o_invocation_id := None; o_task_id := None; o_trigger_time := None;
     o_time_limit := None; o_eta := None; o_countdown := None;
     o_expires := None; o_is_async := None; o_stale_time_limit := None;
     o_queue := None; o_apply_time := None; o_is_on_commit := None;
     o_using := None; o_retries := None |}.

(** [options['task_id'] = task_id] *)
Definition with_task_id (task_id : string) (o : Options) : Options :=
  {| o_invocation_id := o_invocation_id o; o_task_id := Some task_id;
     o_trigger_time := o_trigger_time o;
     o_time_limit := o_time_limit o; o_eta := o_eta o; o_countdown := o_countdown o;
     o_expires := o_expires o; o_is_async := o_is_async o;
     o_stale_time_limit := o_stale_time_limit o;
     o_queue := o_queue o; o_apply_time := o_apply_time o; o_is_on_commit := o_is_on_commit o;
     o_using := o_using o; o_retries := o_retries o |}.

(** ** The task definition

    The class attributes of [DjangoTask] and those of Celery's [Task] and of
    the app configuration that the methods read. [run] is the handler body
    supplied by the application. [queue] is read with
    [getattr(self, 'queue', ...)]: it is [None] when the task has no such
    attribute and [Some PyNone] when it has one that is [None]. *)
Module DjangoTask.
Record t := Build {
  name : string;
  unique : bool;
  unique_key_generator : Args -> Kwargs -> string;
  default_retry_delays : option (list Z);
  max_queue_waiting_time : option Z;
  stale_time_limit : option Z;
  soft_time_limit : option Z;
  expires : option Expires;
  autoretry_for : option (list string);
  default_retry_delay : Z;
  max_retries : option Z;
  queue : option PyVal;
  run : Args -> Kwargs -> Res PyVal;
  (* self._get_app().conf *)
  task_always_eager : bool;
  task_time_limit : option Z;
  task_default_queue : string
}.
End DjangoTask.

(** ** Result handles *)

(** The queue's own reference to a dispatch record: Celery's [AsyncResult]
    for a message that went to the broker, which knows the task id and asks
    the result store for the rest, and Celery's [EagerResult] for a run in
    place, which holds the outcome of the run. *)
Inductive ResultRef :=
| AsyncResult (task_id : string)
| EagerResult (task_id : string) (outcome : Res PyVal).

Module AsyncResultWrapper.
Record t := Build {
  _invocation_id : option string;
  _result : ResultRef;
  _task : DjangoTask.t;
  _args : Args;
  _kwargs : Kwargs;
  _options : Options
}.
End AsyncResultWrapper.

Module OnCommitAsyncResult.
Record t := Build { _result : option AsyncResultWrapper.t }.
End OnCommitAsyncResult.

(** What the apply methods hand back: a bound handle, the address of a
    deferred handle (an object that the commit callback later mutates), or the
    queue's bare reference when the call goes straight to Celery. *)
Inductive Handle :=
| Bound (r : AsyncResultWrapper.t)
| Deferred (addr : nat)
| Bare (r : ResultRef).

(** ** The world *)

(** The request context on top of the worker's stack. *)
Record Request := {
  req_id : option string;
  called_directly : bool;
  _protected : bool;
  retries : nat
}.

(** [Context()], what [self.request] is when the stack is empty. *)
Definition default_request : Request :=
  {| req_id := None; called_directly := true; _protected := false; retries := 0 |}.

(** A cache row: the value and the time at which it expires, if ever. *)
Record CacheEntry := { ce_value : string; ce_expires : option Z }.

(** What other producers, the workers and the passing of time do to the
    shared cache just before one of our cache operations. *)
Inductive Interference :=
| Idle
| Elapse (d : Z)
| ForeignAdd (key value : string) (ttl : Z)
| ForeignDelete (key : string).

(** A dispatch as Celery received it: the message handed to the broker, or
    the call that was run in place. [msg_async] is the [is_async] flag it
    travels with: the option of that name or, when there is none, the mode of
    the method it was handed to ([apply_async]: yes, [apply]: no). *)
Record Message := {
  msg_task : string;
  msg_args : Args;
  msg_kwargs : Kwargs;
  msg_options : Options;
  msg_async : bool
}.

(** The fate of a dispatch in the result store: when it reaches its terminal
    state and with what. A task id with no fate never gets there. *)
Record Fate := { done_at : Z; outcome : Res PyVal }.

Inductive Event :=
| Ev_on_invocation_apply (invocation_id : option string) (args : Args) (kwargs : Kwargs)
    (options : Options)
| Ev_on_invocation_trigger (invocation_id : option string) (args : Args) (kwargs : Kwargs)
    (task_id : string) (options : Options)
| Ev_on_invocation_unique (invocation_id : option string) (args : Args) (kwargs : Kwargs)
    (task_id : string) (options : Options)
| Ev_on_invocation_timeout (invocation_id : option string) (args : Args) (kwargs : Kwargs)
    (task_id : string) (ex : Exc) (options : Options)
| Ev_on_task_start (task_id : option string) (args : Args) (kwargs : Kwargs)
| Ev_on_task_retry (task_id : option string) (args : Args) (kwargs : Kwargs)
    (exc : option Exc) (eta : datetime)
| Ev_on_task_failure (task_id : string) (args : Args) (kwargs : Kwargs) (exc : Exc)
| Ev_on_task_success (task_id : string) (args : Args) (kwargs : Kwargs) (retval : PyVal)
| Ev_super_retry (args : Args) (kwargs : Kwargs) (exc : option Exc) (throw : bool)
    (eta : datetime) (max_retries : option Z)
| Ev_close_old_connections.

(** The closure [_apply_on_commit] registered by [_first_apply]: the task,
    the arguments and options it captured, and the address of the deferred
    handle it binds. *)
Record CommitHook := {
  hook_task : DjangoTask.t;
  hook_args : Args;
  hook_kwargs : Kwargs;
  hook_options : Options;
  hook_result : nat
}.

(** [broker] is the queue's record of the dispatches, in the order in
    which Celery received them: the messages that went to the broker and the
    calls that were run in place. *)
Record World := {
  clock : Z;
  cache : gmap string CacheEntry;
  interference : list Interference;
  request_stack : list Request;
  next_uuid : nat;
  broker : list Message;
  backend : gmap string Fate;
  log : list Event;
  heap : gmap nat OnCommitAsyncResult.t;
  in_atomic : bool;
  run_on_commit : list CommitHook;
  (* the broker is out of reach: handing a message over raises this *)
  outage : option Exc
}.

Definition set_clock (c : Z) (w : World) : World :=
  {| clock := c; cache := cache w; interference := interference w;
     request_stack := request_stack w; next_uuid := next_uuid w;
     broker := broker w; backend := backend w; log := log w; heap := heap w;
     in_atomic := in_atomic w; run_on_commit := run_on_commit w; outage := outage w |}.

Definition set_cache (c : gmap string CacheEntry) (w : World) : World :=
  {| clock := clock w; cache := c; interference := interference w;
     request_stack := request_stack w; next_uuid := next_uuid w;
     broker := broker w; backend := backend w; log := log w; heap := heap w;
     in_atomic := in_atomic w; run_on_commit := run_on_commit w; outage := outage w |}.

Definition set_interference (i : list Interference) (w : World) : World :=
  {| clock := clock w; cache := cache w; interference := i;
     request_stack := request_stack w; next_uuid := next_uuid w;
     broker := broker w; backend := backend w; log := log w; heap := heap w;
     in_atomic := in_atomic w; run_on_commit := run_on_commit w; outage := outage w |}.

Definition set_request_stack (s : list Request) (w : World) : World :=
  {| clock := clock w; cache := cache w; interference := interference w;
     request_stack := s; next_uuid := next_uuid w;
     broker := broker w; backend := backend w; log := log w; heap := heap w;
     in_atomic := in_atomic w; run_on_commit := run_on_commit w; outage := outage w |}.

Definition set_next_uuid (n : nat) (w : World) : World :=
  {| clock := clock w; cache := cache w; interference := interference w;
     request_stack := request_stack w; next_uuid := n;
     broker := broker w; backend := backend w; log := log w; heap := heap w;
     in_atomic := in_atomic w; run_on_commit := run_on_commit w; outage := outage w |}.

Definition set_broker (b : list Message) (w : World) : World :=
  {| clock := clock w; cache := cache w; interference := interference w;
     request_stack := request_stack w; next_uuid := next_uuid w;
     broker := b; backend := backend w; log := log w; heap := heap w;
     in_atomic := in_atomic w; run_on_commit := run_on_commit w; outage := outage w |}.

Definition set_log (l : list Event) (w : World) : World :=
  {| clock := clock w; cache := cache w; interference := interference w;
     request_stack := request_stack w; next_uuid := next_uuid w;
     broker := broker w; backend := backend w; log := l; heap := heap w;
     in_atomic := in_atomic w; run_on_commit := run_on_commit w; outage := outage w |}.

Definition set_heap (h : gmap nat OnCommitAsyncResult.t) (w : World) : World :=
  {| clock := clock w; cache := cache w; interference := interference w;
     request_stack := request_stack w; next_uuid := next_uuid w;
     broker := broker w; backend := backend w; log := log w; heap := h;
     in_atomic := in_atomic w; run_on_commit := run_on_commit w; outage := outage w |}.

Definition set_run_on_commit (l : list CommitHook) (w : World) : World :=
  {| clock := clock w; cache := cache w; interference := interference w;
     request_stack := request_stack w; next_uuid := next_uuid w;
     broker := broker w; backend := backend w; log := log w; heap := heap w;
     in_atomic := in_atomic w; run_on_commit := l; outage := outage w |}.

Definition set_in_atomic (b : bool) (w : World) : World :=
  {| clock := clock w; cache := cache w; interference := interference w;
     request_stack := request_stack w; next_uuid := next_uuid w;
     broker := broker w; backend := backend w; log := log w; heap := heap w;
     in_atomic := b; run_on_commit := run_on_commit w; outage := outage w |}.

Definition set_outage (o : option Exc) (w : World) : World :=
  {| clock := clock w; cache := cache w; interference := interference w;
     request_stack := request_stack w; next_uuid := next_uuid w;
     broker := broker w; backend := backend w; log := log w; heap := heap w;
     in_atomic := in_atomic w; run_on_commit := run_on_commit w; outage := o |}.

(** ** The monad of stateful, fallible calls *)

Definition M (A : Type) : Type := World -> Res A * World.

Definition ret {A} (a : A) : M A := fun w => (Ok a, w).

Definition raise {A} (ex : Exc) : M A := fun w => (Raise ex, w).

Definition bind {A B} (m : M A) (k : A -> M B) : M B :=
  fun w =>
    match m w with
    | (Ok a, w') => k a w'
    | (Raise ex, w') => (Raise ex, w')
    | (Blocks, w') => (Blocks, w')
    end.

(** A pure computation that may raise. *)
Definition lift {A} (r : Res A) : M A := fun w => (r, w).

(** [try: m  except <cls> as ex: h ex], where [catches] is the isinstance
    test of the except clause. *)
Definition try_except {A} (m : M A) (catches : Exc -> bool) (h : Exc -> M A) : M A :=
  fun w =>
    match m w with
    | (Raise ex, w') => if catches ex then h ex w' else (Raise ex, w')
    | r => r
    end.

(** [try: m  except Exception as exc: ...] where the handler goes on: what
    [m] returned or raised, as a value. A call that never returns is not
    caught. *)
Definition caught {A} (m : M A) : M (Res A) :=
  fun w =>
    match m w with
    | (Blocks, w') => (Blocks, w')
    | (r, w') => (Ok r, w')
    end.

Declare Scope py_scope.
Delimit Scope py_scope with py.
Notation "x <- m ;; k" := (bind m (fun x => k))
  (at level 100, m at next level, right associativity) : py_scope.
Notation "m ;; k" := (bind m (fun _ => k))
  (at level 100, right associativity) : py_scope.
Open Scope py_scope.

(** A hook whose body is [pass]: the call is recorded and nothing else
    happens. *)
Definition emit (e : Event) : M unit :=
  fun w => (Ok tt, set_log (log w ++ [e]) w).

(** ** The collaborators

    None of them is code of this module: the clock, Kombu's uuid, the Django
    cache, the Celery queue with its result store, and the database
    transaction. Each is modelled by the capabilities the specification
    assumes of it at the boundary. *)

(** [now()] *)
Definition now : M datetime := fun w => (Ok (Datetime (clock w)), w).

(** [task_uuid()]: an identifier not handed out before, never empty. *)
Definition task_uuid : M string :=
  fun w => (Ok ("uuid-" +:+ pretty (next_uuid w)), set_next_uuid (S (next_uuid w)) w).

(** [x or task_uuid()] *)
Definition or_task_uuid (x : option string) : M string :=
  match x with
  | Some i => if truth i then ret i else task_uuid
  | None => task_uuid
  end.

(** *** The cache: atomic add-if-absent with a time to live, get, delete *)

(** A row set at [t] with a timeout lives until [t + timeout]; with the
    timeout [None] it never expires. *)
Definition expiry (t : Z) (timeout : option Z) : option Z :=
  match timeout with Some s => Some (t + s) | None => None end.

Definition live (t : Z) (e : CacheEntry) : bool :=
  match ce_expires e with Some x => t <? x | None => true end.

(** The live value under a key: rows past their expiry are absent. *)
Definition cache_lookup (key : string) (w : World) : option string :=
  match cache w !! key with
  | Some e => if live (clock w) e then Some (ce_value e) else None
  | None => None
  end.

(** Modelled from the spec: the atomic set-if-absent with a time to live,
    on the store itself. *)
Definition store_add (key value : string) (timeout : option Z) (w : World) : bool * World :=
  match cache_lookup key w with
  | Some _ => (false, w)
  | None =>
      (true,
       set_cache (<[key := {| ce_value := value; ce_expires := expiry (clock w) timeout |}]> (cache w)) w)
  end.

Definition apply_interference (i : Interference) (w : World) : World :=
  match i with
  | Idle => w
  | Elapse d => set_clock (clock w + d) w
  | ForeignAdd k v ttl => snd (store_add k v (Some ttl) w)
  | ForeignDelete k => set_cache (delete k (cache w)) w
  end.

(** The next pending interference happens. *)
Definition interfere (w : World) : World :=
  match interference w with
  | [] => w
  | i :: rest => apply_interference i (set_interference rest w)
  end.

(** Modelled from the spec: [reserve(key, value, ttl) -> bool], which is
    [cache.add(key, value, timeout)]; true means the caller now owns the
    key. Other users of the cache may act just before. *)
Definition cache_add (key value : string) (timeout : option Z) : M bool :=
  fun w => let (added, w') := store_add key value timeout (interfere w) in (Ok added, w').

(** Modelled from the spec: [read(key) -> value|absent], which is
    [cache.get(key)]. *)
Definition cache_get (key : string) : M (option string) :=
  fun w => let w := interfere w in (Ok (cache_lookup key w), w).

(** Modelled from the spec: [clear(key)], which is [cache.delete(key)];
    clearing an absent key does nothing. *)
Definition cache_delete (key : string) : M unit :=
  fun w => let w := interfere w in (Ok tt, set_cache (delete key (cache w)) w).

(** *** The queue *)

(** Modelled from the spec: [dispatch(task_id, args, kwargs, ...) ->
    reference], which is [Task.apply_async] and [Task.apply] of Celery. Both
    are defined below, next to the methods of the task that they call back
    when they run the task in place; here is what they do to the queue. *)

(** The message goes to the broker, which raises when it is out of
    reach. *)
Definition publish (m : Message) : M unit :=
  fun w =>
    match outage w with
    | Some ex => (Raise ex, w)
    | None => (Ok tt, set_broker (broker w ++ [m]) w)
    end.

(** The call is taken for a run in place: no broker is needed. *)
Definition accept (m : Message) : M unit :=
  fun w => (Ok tt, set_broker (broker w ++ [m]) w).

(** Modelled from the spec: [Task.retry] of Celery, which resubmits the
    task for [eta] unless [max_retries] is exhausted: the call is recorded. *)
Definition super_retry (args : Args) (kwargs : Kwargs) (exc : option Exc) (throw : bool)
    (eta : datetime) (max_retries : option Z) (options : Options) : M unit :=
  emit (Ev_super_retry args kwargs exc throw eta max_retries).

(** *** The result store *)

Module ResultStore.

Definition task_id (r : ResultRef) : string :=
  match r with AsyncResult i | EagerResult i _ => i end.

(** The terminal fate of the dispatch, once the clock has reached it; a
    run in place is over when its reference exists. *)
Definition observed (r : ResultRef) (w : World) : option (Res PyVal) :=
  match r with
  | AsyncResult i =>
      match backend w !! i with
      | Some f => if done_at f <=? clock w then Some (outcome f) else None
      | None => None
      end
  | EagerResult _ o => Some o
  end.

Definition deliver (propagate : bool) (o : Res PyVal) : Res PyVal :=
  match o with
  | Raise (TaskFailure msg) => if propagate then o else Ok (PyExc msg)
  | _ => o
  end.

(** Modelled from the spec: [reference.get(timeout) -> result | raises
    timeout], which waits for the terminal state, for at most [timeout]
    seconds when one is given, and otherwise for ever. The reference of a run
    in place has the outcome at hand. *)
Definition get (r : ResultRef) (timeout : option Z) (propagate : bool) : M PyVal :=
  fun w =>
    match r with
    | EagerResult _ o => (deliver propagate o, w)
    | AsyncResult i =>
        match backend w !! i, timeout with
        | Some f, None =>
            (deliver propagate (outcome f), set_clock (Z.max (clock w) (done_at f)) w)
        | Some f, Some t =>
            if done_at f <=? clock w + t
            then (deliver propagate (outcome f), set_clock (Z.max (clock w) (done_at f)) w)
            else (Raise (TimeoutError "The operation timed out."), set_clock (clock w + t) w)
        | None, Some t =>
            (Raise (TimeoutError "The operation timed out."), set_clock (clock w + t) w)
        | None, None => (Blocks, w)
        end
    end.

(** Modelled from the spec: [reference.state], and Celery's [successful()]
    and [failed()] that read it. *)
Definition state (r : ResultRef) (w : World) : string :=
  match observed r w with
  | Some (Ok _) => "SUCCESS"
  | Some _ => "FAILURE"
  | None => "PENDING"
  end.

Definition successful (r : ResultRef) (w : World) : bool :=
  String.eqb (state r w) "SUCCESS".

Definition failed (r : ResultRef) (w : World) : bool :=
  String.eqb (state r w) "FAILURE".

End ResultStore.

(** ** class AsyncResultWrapper *)

(** [AsyncResultWrapper.task_id] *)
Definition AsyncResultWrapper_task_id (self : AsyncResultWrapper.t) : string :=
  ResultStore.task_id (AsyncResultWrapper._result self).

(** [DjangoTask.on_invocation_timeout] *)
Definition on_invocation_timeout (self : DjangoTask.t) (invocation_id : option string)
    (args : Args) (kwargs : Kwargs) (task_id : string) (ex : Exc) (options : Options) : M unit :=
  emit (Ev_on_invocation_timeout invocation_id args kwargs task_id ex options).

(** [AsyncResultWrapper.timeout] *)
Definition AsyncResultWrapper_timeout (self : AsyncResultWrapper.t) (ex : Exc) : M unit :=
  on_invocation_timeout (AsyncResultWrapper._task self)
    (AsyncResultWrapper._invocation_id self) (AsyncResultWrapper._args self)
    (AsyncResultWrapper._kwargs self) (AsyncResultWrapper_task_id self) ex
    (AsyncResultWrapper._options self).

(** [AsyncResultWrapper.get(self, *args, **kwargs)]. The caller's [timeout]
    and [propagate] arrive in [*args, **kwargs]; the body calls
    [self._result.get()] with no argument, that is with Celery's defaults
    [timeout=None] and [propagate=True]. *)
Definition AsyncResultWrapper_get (self : AsyncResultWrapper.t)
    (timeout : option Z) (propagate : bool) : M PyVal :=
  try_except
    (ResultStore.get (AsyncResultWrapper._result self) None true)
    is_TimeoutError
    (fun ex => AsyncResultWrapper_timeout self ex ;; raise ex).

(** [AsyncResultWrapper.state] *)
Definition AsyncResultWrapper_state (self : AsyncResultWrapper.t) (w : World) : string :=
  ResultStore.state (AsyncResultWrapper._result self) w.

(** [AsyncResultWrapper.successful] *)
Definition AsyncResultWrapper_successful (self : AsyncResultWrapper.t) (w : World) : bool :=
  ResultStore.successful (AsyncResultWrapper._result self) w.

(** [AsyncResultWrapper.failed] *)
Definition AsyncResultWrapper_failed (self : AsyncResultWrapper.t) (w : World) : bool :=
  ResultStore.failed (AsyncResultWrapper._result self) w.

(** ** class OnCommitAsyncResult *)

(** [OnCommitAsyncResult.__init__] *)
Definition OnCommitAsyncResult_init : OnCommitAsyncResult.t :=
  {| OnCommitAsyncResult._result := None |}.

(** [OnCommitAsyncResult.set_result]: the object after the assignment. *)
Definition OnCommitAsyncResult_set_result (self : OnCommitAsyncResult.t)
    (result : AsyncResultWrapper.t) : OnCommitAsyncResult.t :=
  {| OnCommitAsyncResult._result := Some result |}.

(** [OnCommitAsyncResult.get(self, *args, **kwargs)] *)
Definition OnCommitAsyncResult_get (self : OnCommitAsyncResult.t)
    (timeout : option Z) (propagate : bool) : M PyVal :=
  match OnCommitAsyncResult._result self with
  | None => raise (NotTriggeredCeleryError "Celery task has not been triggered yet")
  | Some result => AsyncResultWrapper_get result timeout propagate
  end.

(** [OnCommitAsyncResult.state] *)
Definition OnCommitAsyncResult_state (self : OnCommitAsyncResult.t) (w : World) : string :=
  match OnCommitAsyncResult._result self with
  | None => "WAITING"
  | Some result => AsyncResultWrapper_state result w
  end.

(** [OnCommitAsyncResult.successful] *)
Definition OnCommitAsyncResult_successful (self : OnCommitAsyncResult.t) (w : World) : bool :=
  match OnCommitAsyncResult._result self with
  | None => false
  | Some result => AsyncResultWrapper_successful result w
  end.

(** [OnCommitAsyncResult.failed] *)
Definition OnCommitAsyncResult_failed (self : OnCommitAsyncResult.t) (w : World) : bool :=
  match OnCommitAsyncResult._result self with
  | None => false
  | Some result => AsyncResultWrapper_failed result w
  end.

(** [OnCommitAsyncResult.task_id] *)
Definition OnCommitAsyncResult_task_id (self : OnCommitAsyncResult.t) : option string :=
  match OnCommitAsyncResult._result self with
  | None => None
  | Some result => Some (AsyncResultWrapper_task_id result)
  end.

(** *** Deferred handles on the heap

    The caller of [apply_async_on_commit] and the commit callback hold the
    same [OnCommitAsyncResult] object: both go through its address. *)

Definition heap_alloc (o : OnCommitAsyncResult.t) : M nat :=
  fun w => let addr := fresh (dom (heap w)) in (Ok addr, set_heap (<[addr := o]> (heap w)) w).

(** [on_commit_result.set_result(result)] on the shared object. *)
Definition heap_set_result (addr : nat) (result : AsyncResultWrapper.t) : M unit :=
  fun w => (Ok tt, set_heap (alter (fun o => OnCommitAsyncResult_set_result o result) addr (heap w)) w).

Definition deref (addr : nat) (w : World) : OnCommitAsyncResult.t :=
  default OnCommitAsyncResult_init (heap w !! addr).

(** ** class DjangoTask: the hooks *)

Definition on_invocation_apply (self : DjangoTask.t) (invocation_id : option string)
    (args : Args) (kwargs : Kwargs) (options : Options) : M unit :=
  emit (Ev_on_invocation_apply invocation_id args kwargs options).

Definition on_invocation_trigger (self : DjangoTask.t) (invocation_id : option string)
    (args : Args) (kwargs : Kwargs) (task_id : string) (options : Options) : M unit :=
  emit (Ev_on_invocation_trigger invocation_id args kwargs task_id options).

Definition on_invocation_unique (self : DjangoTask.t) (invocation_id : option string)
    (args : Args) (kwargs : Kwargs) (task_id : string) (options : Options) : M unit :=
  emit (Ev_on_invocation_unique invocation_id args kwargs task_id options).

Definition on_task_start (self : DjangoTask.t) (task_id : option string)
    (args : Args) (kwargs : Kwargs) : M unit :=
  emit (Ev_on_task_start task_id args kwargs).

Definition on_task_retry (self : DjangoTask.t) (task_id : option string)
    (args : Args) (kwargs : Kwargs) (exc : option Exc) (eta : datetime) : M unit :=
  emit (Ev_on_task_retry task_id args kwargs exc eta).

Definition on_task_failure (self : DjangoTask.t) (task_id : string)
    (args : Args) (kwargs : Kwargs) (exc : Exc) : M unit :=
  emit (Ev_on_task_failure task_id args kwargs exc).

Definition on_task_success (self : DjangoTask.t) (task_id : string)
    (args : Args) (kwargs : Kwargs) (retval : PyVal) : M unit :=
  emit (Ev_on_task_success task_id args kwargs retval).

(** ** class DjangoTask: the unique key *)

(** [DjangoTask._get_unique_key] *)
Definition _get_unique_key (self : DjangoTask.t) (task_args : Args) (task_kwargs : Kwargs)
    : option string :=
  if DjangoTask.unique self
  then Some (DjangoTask.unique_key_generator self task_args task_kwargs)
  else None.

(** [DjangoTask._clear_unique_key] *)
Definition _clear_unique_key (self : DjangoTask.t) (task_args : Args) (task_kwarg : Kwargs)
    : M unit :=
  let unique_key := _get_unique_key self task_args task_kwarg in
  match unique_key with
  | Some key => if truth key then cache_delete key else ret tt
  | None => ret tt
  end.

(** [DjangoTask.on_failure]; [super().on_failure] does nothing. *)
Definition on_failure (self : DjangoTask.t) (exc : Exc) (task_id : string)
    (args : Args) (kwargs : Kwargs) : M unit :=
  on_task_failure self task_id args kwargs exc ;;
  _clear_unique_key self args kwargs.

(** [DjangoTask.on_success]; [super().on_success] does nothing. *)
Definition on_success (self : DjangoTask.t) (retval : PyVal) (task_id : string)
    (args : Args) (kwargs : Kwargs) : M unit :=
  on_task_success self task_id args kwargs retval ;;
  _clear_unique_key self args kwargs.

(** [DjangoTask._get_unique_task_id]. [depth] is what is left of the
    interpreter's recursion limit: the method calls itself, and Python raises
    [RecursionError] when the limit is used up. *)
Fixpoint _get_unique_task_id (depth : nat) (self : DjangoTask.t) (unique_key : option string)
    (task_id : string) (stale_time_limit : option Z) : M string :=
  match depth with
  | O => raise RecursionError
  | S depth =>
      if truth unique_key && negb (truth stale_time_limit) then
        raise (CeleryError "For unique tasks is require set task stale_time_limit")
      else if truth unique_key && negb (DjangoTask.task_always_eager self) then
        match unique_key with
        | Some key =>
            added <- cache_add key task_id stale_time_limit ;;
            if added then ret task_id
            else
              unique_task_id <- cache_get key ;;
              match unique_task_id with
              | Some owner =>
                  if truth owner then ret owner
                  else _get_unique_task_id depth self unique_key task_id stale_time_limit
              | None => _get_unique_task_id depth self unique_key task_id stale_time_limit
              end
        | None => ret task_id
        end
      else ret task_id
  end.

(** ** class DjangoTask: the time policy *)

(** [DjangoTask._compute_eta] *)
Definition _compute_eta (eta : option datetime) (countdown : option Z)
    (trigger_time : datetime) : datetime :=
  match countdown with
  | Some countdown => plus_seconds trigger_time countdown
  | None =>
      match eta with
      | Some e => if truth e then e else trigger_time
      | None => trigger_time
      end
  end.

(** [DjangoTask._compute_expires] *)
Definition _compute_expires (self : DjangoTask.t) (expires : option Expires)
    (time_limit stale_time_limit : option Z) (trigger_time : datetime) : option datetime :=
  let expires := match expires with None => DjangoTask.expires self | Some _ => expires end in
  match expires with
  | Some (ExpiresIn s) => Some (plus_seconds trigger_time s)
  | Some (ExpiresAt d) => Some d
  | None =>
      match stale_time_limit, time_limit with
      | Some stale_time_limit, Some time_limit =>
          Some (plus_seconds trigger_time (stale_time_limit - time_limit))
      | _, _ => None
      end
  end.

(** [DjangoTask._get_time_limit] *)
Definition _get_time_limit (self : DjangoTask.t) (time_limit : option Z) : option Z :=
  match time_limit with
  | Some _ => time_limit
  | None =>
      match DjangoTask.soft_time_limit self with
      | Some _ => DjangoTask.soft_time_limit self
      | None => DjangoTask.task_time_limit self
      end
  end.

(** [sum(l)] *)
Definition sum (l : list Z) : Z := foldr Z.add 0 l.

(** [len(l)] *)
Definition len {A} (l : list A) : Z := Z.of_nat (length l).

(** [DjangoTask._get_stale_time_limit]. Multiplying by [self.max_retries]
    when it is [None] is a [TypeError]. *)
Definition _get_stale_time_limit (self : DjangoTask.t) (expires : option Expires)
    (time_limit stale_time_limit : option Z) (trigger_time : datetime) : Res (option Z) :=
  match stale_time_limit with
  | Some _ => Ok stale_time_limit
  | None =>
      match DjangoTask.stale_time_limit self with
      | Some _ => Ok (DjangoTask.stale_time_limit self)
      | None =>
          match time_limit, DjangoTask.max_queue_waiting_time self with
          | Some time_limit, Some max_queue_waiting_time =>
              if truth max_queue_waiting_time then
                let autoretry_for := DjangoTask.autoretry_for self in
                if truth autoretry_for && truth (DjangoTask.default_retry_delays self) then
                  let default_retry_delays := default [] (DjangoTask.default_retry_delays self) in
                  Ok (Some ((time_limit + max_queue_waiting_time) * len default_retry_delays + 1
                            + sum default_retry_delays))
                else if truth autoretry_for then
                  match DjangoTask.max_retries self with
                  | Some max_retries =>
                      Ok (Some ((time_limit + max_queue_waiting_time
                                 + DjangoTask.default_retry_delay self) * max_retries
                                + time_limit + max_queue_waiting_time))
                  | None => Raise (TypeError "unsupported operand type(s) for *: 'int' and 'NoneType'")
                  end
                else Ok (Some (time_limit + max_queue_waiting_time))
              else Ok None
          | _, _ => Ok None
          end
      end
  end.

(** ** class DjangoTask: the protected call *)

(** [self.request_stack.top] *)
Definition request_stack_top : M (option Request) :=
  fun w => (Ok (head (request_stack w)), w).

(** [self.request]: the top of the stack, or a fresh [Context()]. *)
Definition request : M Request :=
  fun w => (Ok (default default_request (head (request_stack w))), w).

(** The request object after [req._protected = 1]. *)
Definition consumed (req : Request) : Request :=
  {| req_id := req_id req; called_directly := called_directly req;
     _protected := true; retries := retries req |}.

(** [req._protected = 1] on the request object on top of the stack. *)
Definition protect_top : M unit :=
  fun w =>
    match request_stack w with
    | req :: below => (Ok tt, set_request_stack (consumed req :: below) w)
    | [] => (Ok tt, w)
    end.

(** [DjangoTask._start] *)
Definition _start (self : DjangoTask.t) (args : Args) (kwargs : Kwargs) : M PyVal :=
  lift (DjangoTask.run self args kwargs).

(** [DjangoTask.__call__] *)
Definition __call__ (self : DjangoTask.t) (args : Args) (kwargs : Kwargs) : M PyVal :=
  top <- request_stack_top ;;
  match top with
  | None =>
      raise (CeleryError
        "Task cannot be called directly. Please use apply, apply_async or apply_async_on_commit methods")
  | Some req =>
      if called_directly req then
        raise (CeleryError
          "Task cannot be called directly. Please use apply, apply_async or apply_async_on_commit methods")
      else if _protected req then raise (CeleryError "Request is protected")
      else
        protect_top ;;
        on_task_start self (req_id req) args kwargs ;;
        _start self args kwargs
  end.

(** ** Celery's [Task.apply] and [Task.apply_async]

    Not code of this module, and modelled from what Celery does with the
    methods of the task: [Task.apply] runs the task in place, through
    [__call__], [on_success] and [on_failure] above. *)

(** [self.request_stack.push(request)] *)
Definition push_request (req : Request) : M unit :=
  fun w => (Ok tt, set_request_stack (req :: request_stack w) w).

(** [self.request_stack.pop()] *)
Definition pop_request : M unit :=
  fun w => (Ok tt, set_request_stack (tail (request_stack w)) w).

(** Celery's tracer, as [Task.apply] runs it: a fresh request context under
    the task id is pushed, the task is called, [on_success] follows what the
    call returns and [on_failure] what it raises, and the context is popped;
    the outcome is what the [EagerResult] will hold. This is the tracer with
    Celery's default [task_eager_propagates = False], for an exception that is
    final: the retry that [autoretry_for] asks for goes through [retry] and
    Celery's signatures and is not followed. A handler that does not return
    keeps the caller waiting. *)
Definition trace_task (self : DjangoTask.t) (task_id : string) (args : Args) (kwargs : Kwargs)
    (attempt : nat) : M (Res PyVal) :=
  push_request {| req_id := Some task_id; called_directly := false; _protected := false;
                  retries := attempt |} ;;
  outcome <- caught (__call__ self args kwargs) ;;
  match outcome with
  | Ok retval => on_success self retval task_id args kwargs
  | Raise exc => on_failure self exc task_id args kwargs
  | Blocks => ret tt
  end ;;
  pop_request ;;
  ret outcome.

(** [super().apply(args=args, kwargs=kwargs, **options)], Celery's
    [Task.apply]: [task_id or uuid()], [retries or 0], the run in place, and
    an [EagerResult]. *)
Definition super_apply (self : DjangoTask.t) (args : Args) (kwargs : Kwargs)
    (options : Options) : M ResultRef :=
  task_id <- or_task_uuid (o_task_id options) ;;
  accept {| msg_task := DjangoTask.name self; msg_args := args; msg_kwargs := kwargs;
            msg_options := options; msg_async := default false (o_is_async options) |} ;;
  outcome <- trace_task self task_id args kwargs (default 0%nat (o_retries options)) ;;
  ret (EagerResult task_id outcome).

(** [super().apply_async(args=args, kwargs=kwargs, **options)], Celery's
    [Task.apply_async]. In always-eager mode it calls
    [self.apply(args, kwargs, task_id=task_id or uuid(), **options)], the
    [apply] of the task itself: [self_apply] is that method. Otherwise the
    message goes to the broker and an [AsyncResult] on its task id comes
    back, which [wrap] turns into what the caller returns. *)
Definition super_apply_async {R} (self_apply : Args -> Kwargs -> Options -> M R)
    (wrap : ResultRef -> R) (self : DjangoTask.t) (args : Args) (kwargs : Kwargs)
    (options : Options) : M R :=
  task_id <- or_task_uuid (o_task_id options) ;;
  if DjangoTask.task_always_eager self then
    self_apply args kwargs (with_task_id task_id options)
  else
    publish {| msg_task := DjangoTask.name self; msg_args := args; msg_kwargs := kwargs;
               msg_options := options; msg_async := default true (o_is_async options) |} ;;
    ret (wrap (AsyncResult task_id)).

(** ** class DjangoTask: applying *)

(** The options that are left in [**options] once the named parameters
    [invocation_id] and [is_async] have been bound. *)
Definition without_invocation (o : Options) : Options :=
  {| o_invocation_id := None; o_task_id := o_task_id o; o_trigger_time := o_trigger_time o;
     o_time_limit := o_time_limit o; o_eta := o_eta o; o_countdown := o_countdown o;
     o_expires := o_expires o; o_is_async := None; o_stale_time_limit := o_stale_time_limit o;
     o_queue := o_queue o; o_apply_time := o_apply_time o; o_is_on_commit := o_is_on_commit o;
     o_using := o_using o; o_retries := o_retries o |}.

(** [DjangoTask._apply_and_get_wrapped_result(args, kwargs, **options)]:
    [invocation_id] and [is_async] are taken out of the options, handed to
    Celery next to the rest, and the wrapper keeps the rest. The [self.apply]
    that Celery's [apply_async] calls in always-eager mode gets [is_async]
    among its options here, and is [super().apply] for them (the first branch
    of [apply], see [apply_with_is_async] below). *)
Definition _apply_and_get_wrapped_result (self : DjangoTask.t) (args : Args) (kwargs : Kwargs)
    (options : Options) : M AsyncResultWrapper.t :=
  let invocation_id := o_invocation_id options in
  let is_async := default false (o_is_async options) in
  let rest := without_invocation options in
  if is_async then
    result <- super_apply_async (super_apply self) id self args kwargs options ;;
    ret (AsyncResultWrapper.Build invocation_id result self args kwargs rest)
  else
    result <- super_apply self args kwargs options ;;
    ret (AsyncResultWrapper.Build invocation_id result self args kwargs rest).

(** [DjangoTask._trigger(args, kwargs, **options)] *)
Definition _trigger (depth : nat) (self : DjangoTask.t) (args : Args) (kwargs : Kwargs)
    (options : Options) : M AsyncResultWrapper.t :=
  let invocation_id := o_invocation_id options in
  let is_async := default true (o_is_async options) in
  task_id <- or_task_uuid (o_task_id options) ;;
  let time_limit := _get_time_limit self (o_time_limit options) in
  trigger_time <- now ;;
  let eta := _compute_eta (o_eta options) (o_countdown options) trigger_time in
  let countdown : option Z := None in
  stale_time_limit <-
    lift (_get_stale_time_limit self (o_expires options) time_limit
            (o_stale_time_limit options) trigger_time) ;;
  let expires :=
    _compute_expires self (o_expires options) time_limit stale_time_limit trigger_time in
  let options :=
    {| o_invocation_id := invocation_id; o_task_id := Some task_id;
       o_trigger_time := Some trigger_time; o_time_limit := time_limit;
       o_eta := Some eta; o_countdown := countdown; o_expires := ExpiresAt <$> expires;
       o_is_async := Some is_async; o_stale_time_limit := stale_time_limit;
       o_queue := o_queue options; o_apply_time := o_apply_time options;
       o_is_on_commit := o_is_on_commit options; o_using := o_using options;
       o_retries := o_retries options |} in
  let unique_key := _get_unique_key self args kwargs in
  unique_task_id <- _get_unique_task_id depth self unique_key task_id stale_time_limit ;;
  if is_async && negb (String.eqb unique_task_id task_id) then
    let options := with_task_id unique_task_id options in
    on_invocation_unique self invocation_id args kwargs unique_task_id options ;;
    ret (AsyncResultWrapper.Build invocation_id (AsyncResult unique_task_id) self args kwargs
           options)
  else
    on_invocation_trigger self invocation_id args kwargs task_id options ;;
    _apply_and_get_wrapped_result self args kwargs options.

(** The closure [_apply_on_commit] of [_first_apply]. *)
Definition _apply_on_commit (depth : nat) (hook : CommitHook) : M unit :=
  result <- _trigger depth (hook_task hook) (hook_args hook) (hook_kwargs hook)
              (hook_options hook) ;;
  heap_set_result (hook_result hook) result.

(** *** The database transaction *)

(** Modelled from the spec: [on_commit(callback)], which runs the callback
    at once when no transaction is open and otherwise keeps it for the
    commit; a rollback drops what was kept. *)

Definition transaction_on_commit (depth : nat) (hook : CommitHook) : M unit :=
  fun w =>
    if in_atomic w then (Ok tt, set_run_on_commit (run_on_commit w ++ [hook]) w)
    else _apply_on_commit depth hook w.

Definition transaction_begin : M unit :=
  fun w => (Ok tt, set_in_atomic true w).

Fixpoint run_hooks (depth : nat) (hooks : list CommitHook) : M unit :=
  match hooks with
  | [] => ret tt
  | hook :: hooks => _apply_on_commit depth hook ;; run_hooks depth hooks
  end.

Definition transaction_commit (depth : nat) : M unit :=
  fun w => run_hooks depth (run_on_commit w) (set_run_on_commit [] (set_in_atomic false w)).

Definition transaction_rollback : M unit :=
  fun w => (Ok tt, set_run_on_commit [] (set_in_atomic false w)).

(** [DjangoTask._first_apply(args, kwargs, **options)], with the named
    parameters [invocation_id], [is_async], [is_on_commit] and [using] read
    from the options, where their callers put them. The queue is
    [str(options.get('queue', getattr(self, 'queue', default)))]: whatever is
    found is made a string, [None] too. *)
Definition _first_apply (depth : nat) (self : DjangoTask.t) (args : Args) (kwargs : Kwargs)
    (options : Options) : M Handle :=
  let is_async := default true (o_is_async options) in
  let is_on_commit := default false (o_is_on_commit options) in
  let using' := o_using options in
  invocation_id <- or_task_uuid (o_invocation_id options) ;;
  apply_time <- now ;;
  let queue :=
    str (match o_queue options with
         | Some q => q
         | None => default (PyStr (DjangoTask.task_default_queue self)) (DjangoTask.queue self)
         end) in
  let options :=
    {| o_invocation_id := Some invocation_id; o_task_id := o_task_id options;
       o_trigger_time := o_trigger_time options; o_time_limit := o_time_limit options;
       o_eta := o_eta options; o_countdown := o_countdown options;
       o_expires := o_expires options; o_is_async := Some is_async;
       o_stale_time_limit := o_stale_time_limit options;
       o_queue := Some (PyStr queue); o_apply_time := Some apply_time;
       o_is_on_commit := Some is_on_commit; o_using := using';
       o_retries := o_retries options |} in
  on_invocation_apply self (Some invocation_id) args kwargs options ;;
  if is_on_commit then
    on_commit_result <- heap_alloc OnCommitAsyncResult_init ;;
    transaction_on_commit depth
      {| hook_task := self; hook_args := args; hook_kwargs := kwargs;
         hook_options := options; hook_result := on_commit_result |} ;;
    ret (Deferred on_commit_result)
  else
    result <- _trigger depth self args kwargs options ;;
    ret (Bound result).

(** [f(is_async=..., **options)] with [is_async] also among the options is a
    [TypeError], and so for the other named parameters. *)
Definition multiple_values {A} (keyword : string) : M A :=
  raise (TypeError ("got multiple values for keyword argument '" +:+ keyword +:+ "'")).

Definition with_is_async (b : bool) (o : Options) : Options :=
  {| o_invocation_id := o_invocation_id o; o_task_id := o_task_id o;
     o_trigger_time := o_trigger_time o;
     o_time_limit := o_time_limit o; o_eta := o_eta o; o_countdown := o_countdown o;
     o_expires := o_expires o; o_is_async := Some b;
     o_stale_time_limit := o_stale_time_limit o;
     o_queue := o_queue o; o_apply_time := o_apply_time o; o_is_on_commit := o_is_on_commit o;
     o_using := o_using o; o_retries := o_retries o |}.

Definition with_on_commit (using' : option string) (o : Options) : Options :=
  {| o_invocation_id := o_invocation_id o; o_task_id := o_task_id o;
     o_trigger_time := o_trigger_time o;
     o_time_limit := o_time_limit o; o_eta := o_eta o; o_countdown := o_countdown o;
     o_expires := o_expires o; o_is_async := o_is_async o;
     o_stale_time_limit := o_stale_time_limit o;
     o_queue := o_queue o; o_apply_time := o_apply_time o; o_is_on_commit := Some true;
     o_using := using'; o_retries := o_retries o |}.

(** [DjangoTask.apply_async_on_commit] *)
Definition apply_async_on_commit (depth : nat) (self : DjangoTask.t) (args : Args)
    (kwargs : Kwargs) (using' : option string) (options : Options) : M Handle :=
  if bool_decide (is_Some (o_is_async options)) then multiple_values "is_async"
  else if bool_decide (is_Some (o_is_on_commit options)) then multiple_values "is_on_commit"
  else _first_apply depth self args kwargs (with_on_commit using' (with_is_async true options)).

(** [DjangoTask.apply] *)
Definition apply (depth : nat) (self : DjangoTask.t) (args : Args) (kwargs : Kwargs)
    (options : Options) : M Handle :=
  if bool_decide (is_Some (o_retries options)) || bool_decide (is_Some (o_is_async options))
  then result <- super_apply self args kwargs options ;; ret (Bare result)
  else _first_apply depth self args kwargs (with_is_async false options).

(** [close_old_connections()] *)
Definition close_old_connections : M unit := emit Ev_close_old_connections.

(** [DjangoTask.apply_async] *)
Definition apply_async (depth : nat) (self : DjangoTask.t) (args : Args) (kwargs : Kwargs)
    (options : Options) : M Handle :=
  try_except
    (req <- request ;;
     if truth (req_id req)
     then super_apply_async (apply depth self) Bare self args kwargs options
     else if bool_decide (is_Some (o_is_async options)) then multiple_values "is_async"
     else _first_apply depth self args kwargs (with_is_async true options))
    (fun ex => match ex with InterfaceError _ | OperationalError _ => true | _ => false end)
    (fun ex => close_old_connections ;; raise ex).

(** [DjangoTask.retry] *)
Definition retry (self : DjangoTask.t) (args : Args) (kwargs : Kwargs) (exc : option Exc)
    (throw : bool) (eta : option datetime) (countdown : option Z) (max_retries : option Z)
    (default_retry_delays : option (list Z)) (options : Options) : M unit :=
  req <- request ;;
  let listed :=
    if truth default_retry_delays
       || (bool_decide (eta = None) && bool_decide (countdown = None)
           && truth (DjangoTask.default_retry_delays self))
    then
      let default_retry_delays :=
        match default_retry_delays with
        | None => DjangoTask.default_retry_delays self
        | Some _ => default_retry_delays
        end in
      let max_retries := len (default [] default_retry_delays) in
      (Some max_retries,
       if Z.of_nat (retries req) <? max_retries
       then default [] default_retry_delays !! retries req
       else None)
    else (max_retries, countdown) in
  let max_retries := fst listed in
  let countdown := snd listed in
  let countdown :=
    if negb (truth eta) && bool_decide (countdown = None)
    then Some (DjangoTask.default_retry_delay self)
    else countdown in
  eta <- (match eta with
          | Some e => if truth e then ret e
                      else (t <- now ;; ret (plus_seconds t (default 0 countdown)))
          | None => t <- now ;; ret (plus_seconds t (default 0 countdown))
          end) ;;
  on_task_retry self (req_id req) args kwargs exc eta ;;
  super_retry args kwargs exc throw eta max_retries options.

(** [result.get(timeout=timeout, propagate=propagate)] on whatever
    [apply_async] returned. *)
Definition Handle_get (result : Handle) (timeout : option Z) (propagate : bool) : M PyVal :=
  match result with
  | Bound r => AsyncResultWrapper_get r timeout propagate
  | Deferred addr => fun w => OnCommitAsyncResult_get (deref addr w) timeout propagate w
  | Bare r => ResultStore.get r timeout propagate
  end.

(** [result.timeout(ex)]: only the wrapper has the method. *)
Definition Handle_timeout (result : Handle) (ex : Exc) : M unit :=
  match result with
  | Bound r => AsyncResultWrapper_timeout r ex
  | Deferred _ => raise (AttributeError "'OnCommitAsyncResult' object has no attribute 'timeout'")
  | Bare _ => raise (AttributeError "'AsyncResult' object has no attribute 'timeout'")
  end.

(** [DjangoTask.apply_async_and_get_result] *)
Definition apply_async_and_get_result (depth : nat) (self : DjangoTask.t) (args : Args)
    (kwargs : Kwargs) (timeout : option Z) (propagate : bool) (options : Options) : M PyVal :=
  result <- apply_async depth self args kwargs options ;;
  if bool_decide (timeout = None) || bool_decide (0 < default 0 timeout) then
    Handle_get result timeout propagate
  else
    let ex := TimeoutError "The operation timed out." in
    Handle_timeout result ex ;;
    raise ex.

(** ** Sample tasks and worlds *)

Module Sample.

(** A unique task with a time limit of 60 seconds from the app
    configuration, a queue wait of 5 and the retry delays 10 and 20,
    retried automatically. *)
Definition report : DjangoTask.t :=
  {| DjangoTask.name := "report"; DjangoTask.unique := true;
     DjangoTask.unique_key_generator := fun _ _ => "key-report";
     DjangoTask.default_retry_delays := Some [10; 20];
     DjangoTask.max_queue_waiting_time := Some 5;
     DjangoTask.stale_time_limit := None; DjangoTask.soft_time_limit := None;
     DjangoTask.expires := None; DjangoTask.autoretry_for := Some ["Exception"%string];
     DjangoTask.default_retry_delay := 180; DjangoTask.max_retries := Some 3;
     DjangoTask.queue := None; DjangoTask.run := fun _ _ => Ok PyNone;
     DjangoTask.task_always_eager := false; DjangoTask.task_time_limit := Some 60;
     DjangoTask.task_default_queue := "celery" |}.

(** The same task without [autoretry_for]. *)
Definition report_no_autoretry : DjangoTask.t :=
  {| DjangoTask.name := "report"; DjangoTask.unique := true;
     DjangoTask.unique_key_generator := fun _ _ => "key-report";
     DjangoTask.default_retry_delays := Some [10; 20];
     DjangoTask.max_queue_waiting_time := Some 5;
     DjangoTask.stale_time_limit := None; DjangoTask.soft_time_limit := None;
     DjangoTask.expires := None; DjangoTask.autoretry_for := None;
     DjangoTask.default_retry_delay := 180; DjangoTask.max_retries := Some 3;
     DjangoTask.queue := None; DjangoTask.run := fun _ _ => Ok PyNone;
     DjangoTask.task_always_eager := false; DjangoTask.task_time_limit := Some 60;
     DjangoTask.task_default_queue := "celery" |}.

(** Retried automatically with the flat policy: no delay list. *)
Definition report_flat : DjangoTask.t :=
  {| DjangoTask.name := "report"; DjangoTask.unique := true;
     DjangoTask.unique_key_generator := fun _ _ => "key-report";
     DjangoTask.default_retry_delays := None;
     DjangoTask.max_queue_waiting_time := Some 5;
     DjangoTask.stale_time_limit := None; DjangoTask.soft_time_limit := None;
     DjangoTask.expires := None; DjangoTask.autoretry_for := Some ["Exception"%string];
     DjangoTask.default_retry_delay := 180; DjangoTask.max_retries := Some 3;
     DjangoTask.queue := None; DjangoTask.run := fun _ _ => Ok PyNone;
     DjangoTask.task_always_eager := false; DjangoTask.task_time_limit := Some 60;
     DjangoTask.task_default_queue := "celery" |}.

(** A unique task for which no stale time limit can be derived: no time
    limit anywhere. *)
Definition unbounded : DjangoTask.t :=
  {| DjangoTask.name := "unbounded"; DjangoTask.unique := true;
     DjangoTask.unique_key_generator := fun _ _ => "key-unbounded";
     DjangoTask.default_retry_delays := None;
     DjangoTask.max_queue_waiting_time := Some 5;
     DjangoTask.stale_time_limit := None; DjangoTask.soft_time_limit := None;
     DjangoTask.expires := None; DjangoTask.autoretry_for := None;
     DjangoTask.default_retry_delay := 180; DjangoTask.max_retries := Some 3;
     DjangoTask.queue := None; DjangoTask.run := fun _ _ => Ok PyNone;
     DjangoTask.task_always_eager := false; DjangoTask.task_time_limit := None;
     DjangoTask.task_default_queue := "celery" |}.

(** The task with the delay list 10, 30, 90. *)
Definition backoff : DjangoTask.t :=
  {| DjangoTask.name := "backoff"; DjangoTask.unique := false;
     DjangoTask.unique_key_generator := fun _ _ => "key-backoff";
     DjangoTask.default_retry_delays := Some [10; 30; 90];
     DjangoTask.max_queue_waiting_time := None;
     DjangoTask.stale_time_limit := None; DjangoTask.soft_time_limit := None;
     DjangoTask.expires := None; DjangoTask.autoretry_for := None;
     DjangoTask.default_retry_delay := 180; DjangoTask.max_retries := Some 3;
     DjangoTask.queue := None; DjangoTask.run := fun _ _ => Ok PyNone;
     DjangoTask.task_always_eager := false; DjangoTask.task_time_limit := None;
     DjangoTask.task_default_queue := "celery" |}.

(** A quiet world at second 1000: nothing cached, queued or stored. *)
Definition quiet : World :=
  {| clock := 1000; cache := ∅; interference := []; request_stack := []; next_uuid := 0;
     broker := []; backend := ∅; log := []; heap := ∅; in_atomic := false;
     run_on_commit := []; outage := None |}.

(** The dedup key of [report] is held by the dispatch ["owner"] until
    second 1100. *)
Definition owned : World :=
  set_cache {["key-report" := {| ce_value := "owner"; ce_expires := Some 1100 |}]} quiet.

(** A worker is running the dispatch ["job"], at its attempt [n]. *)
Definition working (n : nat) : World :=
  set_request_stack
    [{| req_id := Some "job"; called_directly := false; _protected := false; retries := n |}]
    quiet.

(** Options that give the task id. *)
Definition with_id (i : string) : Options := with_task_id i no_options.

(** A bound handle on the dispatch ["job"]. *)
Definition handle : AsyncResultWrapper.t :=
  {| AsyncResultWrapper._invocation_id := Some "inv";
     AsyncResultWrapper._result := AsyncResult "job";
     AsyncResultWrapper._task := report;
     AsyncResultWrapper._args := [];
     AsyncResultWrapper._kwargs := [];
     AsyncResultWrapper._options := no_options |}.

End Sample.

(** The cache operations touch the clock, the cache and the pending
    interference, and nothing else. *)
Definition same_apart_from_cache (w w' : World) : Prop :=
  broker w' = broker w /\ log w' = log w /\ request_stack w' = request_stack w
  /\ next_uuid w' = next_uuid w /\ backend w' = backend w /\ heap w' = heap w
  /\ outage w' = outage w.

(** ** Vocabulary of the further properties *)

(** Every value cached or about to be cached under [key] by the other
    users of the cache is truthy, as the task ids that this module stores
    are. *)
Definition truthy_under (key : string) (w : World) : Prop :=
  (forall e, cache w !! key = Some e -> truth (ce_value e) = true)
  /\ Forall (fun i => match i with
                      | ForeignAdd k v _ => k = key -> truth v = true
                      | _ => True
                      end) (interference w).

(** The options that [_trigger] hands on: the invocation's task id, the
    trigger time, the resolved limits, the eta with the countdown folded in
    and the countdown gone. *)
Definition triggered (self : DjangoTask.t) (options sent : Options)
    (task_id : string) (trigger_time : datetime) : Prop :=
  o_invocation_id sent = o_invocation_id options
  /\ o_task_id sent = Some task_id
  /\ o_trigger_time sent = Some trigger_time
  /\ o_time_limit sent = _get_time_limit self (o_time_limit options)
  /\ o_eta sent = Some (_compute_eta (o_eta options) (o_countdown options) trigger_time)
  /\ o_countdown sent = None
  /\ o_is_async sent = Some (default true (o_is_async options))
  /\ _get_stale_time_limit self (o_expires options) (o_time_limit sent)
       (o_stale_time_limit options) trigger_time = Ok (o_stale_time_limit sent)
  /\ o_expires sent
     = ExpiresAt <$> _compute_expires self (o_expires options) (o_time_limit sent)
                       (o_stale_time_limit sent) trigger_time.

(** The choice of an id touches the uuid counter, and nothing else. *)
Definition same_apart_from_uuid (w w' : World) : Prop :=
  clock w' = clock w /\ cache w' = cache w /\ interference w' = interference w
  /\ broker w' = broker w /\ log w' = log w /\ request_stack w' = request_stack w
  /\ backend w' = backend w /\ heap w' = heap w /\ in_atomic w' = in_atomic w
  /\ run_on_commit w' = run_on_commit w.

(** The unique task [Sample.report] without retries, in always-eager mode. *)
Definition eager_report : DjangoTask.t :=
  {| DjangoTask.name := "report"; DjangoTask.unique := true;
     DjangoTask.unique_key_generator := fun _ _ => "key-report";
     DjangoTask.default_retry_delays := None;
     DjangoTask.max_queue_waiting_time := Some 5;
     DjangoTask.stale_time_limit := None; DjangoTask.soft_time_limit := None;
     DjangoTask.expires := None; DjangoTask.autoretry_for := None;
     DjangoTask.default_retry_delay := 180; DjangoTask.max_retries := Some 3;
     DjangoTask.queue := None; DjangoTask.run := fun _ _ => Ok PyNone;
     DjangoTask.task_always_eager := true; DjangoTask.task_time_limit := Some 60;
     DjangoTask.task_default_queue := "celery" |}.

(** [Sample.report_flat] retried for ever: [max_retries = None]. *)
Definition report_forever : DjangoTask.t :=
  {| DjangoTask.name := "report"; DjangoTask.unique := false;
     DjangoTask.unique_key_generator := fun _ _ => "key-report";
     DjangoTask.default_retry_delays := None;
     DjangoTask.max_queue_waiting_time := Some 5;
     DjangoTask.stale_time_limit := None; DjangoTask.soft_time_limit := None;
     DjangoTask.expires := None; DjangoTask.autoretry_for := Some ["Exception"%string];
     DjangoTask.default_retry_delay := 180; DjangoTask.max_retries := None;
     DjangoTask.queue := None; DjangoTask.run := fun _ _ => Ok PyNone;
     DjangoTask.task_always_eager := false; DjangoTask.task_time_limit := Some 60;
     DjangoTask.task_default_queue := "celery" |}.

(** The dispatch ["job"] has failed at second 900 with Celery's
    [TimeoutError]. *)
Definition timed_out : World :=
  {| clock := 1000; cache := ∅; interference := []; request_stack := []; next_uuid := 0;
     broker := [];
     backend := {["job" := {| done_at := 900;
                               outcome := Raise (TimeoutError "The operation timed out.") |}]};
     log := []; heap := ∅; in_atomic := false; run_on_commit := []; outage := None |}.

(** A deferred handle lives at address 0 and is not bound. *)
Definition pending : World :=
  set_heap {[0%nat := OnCommitAsyncResult_init]} Sample.quiet.

(** What the hooks of the task record of a run in place under [task_id]:
    the start and, once the handler is back, the success or the failure. *)
Definition run_events (task_id : string) (args : Args) (kwargs : Kwargs)
    (outcome : Res PyVal) : list Event :=
  Ev_on_task_start (Some task_id) args kwargs
  :: match outcome with
     | Ok retval => [Ev_on_task_success task_id args kwargs retval]
     | Raise exc => [Ev_on_task_failure task_id args kwargs exc]
     | Blocks => []
     end.

(** The cache after a terminal callback of the task for [args] and
    [kwargs] that found the world [w]: the key of the arguments is deleted
    from what the other users of the cache left, whoever holds it; a task that
    is not unique, or whose key is empty, leaves the cache alone. *)
Definition released (self : DjangoTask.t) (args : Args) (kwargs : Kwargs) (w w' : World)
    : Prop :=
  let key := DjangoTask.unique_key_generator self args kwargs in
  (DjangoTask.unique self = true -> truth key = true ->
   cache w' = delete key (cache (interfere w))
   /\ interference w' = tail (interference w))
  /\ (DjangoTask.unique self = false \/ truth key = false ->
      cache w' = cache w /\ interference w' = interference w /\ clock w' = clock w).

(** A task marked unique whose key generator gives the empty key, with no
    time limit anywhere. *)
Definition keyless : DjangoTask.t :=
  {| DjangoTask.name := "keyless"; DjangoTask.unique := true;
     DjangoTask.unique_key_generator := fun _ _ => "";
     DjangoTask.default_retry_delays := None;
     DjangoTask.max_queue_waiting_time := Some 5;
     DjangoTask.stale_time_limit := None; DjangoTask.soft_time_limit := None;
     DjangoTask.expires := None; DjangoTask.autoretry_for := None;
     DjangoTask.default_retry_delay := 180; DjangoTask.max_retries := Some 3;
     DjangoTask.queue := None; DjangoTask.run := fun _ _ => Ok PyNone;
     DjangoTask.task_always_eager := false; DjangoTask.task_time_limit := None;
     DjangoTask.task_default_queue := "celery" |}.

(** [Sample.report] without retries, with a handler that never returns. *)
Definition stuck : DjangoTask.t :=
  {| DjangoTask.name := "report"; DjangoTask.unique := true;
     DjangoTask.unique_key_generator := fun _ _ => "key-report";
     DjangoTask.default_retry_delays := None;
     DjangoTask.max_queue_waiting_time := Some 5;
     DjangoTask.stale_time_limit := None; DjangoTask.soft_time_limit := None;
     DjangoTask.expires := None; DjangoTask.autoretry_for := None;
     DjangoTask.default_retry_delay := 180; DjangoTask.max_retries := Some 3;
     DjangoTask.queue := None; DjangoTask.run := fun _ _ => Blocks;
     DjangoTask.task_always_eager := false; DjangoTask.task_time_limit := Some 60;
     DjangoTask.task_default_queue := "celery" |}.

(** The quiet world with the broker out of reach. *)
Definition unreachable : World :=
  set_outage (Some (KombuOperationalError "[Errno 111] Connection refused")) Sample.quiet.

(** Options that carry [retries], as Celery's own calls of [apply] do. *)
Definition with_retries (n : nat) (o : Options) : Options :=
  {| o_invocation_id := o_invocation_id o; o_task_id := o_task_id o;
     o_trigger_time := o_trigger_time o;
     o_time_limit := o_time_limit o; o_eta := o_eta o; o_countdown := o_countdown o;
     o_expires := o_expires o; o_is_async := o_is_async o;
     o_stale_time_limit := o_stale_time_limit o;
     o_queue := o_queue o; o_apply_time := o_apply_time o; o_is_on_commit := o_is_on_commit o;
     o_using := o_using o; o_retries := Some n |}.

(** * Properties *)

(** ** Time policy *)

(** C4. The effective ETA: with a countdown it is the trigger time plus the
    countdown, whatever the eta; with no countdown and an eta it is the eta
    unchanged; with neither it is the trigger time. *)
Theorem compute_eta_cases :
  (forall eta countdown trigger_time,
      _compute_eta eta (Some countdown) trigger_time = plus_seconds trigger_time countdown)
  /\ (forall eta trigger_time, _compute_eta (Some eta) None trigger_time = eta)
  /\ (forall trigger_time, _compute_eta None None trigger_time = trigger_time).
Proof. repeat split. Qed.

(** The stale time limit does not depend on [expires] or on the trigger
    time, which the method receives and never reads. *)
Lemma get_stale_time_limit_ignores self expires expires' time_limit stale_time_limit t t' :
  _get_stale_time_limit self expires time_limit stale_time_limit t
  = _get_stale_time_limit self expires' time_limit stale_time_limit t'.
Proof. reflexivity. Qed.

(** C3, as the claim has it, fails: with a time limit of 60, a queue wait of
    5 and the delays 10 and 20 but no [autoretry_for], the limit is 65 and
    not 161. *)
Lemma stale_time_limit_list_without_autoretry :
  DjangoTask.default_retry_delays Sample.report_no_autoretry = Some [10; 20]
  /\ DjangoTask.max_queue_waiting_time Sample.report_no_autoretry = Some 5
  /\ _get_stale_time_limit Sample.report_no_autoretry None (Some 60) None (Datetime 1000)
     = Ok (Some 65)
  /\ _get_stale_time_limit Sample.report_no_autoretry None (Some 60) None (Datetime 1000)
     <> Ok (Some ((60 + 5) * 2 + 1 + (10 + 20))).
Proof. repeat split. discriminate. Qed.

(** C3, amended. The precedence is: the explicit value; else the task-level
    default; else, with a time limit and a non-zero queue wait, the list
    formula when [autoretry_for] is set and the delay list is not empty, the
    flat formula when [autoretry_for] is set and there is no such list, and
    the plain sum when [autoretry_for] is not set, delay list or not; else
    nothing. *)
Theorem stale_time_limit_precedence self expires trigger_time :
  (forall time_limit s,
      _get_stale_time_limit self expires time_limit (Some s) trigger_time = Ok (Some s))
  /\ (forall time_limit s,
         DjangoTask.stale_time_limit self = Some s ->
         _get_stale_time_limit self expires time_limit None trigger_time = Ok (Some s))
  /\ (forall time_limit wait,
         DjangoTask.stale_time_limit self = None ->
         DjangoTask.max_queue_waiting_time self = Some wait -> wait <> 0 ->
         (forall delays,
             truth (DjangoTask.autoretry_for self) = true ->
             DjangoTask.default_retry_delays self = Some delays -> delays <> [] ->
             _get_stale_time_limit self expires (Some time_limit) None trigger_time
             = Ok (Some ((time_limit + wait) * len delays + 1 + sum delays)))
         /\ (forall max_retries,
                truth (DjangoTask.autoretry_for self) = true ->
                truth (DjangoTask.default_retry_delays self) = false ->
                DjangoTask.max_retries self = Some max_retries ->
                _get_stale_time_limit self expires (Some time_limit) None trigger_time
                = Ok (Some ((time_limit + wait + DjangoTask.default_retry_delay self)
                            * max_retries + time_limit + wait)))
         /\ (truth (DjangoTask.autoretry_for self) = false ->
             _get_stale_time_limit self expires (Some time_limit) None trigger_time
             = Ok (Some (time_limit + wait))))
  /\ (forall time_limit,
         DjangoTask.stale_time_limit self = None ->
         time_limit = None \/ truth (DjangoTask.max_queue_waiting_time self) = false ->
         _get_stale_time_limit self expires time_limit None trigger_time = Ok None).
Proof.
  assert (Hwait : forall wait : Z, wait <> 0 -> truth wait = true).
  { intros wait Hne. unfold truth, Z_truth. apply negb_true_iff, Z.eqb_neq, Hne. }
  unfold _get_stale_time_limit. split; [| split; [| split]].
  - reflexivity.
  - intros time_limit s ->. reflexivity.
  - intros time_limit wait Hnone Hq Hne. rewrite Hnone, Hq, (Hwait _ Hne).
    split; [| split].
    + intros delays -> -> Hdelays. destruct delays; [congruence | reflexivity].
    + intros max_retries -> -> ->. reflexivity.
    + intros ->. reflexivity.
  - intros time_limit -> [-> | Hq]; [reflexivity |].
    destruct time_limit; [| reflexivity].
    destruct (DjangoTask.max_queue_waiting_time self) as [wait |]; [| reflexivity].
    change (truth (Some wait)) with (truth wait) in Hq. rewrite Hq. reflexivity.
Qed.

(** The amended precedence at work: the list formula gives 161 for the
    retried task, the flat formula 800 and the plain sum 65. *)
Lemma stale_time_limit_precedence_witness :
  _get_stale_time_limit Sample.report None (Some 60) None (Datetime 1000) = Ok (Some 161)
  /\ _get_stale_time_limit Sample.report_flat None (Some 60) None (Datetime 1000)
     = Ok (Some 800)
  /\ _get_stale_time_limit Sample.report_no_autoretry None (Some 60) None (Datetime 1000)
     = Ok (Some 65)
  /\ _get_stale_time_limit Sample.unbounded None None None (Datetime 1000) = Ok None.
Proof.
  destruct (stale_time_limit_precedence Sample.report None (Datetime 1000))
    as (_ & _ & Hlist & _).
  destruct (stale_time_limit_precedence Sample.report_flat None (Datetime 1000))
    as (_ & _ & Hflat & _).
  destruct (stale_time_limit_precedence Sample.report_no_autoretry None (Datetime 1000))
    as (_ & _ & Hplain & _).
  destruct (stale_time_limit_precedence Sample.unbounded None (Datetime 1000))
    as (_ & _ & _ & Hnone).
  destruct (Hlist 60 5 eq_refl eq_refl ltac:(lia)) as (Hl & _ & _).
  destruct (Hflat 60 5 eq_refl eq_refl ltac:(lia)) as (_ & Hf & _).
  destruct (Hplain 60 5 eq_refl eq_refl ltac:(lia)) as (_ & _ & Hp).
  split; [| split; [| split]].
  - apply (Hl [10; 20]); [reflexivity | reflexivity | discriminate].
  - apply (Hf 3); reflexivity.
  - apply Hp. reflexivity.
  - apply Hnone; [reflexivity | left; reflexivity].
Defined.

(** ** Result handles *)

(** C8. [get] on a deferred handle that is not bound raises
    [NotTriggeredCeleryError] at once, in the world as it was: the result
    store is not consulted, so nothing is waited for; the error is not a
    [TimeoutError]. Once [set_result] has bound the real result, [get] is the
    bound handle's [get] with the same arguments. *)
Theorem deferred_get :
  (forall self timeout propagate w,
      OnCommitAsyncResult._result self = None ->
      OnCommitAsyncResult_get self timeout propagate w
      = (Raise (NotTriggeredCeleryError "Celery task has not been triggered yet"), w))
  /\ is_TimeoutError (NotTriggeredCeleryError "Celery task has not been triggered yet") = false
  /\ (forall self result timeout propagate w,
         OnCommitAsyncResult_get (OnCommitAsyncResult_set_result self result) timeout propagate w
         = AsyncResultWrapper_get result timeout propagate w).
Proof.
  split; [| split].
  - intros self timeout propagate w Hnone.
    unfold OnCommitAsyncResult_get. rewrite Hnone. reflexivity.
  - reflexivity.
  - intros self result timeout propagate w. reflexivity.
Qed.

(** [deferred_get] on a fresh handle, asked with a timeout of 5 seconds in
    the quiet world. *)
Lemma deferred_get_witness :
  OnCommitAsyncResult_get OnCommitAsyncResult_init (Some 5) true Sample.quiet
  = (Raise (NotTriggeredCeleryError "Celery task has not been triggered yet"), Sample.quiet).
Proof.
  destruct deferred_get as (Hunbound & _ & _).
  apply (Hunbound OnCommitAsyncResult_init (Some 5) true Sample.quiet). reflexivity.
Defined.

(** X15. The same through the heap, where the caller and the commit callback
    share the object: what the caller reads at the address after the callback
    has bound the result is the bound handle. *)
Lemma deferred_get_shared addr result timeout propagate w w' :
  is_Some (heap w !! addr) ->
  heap_set_result addr result w = (Ok tt, w') ->
  Handle_get (Deferred addr) timeout propagate w'
  = AsyncResultWrapper_get result timeout propagate w'.
Proof.
  intros [o Ho] Hset. unfold heap_set_result in Hset. injection Hset as <-.
  unfold Handle_get, deref. cbn [heap set_heap].
  rewrite lookup_alter_eq, Ho. reflexivity.
Qed.

(** C10. On a deferred handle that is not bound, [state] is ['WAITING'],
    [successful()] and [failed()] are [False] and [task_id] is [None],
    whatever the world; on a bound one each is the bound handle's. *)
Theorem deferred_accessors :
  (forall self w,
      OnCommitAsyncResult._result self = None ->
      OnCommitAsyncResult_state self w = "WAITING"
      /\ OnCommitAsyncResult_successful self w = false
      /\ OnCommitAsyncResult_failed self w = false
      /\ OnCommitAsyncResult_task_id self = None)
  /\ (forall self result w,
         let bound := OnCommitAsyncResult_set_result self result in
         OnCommitAsyncResult_state bound w = AsyncResultWrapper_state result w
         /\ OnCommitAsyncResult_successful bound w = AsyncResultWrapper_successful result w
         /\ OnCommitAsyncResult_failed bound w = AsyncResultWrapper_failed result w
         /\ OnCommitAsyncResult_task_id bound = Some (AsyncResultWrapper_task_id result)).
Proof.
  split.
  - intros self w Hnone.
    unfold OnCommitAsyncResult_state, OnCommitAsyncResult_successful,
      OnCommitAsyncResult_failed, OnCommitAsyncResult_task_id.
    rewrite Hnone. repeat split.
  - intros self result w bound. repeat split.
Qed.

(** [deferred_accessors] on a fresh handle in the quiet world. *)
Lemma deferred_accessors_witness :
  OnCommitAsyncResult_state OnCommitAsyncResult_init Sample.quiet = "WAITING"
  /\ OnCommitAsyncResult_successful OnCommitAsyncResult_init Sample.quiet = false
  /\ OnCommitAsyncResult_failed OnCommitAsyncResult_init Sample.quiet = false
  /\ OnCommitAsyncResult_task_id OnCommitAsyncResult_init = None.
Proof.
  destruct deferred_accessors as (Hunbound & _).
  apply (Hunbound OnCommitAsyncResult_init Sample.quiet). reflexivity.
Defined.

(** ** The protected call *)

(** C9. Calling the task with no request on the stack, or with one marked
    [called_directly], raises [CeleryError] and changes nothing. Through a
    worker's request that is already protected the call raises [CeleryError]
    too. Through a fresh worker's request the call runs the handler, marks the
    request protected, and every further call through it is refused. *)
Theorem protected_call self args kwargs w :
  (request_stack w = [] ->
   __call__ self args kwargs w
   = (Raise (CeleryError
        "Task cannot be called directly. Please use apply, apply_async or apply_async_on_commit methods"),
      w))
  /\ (forall req below,
         request_stack w = req :: below -> called_directly req = true ->
         __call__ self args kwargs w
         = (Raise (CeleryError
              "Task cannot be called directly. Please use apply, apply_async or apply_async_on_commit methods"),
            w))
  /\ (forall req below,
         request_stack w = req :: below -> called_directly req = false ->
         _protected req = true ->
         __call__ self args kwargs w = (Raise (CeleryError "Request is protected"), w))
  /\ (forall req below,
         request_stack w = req :: below -> called_directly req = false ->
         _protected req = false ->
         exists w',
           __call__ self args kwargs w = (DjangoTask.run self args kwargs, w')
           /\ request_stack w' = consumed req :: below
           /\ log w' = log w ++ [Ev_on_task_start (req_id req) args kwargs]
           /\ forall self' args' kwargs',
               __call__ self' args' kwargs' w'
               = (Raise (CeleryError "Request is protected"), w')).
Proof.
  unfold __call__, bind, request_stack_top. split; [| split; [| split]].
  - intros ->. reflexivity.
  - intros req below Hstack Hdirect. rewrite Hstack. cbn [head]. rewrite Hdirect. reflexivity.
  - intros req below Hstack Hdirect Hmarked. rewrite Hstack. cbn [head].
    rewrite Hdirect, Hmarked. reflexivity.
  - intros req below Hstack Hdirect Hfresh.
    rewrite Hstack. cbn [head]. rewrite Hdirect, Hfresh.
    unfold protect_top, on_task_start, emit, _start, lift. rewrite Hstack.
    eexists. split; [reflexivity |]. cbn. split; [reflexivity |].
    split; [reflexivity |].
    intros self' args' kwargs'. rewrite Hdirect. reflexivity.
Qed.

(** [protected_call] in a worker that runs the dispatch ["job"]: the first
    call runs the handler, the second is refused. *)
Lemma protected_call_witness :
  exists w',
    __call__ Sample.report [] [] (Sample.working 0) = (Ok PyNone, w')
    /\ __call__ Sample.report [] [] w' = (Raise (CeleryError "Request is protected"), w').
Proof.
  destruct (protected_call Sample.report [] [] (Sample.working 0)) as (_ & _ & _ & Hfresh).
  destruct (Hfresh _ _ eq_refl eq_refl eq_refl) as (w' & Hrun & _ & _ & Hagain).
  exists w'. split; [exact Hrun | apply Hagain].
Defined.

(** ** Steps of the monad *)

Lemma bind_Ok {A B} (m : M A) (k : A -> M B) w a w' :
  m w = (Ok a, w') -> bind m k w = k a w'.
Proof. unfold bind. intros ->. reflexivity. Qed.

Lemma bind_Raise {A B} (m : M A) (k : A -> M B) w ex w' :
  m w = (Raise ex, w') -> bind m k w = (Raise ex, w').
Proof. unfold bind. intros ->. reflexivity. Qed.


Lemma truth_Z_true (z : Z) : truth z = true <-> z <> 0.
Proof. unfold truth, Z_truth. rewrite negb_true_iff, Z.eqb_neq. reflexivity. Qed.

Lemma truth_string_true (s : string) : truth s = true <-> s <> "".
Proof.
  unfold truth, string_truth. rewrite negb_true_iff.
  destruct (String.eqb_spec s ""); split; congruence.
Qed.

(** [or_task_uuid] touches nothing but the uuid counter, and the id it
    yields is never empty. *)
Lemma or_task_uuid_spec x w :
  exists i w',
    or_task_uuid x w = (Ok i, w')
    /\ truth i = true
    /\ clock w' = clock w /\ cache w' = cache w /\ interference w' = interference w
    /\ broker w' = broker w /\ log w' = log w /\ request_stack w' = request_stack w.
Proof.
  unfold or_task_uuid.
  destruct x as [i |]; [destruct (truth i) eqn:Hi |].
  - exists i, w. repeat split; assumption.
  - eexists _, _. split; [reflexivity |]. repeat split.
  - eexists _, _. split; [reflexivity |]. repeat split.
Qed.

(** ** Unique dispatch *)

Section Dedup.

Variables (self : DjangoTask.t) (args : Args) (kwargs : Kwargs).

Let key := DjangoTask.unique_key_generator self args kwargs.

Hypothesis Hunique : DjangoTask.unique self = true.
Hypothesis Hkey : truth key = true.

Lemma get_unique_key_unique : _get_unique_key self args kwargs = Some key.
Proof. unfold _get_unique_key. rewrite Hunique. reflexivity. Qed.

(** Without a truthy stale time limit, resolving the unique task id raises
    before the cache is touched. *)
Lemma unique_task_id_unbounded depth task_id stale_time_limit w :
  truth stale_time_limit = false ->
  _get_unique_task_id (S depth) self (Some key) task_id stale_time_limit w
  = (Raise (CeleryError "For unique tasks is require set task stale_time_limit"), w).
Proof.
  intros Hstale. cbn [_get_unique_task_id].
  change (truth (Some key)) with (truth key). rewrite Hkey, Hstale. reflexivity.
Qed.

Section Queued.

Variables (task_id : string) (ttl : Z).

Hypothesis Hqueued : DjangoTask.task_always_eager self = false.
Hypothesis Httl : truth ttl = true.

(** Past the two tests at the head of the method, into the branch that
    goes to the cache. *)
Ltac to_the_cache :=
  cbn [_get_unique_task_id];
  change (truth (Some key)) with (truth key);
  change (truth (Some ttl)) with (truth ttl);
  rewrite Hkey, Httl, Hqueued; cbn [negb andb].

(** The reserve succeeds: the invocation's own id. *)
Lemma unique_task_id_reserved depth w w1 :
  cache_add key task_id (Some ttl) w = (Ok true, w1) ->
  _get_unique_task_id (S depth) self (Some key) task_id (Some ttl) w = (Ok task_id, w1).
Proof.
  intros Hadd. to_the_cache.
  rewrite (bind_Ok _ _ _ _ _ Hadd). reflexivity.
Qed.

(** The reserve fails and the read finds the owner: the owner's id. *)
Lemma unique_task_id_owner depth w w1 w2 owner :
  cache_add key task_id (Some ttl) w = (Ok false, w1) ->
  cache_get key w1 = (Ok (Some owner), w2) ->
  truth owner = true ->
  _get_unique_task_id (S depth) self (Some key) task_id (Some ttl) w = (Ok owner, w2).
Proof.
  intros Hadd Hget Howner. to_the_cache.
  rewrite (bind_Ok _ _ _ _ _ Hadd). rewrite (bind_Ok _ _ _ _ _ Hget).
  rewrite Howner. reflexivity.
Qed.

(** The reserve fails and the read finds nothing (or a falsy value): the
    method calls itself with the arguments it was given. *)
Lemma unique_task_id_retried depth w w1 w2 read :
  cache_add key task_id (Some ttl) w = (Ok false, w1) ->
  cache_get key w1 = (Ok read, w2) ->
  truth read = false ->
  _get_unique_task_id (S depth) self (Some key) task_id (Some ttl) w
  = _get_unique_task_id depth self (Some key) task_id (Some ttl) w2.
Proof.
  intros Hadd Hget Hread. to_the_cache.
  rewrite (bind_Ok _ _ _ _ _ Hadd). rewrite (bind_Ok _ _ _ _ _ Hget).
  destruct read as [owner |]; [| reflexivity].
  change (truth (Some owner)) with (truth owner) in Hread. rewrite Hread. reflexivity.
Qed.

End Queued.

End Dedup.

(** ** Triggering *)

(** A task id that is given and not empty is taken as it is. *)
Lemma or_task_uuid_given i w : truth i = true -> or_task_uuid (Some i) w = (Ok i, w).
Proof. intros Hi. unfold or_task_uuid. rewrite Hi. reflexivity. Qed.

(** The choice of an id leaves the broker where it is, within reach or
    not. *)
Lemma or_task_uuid_outage x w : outage (snd (or_task_uuid x w)) = outage w.
Proof.
  unfold or_task_uuid. destruct x as [i |]; [destruct (truth i) |]; reflexivity.
Qed.

(** Handing the invocation to the broker, asynchronously and not in
    always-eager mode, while the broker is within reach: one message more,
    under the task id of the options, and a handle on that id. *)
Lemma apply_and_get_wrapped_result_spec self args kwargs options task_id w :
  o_task_id options = Some task_id -> truth task_id = true ->
  default false (o_is_async options) = true ->
  DjangoTask.task_always_eager self = false ->
  outage w = None ->
  exists h,
    _apply_and_get_wrapped_result self args kwargs options w
    = (Ok h,
       set_broker
         (broker w ++ [{| msg_task := DjangoTask.name self; msg_args := args;
                          msg_kwargs := kwargs; msg_options := options;
                          msg_async := true |}]) w)
    /\ AsyncResultWrapper_task_id h = task_id.
Proof.
  intros Hid Htruthy Hasync Hqueued Hreach. unfold _apply_and_get_wrapped_result.
  rewrite Hasync. unfold super_apply_async. rewrite Hid.
  unfold bind. rewrite (or_task_uuid_given task_id w Htruthy), Hqueued.
  unfold publish, ret. rewrite Hreach.
  destruct (o_is_async options) as [[|] |]; try discriminate.
  eexists. split; reflexivity.
Qed.

Section Trigger.

Variables (depth : nat) (self : DjangoTask.t) (args : Args) (kwargs : Kwargs).
Variables (options : Options) (w w0 : World) (task_id : string) (stale : option Z).

Let is_async := default true (o_is_async options).
Let invocation_id := o_invocation_id options.
Let unique_key := _get_unique_key self args kwargs.

Hypothesis Hid : or_task_uuid (o_task_id options) w = (Ok task_id, w0).
Hypothesis Hstale :
  _get_stale_time_limit self (o_expires options)
    (_get_time_limit self (o_time_limit options)) (o_stale_time_limit options)
    (Datetime (clock w0)) = Ok stale.

(** What resolving the unique task id raises, triggering raises. *)
Lemma trigger_raises ex w2 :
  _get_unique_task_id depth self unique_key task_id stale w0 = (Raise ex, w2) ->
  _trigger depth self args kwargs options w = (Raise ex, w2).
Proof.
  intros Hresolve. unfold _trigger.
  rewrite (bind_Ok _ _ _ _ _ Hid).
  unfold bind at 1, now. unfold bind at 1, lift. rewrite Hstale.
  apply bind_Raise. exact Hresolve.
Qed.

(** A resolved id other than the invocation's own, on the asynchronous
    path: the hook [on_invocation_unique] and a handle on the resolved id,
    and nothing is handed to the queue. *)
Lemma trigger_reference uid w2 :
  _get_unique_task_id depth self unique_key task_id stale w0 = (Ok uid, w2) ->
  is_async = true -> uid <> task_id ->
  exists h opts,
    _trigger depth self args kwargs options w
    = (Ok h, set_log (log w2 ++ [Ev_on_invocation_unique invocation_id args kwargs uid opts]) w2)
    /\ AsyncResultWrapper_task_id h = uid
    /\ o_task_id opts = Some uid.
Proof.
  intros Hresolve Hasync Hother. unfold _trigger.
  rewrite (bind_Ok _ _ _ _ _ Hid).
  unfold bind at 1, now. unfold bind at 1, lift. rewrite Hstale.
  rewrite (bind_Ok _ _ _ _ _ Hresolve).
  fold is_async. rewrite Hasync.
  destruct (String.eqb_spec uid task_id) as [| _]; [contradiction |].
  cbn [negb andb]. unfold on_invocation_unique, bind, emit, ret.
  eexists _, _. split; [reflexivity |]. split; reflexivity.
Qed.

(** The resolved id is the invocation's own, on the asynchronous path of a
    task that is not in always-eager mode, with the broker within reach: the
    hook [on_invocation_trigger] and one message more in the queue, under the
    invocation's task id. *)
Lemma trigger_dispatch w2 :
  _get_unique_task_id depth self unique_key task_id stale w0 = (Ok task_id, w2) ->
  is_async = true -> DjangoTask.task_always_eager self = false -> outage w2 = None ->
  exists h opts,
    _trigger depth self args kwargs options w
    = (Ok h,
       set_broker
         (broker w2 ++ [{| msg_task := DjangoTask.name self; msg_args := args;
                           msg_kwargs := kwargs; msg_options := opts;
                           msg_async := true |}])
         (set_log (log w2 ++ [Ev_on_invocation_trigger invocation_id args kwargs task_id opts])
            w2))
    /\ AsyncResultWrapper_task_id h = task_id
    /\ o_task_id opts = Some task_id.
Proof.
  intros Hresolve Hasync Hqueued Hreach. unfold _trigger.
  rewrite (bind_Ok _ _ _ _ _ Hid).
  unfold bind at 1, now. unfold bind at 1, lift. rewrite Hstale.
  rewrite (bind_Ok _ _ _ _ _ Hresolve).
  fold is_async. rewrite Hasync, String.eqb_refl. cbn [negb andb].
  unfold on_invocation_trigger. unfold bind at 1, emit.
  destruct (or_task_uuid_spec (o_task_id options) w) as (i & v & Hid' & Htruthy & _).
  rewrite Hid in Hid'. injection Hid' as <- <-.
  match goal with
  | |- context [_apply_and_get_wrapped_result self args kwargs ?o ?v] =>
      destruct (apply_and_get_wrapped_result_spec self args kwargs o task_id v eq_refl
                  Htruthy eq_refl Hqueued Hreach)
        as (h & Hsend & Hh)
  end.
  exists h. eexists. split; [rewrite Hsend; reflexivity |]. split; [exact Hh | reflexivity].
Qed.

End Trigger.

(** ** The cache operations *)

Lemma interfere_frame w : same_apart_from_cache w (interfere w).
Proof.
  unfold interfere. destruct (interference w) as [| i rest]; [repeat split |].
  destruct i as [| d | k v ttl | k]; cbn [apply_interference]; [repeat split .. | | repeat split].
  unfold store_add. destruct (cache_lookup k _); repeat split.
Qed.

Lemma cache_add_frame key value timeout w added w' :
  cache_add key value timeout w = (Ok added, w') -> same_apart_from_cache w w'.
Proof.
  unfold cache_add, store_add. pose proof (interfere_frame w) as Hframe.
  destruct (cache_lookup key (interfere w)); intros [= <- <-]; exact Hframe.
Qed.

Lemma cache_get_frame key w read w' :
  cache_get key w = (Ok read, w') -> same_apart_from_cache w w'.
Proof. unfold cache_get. intros [= <- <-]. apply interfere_frame. Qed.

(** What a read returns is in the cache when it returns. *)
Lemma cache_get_lookup key w read w' :
  cache_get key w = (Ok read, w') -> cache_lookup key w' = read.
Proof. unfold cache_get. intros [= <- <-]. reflexivity. Qed.

(** After a delete the key is absent. *)
Lemma cache_delete_lookup key w :
  cache_lookup key (snd (cache_delete key w)) = None.
Proof.
  unfold cache_delete, cache_lookup. cbn [snd cache set_cache].
  rewrite lookup_delete_eq. reflexivity.
Qed.

(** In a world with no interference pending, a held key makes the reserve
    fail and the read return the holder, and the world stays as it is. *)
Lemma cache_add_held key value timeout w owner :
  interference w = [] -> cache_lookup key w = Some owner ->
  cache_add key value timeout w = (Ok false, w).
Proof.
  intros Hquiet Hheld. unfold cache_add, interfere, store_add.
  rewrite Hquiet, Hheld. reflexivity.
Qed.

Lemma cache_get_held key w :
  interference w = [] -> cache_get key w = (Ok (cache_lookup key w), w).
Proof. intros Hquiet. unfold cache_get, interfere. rewrite Hquiet. reflexivity. Qed.

(** ** Unique dispatch: the claims *)

(** X12. The reserve succeeds, on the asynchronous path and with the
    broker within reach: the invocation's own task id is used,
    [on_invocation_trigger] is called and one message is handed to the
    queue. *)
Lemma unique_reserved_dispatches depth self args kwargs options w w0 w1 task_id ttl :
  let key := DjangoTask.unique_key_generator self args kwargs in
  DjangoTask.unique self = true -> truth key = true ->
  DjangoTask.task_always_eager self = false ->
  default true (o_is_async options) = true ->
  outage w = None ->
  or_task_uuid (o_task_id options) w = (Ok task_id, w0) ->
  _get_stale_time_limit self (o_expires options)
    (_get_time_limit self (o_time_limit options)) (o_stale_time_limit options)
    (Datetime (clock w0)) = Ok (Some ttl) ->
  truth ttl = true ->
  cache_add key task_id (Some ttl) w0 = (Ok true, w1) ->
  exists h opts w',
    _trigger (S depth) self args kwargs options w = (Ok h, w')
    /\ AsyncResultWrapper_task_id h = task_id
    /\ broker w' = broker w ++ [{| msg_task := DjangoTask.name self; msg_args := args;
                                   msg_kwargs := kwargs; msg_options := opts;
                                   msg_async := true |}]
    /\ o_task_id opts = Some task_id
    /\ log w' = log w ++ [Ev_on_invocation_trigger (o_invocation_id options) args kwargs
                            task_id opts].
Proof.
  intros key Hunique Hkey Hqueued Hasync Hreach Hid Hstale Httl Hadd.
  pose proof (unique_task_id_reserved self args kwargs Hkey task_id ttl Hqueued Httl depth
                w0 w1 Hadd) as Hresolve.
  rewrite <- (get_unique_key_unique self args kwargs Hunique) in Hresolve.
  destruct (cache_add_frame _ _ _ _ _ _ Hadd) as (Hb1 & Hl1 & _ & _ & _ & _ & Ho1).
  pose proof (or_task_uuid_outage (o_task_id options) w) as Ho0. rewrite Hid in Ho0.
  cbn [snd] in Ho0.
  destruct (trigger_dispatch (S depth) self args kwargs options w w0 task_id (Some ttl)
              Hid Hstale w1 Hresolve Hasync Hqueued ltac:(congruence))
    as (h & opts & Hrun & Hh & Ho).
  destruct (or_task_uuid_spec (o_task_id options) w)
    as (i & v & Hid' & _ & _ & _ & _ & Hb & Hl & _).
  rewrite Hid in Hid'. injection Hid' as <- <-.
  exists h, opts. eexists. split; [exact Hrun |]. split; [exact Hh |].
  cbn [broker log set_broker set_log]. rewrite Hb1, Hl1, Hb, Hl. repeat split. exact Ho.
Qed.

(** X13. The reserve fails and the read returns an owner other than the
    invocation's own task id, on the asynchronous path: [on_invocation_unique]
    is called, the handle is on the owner's task id, nothing is handed to the
    queue, and the owner still holds the key. *)
Lemma unique_reference_returned depth self args kwargs options w w0 w1 w2 task_id ttl owner :
  let key := DjangoTask.unique_key_generator self args kwargs in
  DjangoTask.unique self = true -> truth key = true ->
  DjangoTask.task_always_eager self = false ->
  default true (o_is_async options) = true ->
  or_task_uuid (o_task_id options) w = (Ok task_id, w0) ->
  _get_stale_time_limit self (o_expires options)
    (_get_time_limit self (o_time_limit options)) (o_stale_time_limit options)
    (Datetime (clock w0)) = Ok (Some ttl) ->
  truth ttl = true ->
  cache_add key task_id (Some ttl) w0 = (Ok false, w1) ->
  cache_get key w1 = (Ok (Some owner), w2) ->
  truth owner = true -> owner <> task_id ->
  exists h opts w',
    _trigger (S depth) self args kwargs options w = (Ok h, w')
    /\ AsyncResultWrapper_task_id h = owner
    /\ broker w' = broker w
    /\ log w' = log w ++ [Ev_on_invocation_unique (o_invocation_id options) args kwargs
                            owner opts]
    /\ o_task_id opts = Some owner
    /\ cache_lookup key w' = Some owner.
Proof.
  intros key Hunique Hkey Hqueued Hasync Hid Hstale Httl Hadd Hget Howner Hother.
  pose proof (unique_task_id_owner self args kwargs Hkey task_id ttl Hqueued Httl depth
                w0 w1 w2 owner Hadd Hget Howner) as Hresolve.
  rewrite <- (get_unique_key_unique self args kwargs Hunique) in Hresolve.
  destruct (trigger_reference (S depth) self args kwargs options w w0 task_id (Some ttl)
              Hid Hstale owner w2 Hresolve Hasync Hother) as (h & opts & Hrun & Hh & Ho).
  destruct (or_task_uuid_spec (o_task_id options) w)
    as (i & v & Hid' & _ & _ & _ & _ & Hb & Hl & _).
  rewrite Hid in Hid'. injection Hid' as <- <-.
  destruct (cache_add_frame _ _ _ _ _ _ Hadd) as (Hb1 & Hl1 & _).
  destruct (cache_get_frame _ _ _ _ Hget) as (Hb2 & Hl2 & _).
  exists h, opts. eexists. split; [exact Hrun |]. split; [exact Hh |].
  cbn [broker log set_log]. rewrite Hb2, Hl2, Hb1, Hl1, Hb, Hl.
  repeat split; [exact Ho |].
  apply (cache_get_lookup _ _ _ _ Hget).
Qed.

(** The reserve fails and the read returns the invocation's own task id,
    which the caller gave and the owner was dispatched under: the comparison
    [unique_task_id != task_id] takes the invocation for the owner, and the
    task is handed to the queue once more. *)
Lemma unique_own_id_dispatched_again depth self args kwargs options w w0 w1 w2 task_id ttl :
  let key := DjangoTask.unique_key_generator self args kwargs in
  DjangoTask.unique self = true -> truth key = true ->
  DjangoTask.task_always_eager self = false ->
  default true (o_is_async options) = true ->
  outage w = None ->
  or_task_uuid (o_task_id options) w = (Ok task_id, w0) ->
  _get_stale_time_limit self (o_expires options)
    (_get_time_limit self (o_time_limit options)) (o_stale_time_limit options)
    (Datetime (clock w0)) = Ok (Some ttl) ->
  truth ttl = true ->
  cache_add key task_id (Some ttl) w0 = (Ok false, w1) ->
  cache_get key w1 = (Ok (Some task_id), w2) ->
  exists h opts w',
    _trigger (S depth) self args kwargs options w = (Ok h, w')
    /\ AsyncResultWrapper_task_id h = task_id
    /\ broker w' = broker w ++ [{| msg_task := DjangoTask.name self; msg_args := args;
                                   msg_kwargs := kwargs; msg_options := opts;
                                   msg_async := true |}]
    /\ log w' = log w ++ [Ev_on_invocation_trigger (o_invocation_id options) args kwargs
                            task_id opts].
Proof.
  intros key Hunique Hkey Hqueued Hasync Hreach Hid Hstale Httl Hadd Hget.
  pose proof (or_task_uuid_outage (o_task_id options) w) as Ho0. rewrite Hid in Ho0.
  cbn [snd] in Ho0.
  destruct (or_task_uuid_spec (o_task_id options) w)
    as (i & v & Hid' & Hi & _ & _ & _ & Hb & Hl & _).
  rewrite Hid in Hid'. injection Hid' as <- <-.
  pose proof (unique_task_id_owner self args kwargs Hkey task_id ttl Hqueued Httl depth
                w0 w1 w2 task_id Hadd Hget Hi) as Hresolve.
  rewrite <- (get_unique_key_unique self args kwargs Hunique) in Hresolve.
  destruct (cache_add_frame _ _ _ _ _ _ Hadd) as (Hb1 & Hl1 & _ & _ & _ & _ & Ho1).
  destruct (cache_get_frame _ _ _ _ Hget) as (Hb2 & Hl2 & _ & _ & _ & _ & Ho2).
  destruct (trigger_dispatch (S depth) self args kwargs options w w0 task_id (Some ttl)
              Hid Hstale w2 Hresolve Hasync Hqueued ltac:(congruence))
    as (h & opts & Hrun & Hh & Ho).
  exists h, opts. eexists. split; [exact Hrun |]. split; [exact Hh |].
  cbn [broker log set_broker set_log]. rewrite Hb2, Hl2, Hb1, Hl1, Hb, Hl. split; reflexivity.
Qed.

(** C1, where the code departs from it. The key of the task is held by the
    dispatch ["owner"], and the task is applied asynchronously once more with
    [task_id="owner"]: the reserve fails, the read returns ["owner"], and yet
    [on_invocation_trigger] is called, not [on_invocation_unique], and a
    second message under the task id ["owner"] is handed to the queue. *)
Theorem same_task_id_dispatched_twice :
  let run := _trigger 3 Sample.report [] [] (Sample.with_id "owner") Sample.owned in
  cache_add "key-report" "owner" (Some 161) Sample.owned = (Ok false, Sample.owned)
  /\ cache_get "key-report" Sample.owned = (Ok (Some "owner"), Sample.owned)
  /\ (exists h, fst run = Ok h /\ AsyncResultWrapper_task_id h = "owner")
  /\ broker Sample.owned = []
  /\ (exists opts,
         broker (snd run)
         = [{| msg_task := "report"; msg_args := []; msg_kwargs := []; msg_options := opts;
               msg_async := true |}]
         /\ o_task_id opts = Some "owner"
         /\ log (snd run) = [Ev_on_invocation_trigger None [] [] "owner" opts]).
Proof.
  cbv zeta. split; [reflexivity |]. split; [reflexivity |].
  split; [eexists; split; vm_compute; reflexivity |]. split; [reflexivity |].
  eexists. split; [vm_compute; reflexivity |]. split; reflexivity.
Qed.

(** C2, amended. A unique task with a key that is not empty, for whose
    invocation no stale time limit is resolved, fails in [_trigger] with
    ['For unique tasks is require set task stale_time_limit'], whether
    asynchronous, synchronous or eager, and the cache, the pending
    interference, the queue and the hooks' log are as they were. *)
Theorem unique_without_stale_time_limit_fails depth self args kwargs options trigger_time w :
  DjangoTask.unique self = true ->
  truth (DjangoTask.unique_key_generator self args kwargs) = true ->
  _get_stale_time_limit self (o_expires options)
    (_get_time_limit self (o_time_limit options)) (o_stale_time_limit options)
    trigger_time = Ok None ->
  exists w',
    _trigger (S depth) self args kwargs options w
    = (Raise (CeleryError "For unique tasks is require set task stale_time_limit"), w')
    /\ cache w' = cache w /\ interference w' = interference w
    /\ broker w' = broker w /\ log w' = log w.
Proof.
  intros Hunique Hkey Hstale.
  destruct (or_task_uuid_spec (o_task_id options) w)
    as (task_id & w0 & Hid & _ & _ & Hc & Hi & Hb & Hl & _).
  exists w0. split; [| repeat split; assumption].
  apply (trigger_raises (S depth) self args kwargs options w w0 task_id None Hid).
  - exact Hstale.
  - rewrite (get_unique_key_unique self args kwargs Hunique).
    apply unique_task_id_unbounded; [exact Hkey | reflexivity].
Qed.

(** C2, as the claim has it, fails. The task [keyless] is marked unique and
    no stale time limit can be resolved for it, but its key generator gives
    the empty key: the invocation is handed to the queue, no error is raised
    and the cache is not consulted. And the task [unbounded], whose key is not
    empty, runs in place without an error when it is applied with [retries]
    among the options, as Celery applies a retry: that path does not go
    through [_trigger]. *)
Lemma unique_without_stale_time_limit_dispatched :
  let applied := _trigger 1 keyless [] [] no_options Sample.quiet in
  let retried := apply 1 Sample.unbounded [] [] (with_retries 1 no_options) Sample.quiet in
  DjangoTask.unique keyless = true
  /\ _get_stale_time_limit keyless None (_get_time_limit keyless None) None (Datetime 1000)
     = Ok None
  /\ (exists h, fst applied = Ok h /\ AsyncResultWrapper_task_id h = "uuid-0")
  /\ (exists opts,
         broker (snd applied)
         = [{| msg_task := "keyless"; msg_args := []; msg_kwargs := []; msg_options := opts;
               msg_async := true |}]
         /\ log (snd applied) = [Ev_on_invocation_trigger None [] [] "uuid-0" opts])
  /\ cache (snd applied) = ∅
  /\ DjangoTask.unique Sample.unbounded = true
  /\ _get_stale_time_limit Sample.unbounded None (_get_time_limit Sample.unbounded None) None
       (Datetime 1000) = Ok None
  /\ fst retried = Ok (Bare (EagerResult "uuid-0" (Ok PyNone)))
  /\ log (snd retried)
     = [Ev_on_task_start (Some "uuid-0") [] []; Ev_on_task_success "uuid-0" [] [] PyNone].
Proof.
  cbv zeta. split; [reflexivity |]. split; [reflexivity |].
  split; [eexists; split; vm_compute; reflexivity |].
  split; [eexists; split; vm_compute; reflexivity |].
  split; [reflexivity |]. split; [reflexivity |]. split; [reflexivity |].
  split; vm_compute; reflexivity.
Qed.

(** [unique_without_stale_time_limit_fails] for the task with no time limit
    anywhere, applied in the quiet world. *)
Lemma unique_without_stale_time_limit_fails_witness :
  exists w',
    _trigger 1 Sample.unbounded [] [] no_options Sample.quiet
    = (Raise (CeleryError "For unique tasks is require set task stale_time_limit"), w')
    /\ cache w' = cache Sample.quiet /\ interference w' = interference Sample.quiet
    /\ broker w' = broker Sample.quiet /\ log w' = log Sample.quiet.
Proof.
  apply (unique_without_stale_time_limit_fails 0 Sample.unbounded [] [] no_options
           (Datetime 1000) Sample.quiet); reflexivity.
Defined.

(** C7, as the claim has it, fails: the key is held by the dispatch
    ["owner"]; the task is applied synchronously with the same arguments and
    runs in place as the dispatch ["uuid-0"]; the success of ["uuid-0"]
    clears the key before [_trigger] returns, while the owner has reached no
    terminal state. The failure of a dispatch that is not the owner clears
    the key as well. *)
Lemma key_cleared_by_another_dispatch :
  let applied :=
    _trigger 1 Sample.report [] [] (with_is_async false no_options) Sample.owned in
  cache_lookup "key-report" Sample.owned = Some "owner"
  /\ (exists h, fst applied = Ok h /\ AsyncResultWrapper_task_id h = "uuid-0")
  /\ map (fun m => (o_task_id (msg_options m), msg_async m)) (broker (snd applied))
     = [(Some "uuid-0", false)]
  /\ (exists opts,
         log (snd applied)
         = [Ev_on_invocation_trigger None [] [] "uuid-0" opts;
            Ev_on_task_start (Some "uuid-0") [] [];
            Ev_on_task_success "uuid-0" [] [] PyNone])
  /\ "uuid-0" <> "owner"
  /\ cache_lookup "key-report" (snd applied) = None
  /\ cache_lookup "key-report"
       (snd (on_failure Sample.report (TaskFailure "boom") "uuid-0" [] [] Sample.owned))
     = None.
Proof.
  cbv zeta. split; [reflexivity |].
  split; [eexists; split; vm_compute; reflexivity |].
  split; [vm_compute; reflexivity |].
  split; [eexists; vm_compute; reflexivity |].
  split; [discriminate |]. split; vm_compute; reflexivity.
Qed.

(** [retry] leaves the cache as it is. *)
Lemma retry_keeps_cache self args kwargs exc throw eta countdown max_retries delays options w :
  cache (snd (retry self args kwargs exc throw eta countdown max_retries delays options w))
  = cache w.
Proof.
  unfold retry, request, bind, on_task_retry, super_retry, emit, now, ret.
  destruct eta as [e |]; reflexivity.
Qed.

(** C7, amended. For a unique task the key of the arguments is absent from
    the cache after [on_success] and after [on_failure] of any dispatch with
    these arguments, whatever task id holds the key; the path of [_trigger]
    that returns a reference to the owner leaves the key with the owner; and
    [retry] leaves the cache as it is. *)
Theorem unique_key_cleared_on_terminal_state self args kwargs :
  let key := DjangoTask.unique_key_generator self args kwargs in
  DjangoTask.unique self = true -> truth key = true ->
  (forall retval task_id w,
      cache_lookup key (snd (on_success self retval task_id args kwargs w)) = None)
  /\ (forall exc task_id w,
         cache_lookup key (snd (on_failure self exc task_id args kwargs w)) = None)
  /\ (forall depth options w w0 w1 w2 task_id ttl owner,
         DjangoTask.task_always_eager self = false ->
         default true (o_is_async options) = true ->
         or_task_uuid (o_task_id options) w = (Ok task_id, w0) ->
         _get_stale_time_limit self (o_expires options)
           (_get_time_limit self (o_time_limit options)) (o_stale_time_limit options)
           (Datetime (clock w0)) = Ok (Some ttl) ->
         truth ttl = true ->
         cache_add key task_id (Some ttl) w0 = (Ok false, w1) ->
         cache_get key w1 = (Ok (Some owner), w2) ->
         truth owner = true -> owner <> task_id ->
         exists h w',
           _trigger (S depth) self args kwargs options w = (Ok h, w')
           /\ AsyncResultWrapper_task_id h = owner
           /\ cache w' = cache w2
           /\ cache_lookup key w' = Some owner)
  /\ (forall exc throw eta countdown max_retries delays options w,
         cache (snd (retry self args kwargs exc throw eta countdown max_retries delays
                       options w)) = cache w).
Proof.
  intros key Hunique Hkey. split; [| split; [| split]].
  - intros retval task_id w.
    unfold on_success, on_task_success, _clear_unique_key, bind, emit.
    rewrite (get_unique_key_unique self args kwargs Hunique). fold key. rewrite Hkey.
    apply cache_delete_lookup.
  - intros exc task_id w.
    unfold on_failure, on_task_failure, _clear_unique_key, bind, emit.
    rewrite (get_unique_key_unique self args kwargs Hunique). fold key. rewrite Hkey.
    apply cache_delete_lookup.
  - intros depth options w w0 w1 w2 task_id ttl owner
      Hqueued Hasync Hid Hstale Httl Hadd Hget Howner Hother.
    pose proof (unique_task_id_owner self args kwargs Hkey task_id ttl Hqueued Httl depth
                  w0 w1 w2 owner Hadd Hget Howner) as Hresolve.
    rewrite <- (get_unique_key_unique self args kwargs Hunique) in Hresolve.
    destruct (trigger_reference (S depth) self args kwargs options w w0 task_id (Some ttl)
                Hid Hstale owner w2 Hresolve Hasync Hother) as (h & opts & Hrun & Hh & _).
    exists h. eexists. split; [exact Hrun |]. split; [exact Hh |].
    split; [reflexivity |].
    apply (cache_get_lookup _ _ _ _ Hget).
  - intros. apply retry_keeps_cache.
Qed.

(** [unique_key_cleared_on_terminal_state] for the task [report]: the key
    held by ["owner"] is gone after the success of the owner itself, and a
    second invocation that is given a reference to the owner leaves it. *)
Lemma unique_key_cleared_on_terminal_state_witness :
  cache_lookup "key-report"
    (snd (on_success Sample.report PyNone "owner" [] [] Sample.owned)) = None
  /\ exists h w',
       _trigger 1 Sample.report [] [] no_options Sample.owned = (Ok h, w')
       /\ AsyncResultWrapper_task_id h = "owner"
       /\ cache w' = cache Sample.owned
       /\ cache_lookup "key-report" w' = Some "owner".
Proof.
  destruct (unique_key_cleared_on_terminal_state Sample.report [] [] eq_refl eq_refl)
    as (Hsuccess & _ & Hreference & _).
  split; [apply Hsuccess |].
  apply (Hreference 0%nat no_options Sample.owned (set_next_uuid 1 Sample.owned)
           (set_next_uuid 1 Sample.owned) (set_next_uuid 1 Sample.owned) "uuid-0" 161 "owner");
    try reflexivity.
  discriminate.
Defined.

(** ** Waiting for the result *)

(** X14. When the queue's reference raises a [TimeoutError], the wrapper calls
    [on_invocation_timeout] and raises the same error. *)
Lemma get_timeout_callback self timeout propagate w ex w' :
  ResultStore.get (AsyncResultWrapper._result self) None true w = (Raise ex, w') ->
  is_TimeoutError ex = true ->
  AsyncResultWrapper_get self timeout propagate w
  = (Raise ex,
     set_log (log w' ++ [Ev_on_invocation_timeout (AsyncResultWrapper._invocation_id self)
                           (AsyncResultWrapper._args self) (AsyncResultWrapper._kwargs self)
                           (AsyncResultWrapper_task_id self) ex
                           (AsyncResultWrapper._options self)]) w').
Proof.
  intros Hget Htimeout. unfold AsyncResultWrapper_get, try_except.
  rewrite Hget, Htimeout. reflexivity.
Qed.

(** C5, where the code departs from it. The wrapper's [get] calls the
    reference's [get] with no argument, so whatever timeout it is given it
    behaves as with none. On the dispatch ["job"], which never reaches a
    terminal state, the reference's own [get(timeout=5)] raises
    [TimeoutError] after 5 seconds, and the wrapper's [get(timeout=5)] never
    returns: no error is raised and [on_invocation_timeout] is not called. *)
Theorem get_drops_timeout :
  (forall self timeout propagate w,
      AsyncResultWrapper_get self timeout propagate w = AsyncResultWrapper_get self None true w)
  /\ ResultStore.get (AsyncResultWrapper._result Sample.handle) (Some 5) true Sample.quiet
     = (Raise (TimeoutError "The operation timed out."), set_clock 1005 Sample.quiet)
  /\ AsyncResultWrapper_get Sample.handle (Some 5) true Sample.quiet = (Blocks, Sample.quiet).
Proof. split; [reflexivity |]. split; reflexivity. Qed.

(** ** Retrying *)

(** C6, as the claim has it, fails: the task has the delay list 10, 30, 90
    and is at its attempt 0, and [retry(countdown=5)] resubmits it for 5
    seconds from now with the caller's [max_retries], here [None]: neither
    the delay 10 nor the list length 3. *)
Lemma retry_countdown_beats_list :
  DjangoTask.default_retry_delays Sample.backoff = Some [10; 30; 90]
  /\ clock (Sample.working 0) = 1000
  /\ retry Sample.backoff [] [] None true None (Some 5) None None no_options (Sample.working 0)
     = (Ok tt,
        set_log [Ev_on_task_retry (Some "job") [] [] None (Datetime 1005);
                 Ev_super_retry [] [] None true (Datetime 1005) None]
          (Sample.working 0))
  /\ Datetime 1005 <> plus_seconds (Datetime 1000) 10
  /\ (None : option Z) <> Some (len [10; 30; 90]).
Proof. split; [reflexivity |]. split; [reflexivity |]. split; [reflexivity |]. split; discriminate. Qed.

(** The end of [retry]: the hook, then Celery's retry. *)
Lemma retry_resubmits self task_id args kwargs exc throw eta max_retries options w :
  (on_task_retry self task_id args kwargs exc eta ;;
   super_retry args kwargs exc throw eta max_retries options) w
  = (Ok tt,
     set_log (log w ++ [Ev_on_task_retry task_id args kwargs exc eta;
                        Ev_super_retry args kwargs exc throw eta max_retries]) w).
Proof.
  unfold on_task_retry, super_retry, bind, emit, set_log. cbn.
  rewrite <- app_assoc. reflexivity.
Qed.

(** C6, amended. When a non-empty delay list is passed to [retry], or none
    is passed, neither eta nor countdown is, and the task has a non-empty
    list: Celery's retry gets [max_retries] equal to the list length; with no
    eta the retry is for now plus [list[attempt]] when the attempt count is
    below the length, and for now plus [default_retry_delay] when it is not;
    an eta that is passed is kept. When no list is passed and eta or
    countdown is, the task's list is not read: Celery's retry gets the
    caller's [max_retries], and the eta passed or else now plus the
    countdown passed. *)
Theorem retry_delay_from_list self args kwargs exc throw eta countdown max_retries passed
    options w :
  let req := default default_request (head (request_stack w)) in
  let resubmitted eta' max_retries' :=
    (Ok tt,
     set_log (log w ++ [Ev_on_task_retry (req_id req) args kwargs exc eta';
                        Ev_super_retry args kwargs exc throw eta' max_retries']) w) in
  (forall delays,
      delays <> [] ->
      passed = Some delays
      \/ (passed = None /\ eta = None /\ countdown = None
          /\ DjangoTask.default_retry_delays self = Some delays) ->
      (forall e, eta = Some e ->
                 retry self args kwargs exc throw eta countdown max_retries passed options w
                 = resubmitted e (Some (len delays)))
      /\ (forall delay, eta = None -> delays !! retries req = Some delay ->
                        retry self args kwargs exc throw eta countdown max_retries passed options w
                        = resubmitted (plus_seconds (Datetime (clock w)) delay)
                            (Some (len delays)))
      /\ (eta = None -> (length delays <= retries req)%nat ->
          retry self args kwargs exc throw eta countdown max_retries passed options w
          = resubmitted (plus_seconds (Datetime (clock w)) (DjangoTask.default_retry_delay self))
              (Some (len delays))))
  /\ (truth passed = false ->
      (forall e, eta = Some e ->
                 retry self args kwargs exc throw eta countdown max_retries passed options w
                 = resubmitted e max_retries)
      /\ (forall c, eta = None -> countdown = Some c ->
                    retry self args kwargs exc throw eta countdown max_retries passed options w
                    = resubmitted (plus_seconds (Datetime (clock w)) c) max_retries)).
Proof.
  intros req resubmitted. split.
  - intros delays Hne Hlist.
    assert (Hcond : truth passed
                    || (bool_decide (eta = None) && bool_decide (countdown = None)
                        && truth (DjangoTask.default_retry_delays self)) = true).
    { destruct Hlist as [-> | (-> & -> & -> & ->)];
        destruct delays; try congruence; reflexivity. }
    assert (Huse : default [] (match passed with
                               | None => DjangoTask.default_retry_delays self
                               | Some _ => passed
                               end) = delays).
    { destruct Hlist as [-> | (-> & _ & _ & ->)]; reflexivity. }
    unfold retry. rewrite (bind_Ok request _ w req w eq_refl). cbv beta zeta.
    rewrite Hcond, Huse. cbn [fst snd].
    split; [| split].
    + intros e ->. erewrite bind_Ok; [apply retry_resubmits | reflexivity].
    + intros delay -> Hdelay.
      assert ((Z.of_nat (retries req) <? len delays) = true) as ->.
      { apply Z.ltb_lt. unfold len. apply lookup_lt_Some in Hdelay. lia. }
      rewrite Hdelay. erewrite bind_Ok; [apply retry_resubmits | reflexivity].
    + intros -> Hpast.
      assert ((Z.of_nat (retries req) <? len delays) = false) as ->.
      { apply Z.ltb_ge. unfold len. lia. }
      erewrite bind_Ok; [apply retry_resubmits | reflexivity].
  - intros Hpassed. split.
    + intros e ->. unfold retry. rewrite (bind_Ok request _ w req w eq_refl). cbv beta zeta.
      rewrite Hpassed. cbn [orb fst snd].
      erewrite bind_Ok; [apply retry_resubmits | reflexivity].
    + intros c -> ->. unfold retry. rewrite (bind_Ok request _ w req w eq_refl). cbv beta zeta.
      rewrite Hpassed. cbn [orb fst snd].
      erewrite bind_Ok; [apply retry_resubmits | reflexivity].
Qed.

(** [retry_delay_from_list] for the delays 10, 30, 90: the attempts 0, 1 and
    2 are resubmitted for 10, 30 and 90 seconds from now, the attempt 3 for
    the flat 180, each with [max_retries] 3. *)
Lemma retry_delay_from_list_witness :
  let resubmitted n eta' :=
    (Ok tt,
     set_log [Ev_on_task_retry (Some "job") [] [] None eta';
              Ev_super_retry [] [] None true eta' (Some 3)] (Sample.working n)) in
  retry Sample.backoff [] [] None true None None None None no_options (Sample.working 0)
  = resubmitted 0%nat (Datetime 1010)
  /\ retry Sample.backoff [] [] None true None None None None no_options (Sample.working 1)
     = resubmitted 1%nat (Datetime 1030)
  /\ retry Sample.backoff [] [] None true None None None None no_options (Sample.working 2)
     = resubmitted 2%nat (Datetime 1090)
  /\ retry Sample.backoff [] [] None true None None None None no_options (Sample.working 3)
     = resubmitted 3%nat (Datetime 1180).
Proof.
  assert (Hlist : forall n,
             let w := Sample.working n in
             (forall delay, [10; 30; 90] !! n = Some delay ->
                 retry Sample.backoff [] [] None true None None None None no_options w
                 = (Ok tt,
                    set_log [Ev_on_task_retry (Some "job") [] [] None
                               (plus_seconds (Datetime 1000) delay);
                             Ev_super_retry [] [] None true
                               (plus_seconds (Datetime 1000) delay) (Some 3)] w))
             /\ ((3 <= n)%nat ->
                 retry Sample.backoff [] [] None true None None None None no_options w
                 = (Ok tt,
                    set_log [Ev_on_task_retry (Some "job") [] [] None (Datetime 1180);
                             Ev_super_retry [] [] None true (Datetime 1180) (Some 3)] w))).
  { intros n w.
    destruct (retry_delay_from_list Sample.backoff [] [] None true None None None None
                no_options w) as (Hlisted & _).
    destruct (Hlisted [10; 30; 90] ltac:(discriminate)
                (or_intror (conj eq_refl (conj eq_refl (conj eq_refl eq_refl)))))
      as (_ & Hwithin & Hpast).
    split.
    - intros delay Hdelay. apply (Hwithin delay eq_refl Hdelay).
    - intros Hn. apply (Hpast eq_refl Hn). }
  cbv zeta. split; [| split; [| split]].
  - apply (proj1 (Hlist 0%nat) 10). reflexivity.
  - apply (proj1 (Hlist 1%nat) 30). reflexivity.
  - apply (proj1 (Hlist 2%nat) 90). reflexivity.
  - apply (proj2 (Hlist 3%nat)). lia.
Defined.

(** ** The paths at work *)

(** The race of the absent read: the key is held when the reserve is
    tried, the owner's terminal callback clears it before the read, the
    method calls itself, and the second reserve succeeds. *)
Example absent_read_retried :
  let w := set_interference [Idle; ForeignDelete "key-report"] Sample.owned in
  cache_add "key-report" "mine" (Some 161) w
  = (Ok false, set_interference [ForeignDelete "key-report"] Sample.owned)
  /\ fst (cache_get "key-report" (set_interference [ForeignDelete "key-report"] Sample.owned))
     = Ok None
  /\ fst (_get_unique_task_id 2 Sample.report (Some "key-report") "mine" (Some 161) w)
     = Ok "mine"
  /\ cache_lookup "key-report"
       (snd (_get_unique_task_id 2 Sample.report (Some "key-report") "mine" (Some 161) w))
     = Some "mine"
  /\ fst (_get_unique_task_id 1 Sample.report (Some "key-report") "mine" (Some 161) w)
     = Raise RecursionError.
Proof. cbv zeta. repeat split; vm_compute; reflexivity. Qed.

(** The same race by expiry: the key is live at the reserve and 200
    seconds later, at the read, it is past its time to live. *)
Example expired_read_retried :
  let w := set_interference [Idle; Elapse 200] Sample.owned in
  fst (cache_add "key-report" "mine" (Some 161) w) = Ok false
  /\ fst (cache_get "key-report" (snd (cache_add "key-report" "mine" (Some 161) w))) = Ok None
  /\ fst (_get_unique_task_id 2 Sample.report (Some "key-report") "mine" (Some 161) w)
     = Ok "mine".
Proof. cbv zeta. repeat split; vm_compute; reflexivity. Qed.

(** A unique task with no stale time limit fails at once through the
    caller-facing methods too, and on commit when it is deferred. *)
Example unbounded_unique_task_fails_fast :
  let failure := CeleryError "For unique tasks is require set task stale_time_limit" in
  let applied := apply_async 3 Sample.unbounded [] [] no_options Sample.quiet in
  let opened := snd (transaction_begin Sample.quiet) in
  let deferred := apply_async_on_commit 3 Sample.unbounded [] [] None no_options opened in
  let committed := transaction_commit 3 (snd deferred) in
  fst applied = Raise failure
  /\ broker (snd applied) = [] /\ cache (snd applied) = ∅
  /\ fst (apply 3 Sample.unbounded [] [] no_options Sample.quiet) = Raise failure
  /\ fst deferred = Ok (Deferred 0)
  /\ fst committed = Raise failure
  /\ broker (snd committed) = [] /\ cache (snd committed) = ∅.
Proof. cbv zeta. repeat split; vm_compute; reflexivity. Qed.

(** Deferred dispatch. Inside a transaction [apply_async_on_commit] hands
    nothing to the queue and returns a handle whose [get] raises; the commit
    hands one message to the queue and binds the handle the caller holds; a
    rollback hands nothing to the queue. *)
Example deferred_dispatch :
  let opened := snd (transaction_begin Sample.quiet) in
  let applied := apply_async_on_commit 3 Sample.report [] [] None no_options opened in
  let committed := snd (transaction_commit 3 (snd applied)) in
  let rolled_back := snd (transaction_rollback (snd applied)) in
  fst applied = Ok (Deferred 0)
  /\ broker (snd applied) = []
  /\ fst (Handle_get (Deferred 0) None true (snd applied))
     = Raise (NotTriggeredCeleryError "Celery task has not been triggered yet")
  /\ map (fun m => o_task_id (msg_options m)) (broker committed) = [Some "uuid-1"]
  /\ OnCommitAsyncResult_task_id (deref 0 committed) = Some "uuid-1"
  /\ broker rolled_back = []
  /\ OnCommitAsyncResult_task_id (deref 0 rolled_back) = None.
Proof. cbv zeta. repeat split; vm_compute; reflexivity. Qed.

(** [apply_async_and_get_result] with a timeout of 0 does not wait: the
    task is dispatched, [on_invocation_timeout] is called once and
    [TimeoutError] is raised. *)
Example no_wait_times_out :
  let called :=
    apply_async_and_get_result 3 Sample.report [] [] (Some 0) true no_options Sample.quiet in
  fst called = Raise (TimeoutError "The operation timed out.")
  /\ length (broker (snd called)) = 1%nat
  /\ (exists applied triggered kept,
         log (snd called)
         = [Ev_on_invocation_apply (Some "uuid-0") [] [] applied;
            Ev_on_invocation_trigger (Some "uuid-0") [] [] "uuid-1" triggered;
            Ev_on_invocation_timeout (Some "uuid-0") [] [] "uuid-1"
              (TimeoutError "The operation timed out.") kept]).
Proof.
  cbv zeta. split; [vm_compute; reflexivity |]. split; [vm_compute; reflexivity |].
  eexists _, _, _. vm_compute. reflexivity.
Qed.

(** * Further properties *)

(** ** What resolving the unique task id leaves alone *)

Lemma same_apart_from_cache_refl w : same_apart_from_cache w w.
Proof. repeat split. Qed.

Lemma same_apart_from_cache_trans w1 w2 w3 :
  same_apart_from_cache w1 w2 -> same_apart_from_cache w2 w3 -> same_apart_from_cache w1 w3.
Proof.
  unfold same_apart_from_cache.
  intros (? & ? & ? & ? & ? & ? & ?) (? & ? & ? & ? & ? & ? & ?). repeat split; congruence.
Qed.

Lemma cache_add_total key value timeout w :
  exists added w', cache_add key value timeout w = (Ok added, w').
Proof.
  unfold cache_add. destruct (store_add key value timeout (interfere w)) as [added w'].
  eauto.
Qed.

Lemma cache_get_total key w :
  exists read w', cache_get key w = (Ok read, w').
Proof. unfold cache_get. eauto. Qed.

(** Whatever it returns or raises, [_get_unique_task_id] touches the clock,
    the cache and the pending interference, and nothing else; and it never
    blocks. *)
Lemma unique_task_id_frame depth self unique_key task_id stale w r w' :
  _get_unique_task_id depth self unique_key task_id stale w = (r, w') ->
  same_apart_from_cache w w' /\ r <> Blocks.
Proof.
  revert w. induction depth as [| depth IH]; intros w; cbn [_get_unique_task_id].
  - intros [= <- <-]. split; [apply same_apart_from_cache_refl | discriminate].
  - destruct (truth unique_key && negb (truth stale)).
    { intros [= <- <-]. split; [apply same_apart_from_cache_refl | discriminate]. }
    destruct (truth unique_key && negb (DjangoTask.task_always_eager self)).
    2:{ intros [= <- <-]. split; [apply same_apart_from_cache_refl | discriminate]. }
    destruct unique_key as [key |].
    2:{ intros [= <- <-]. split; [apply same_apart_from_cache_refl | discriminate]. }
    destruct (cache_add_total key task_id stale w) as (added & w1 & Hadd).
    rewrite (bind_Ok _ _ _ _ _ Hadd).
    pose proof (cache_add_frame _ _ _ _ _ _ Hadd) as Hf1.
    destruct added.
    { intros [= <- <-]. split; [exact Hf1 | discriminate]. }
    destruct (cache_get_total key w1) as (read & w2 & Hget).
    rewrite (bind_Ok _ _ _ _ _ Hget).
    pose proof (cache_get_frame _ _ _ _ Hget) as Hf2.
    assert (Hf : same_apart_from_cache w w2)
      by (eapply same_apart_from_cache_trans; eassumption).
    destruct read as [owner |]; [destruct (truth owner) |].
    + intros [= <- <-]. split; [exact Hf | discriminate].
    + intros Hrec. destruct (IH _ Hrec) as (Hf3 & Hr).
      split; [eapply same_apart_from_cache_trans; eassumption | exact Hr].
    + intros Hrec. destruct (IH _ Hrec) as (Hf3 & Hr).
      split; [eapply same_apart_from_cache_trans; eassumption | exact Hr].
Qed.

(** ** The run in place *)

Lemma interfere_interference w : interference (interfere w) = tail (interference w).
Proof.
  unfold interfere. destruct (interference w) as [| i rest] eqn:Hi; [exact Hi |].
  destruct i as [| d | k v ttl | k]; cbn [apply_interference tail]; try reflexivity.
  unfold store_add. destruct (cache_lookup k _); reflexivity.
Qed.

Lemma interfere_set_log l w : interfere (set_log l w) = set_log l (interfere w).
Proof.
  unfold interfere. cbn [interference set_log].
  destruct (interference w) as [| i rest]; [reflexivity |].
  destruct i as [| d | k v ttl | k]; cbn [apply_interference]; try reflexivity.
  unfold store_add, cache_lookup. cbn [cache clock set_log set_interference].
  destruct (cache w !! k) as [e |]; [destruct (live (clock w) e) |]; reflexivity.
Qed.

(** Options that carry the task id already are as they are with it. *)
Lemma with_task_id_same i o : o_task_id o = Some i -> with_task_id i o = o.
Proof. destruct o. cbn. intros ->. reflexivity. Qed.

(** [_clear_unique_key] deletes the key of the arguments, or does
    nothing. *)
Lemma clear_unique_key_spec self args kwargs v :
  exists v',
    _clear_unique_key self args kwargs v = (Ok tt, v')
    /\ same_apart_from_cache v v' /\ released self args kwargs v v'.
Proof.
  unfold _clear_unique_key, _get_unique_key, released.
  destruct (DjangoTask.unique self);
    [destruct (truth (DjangoTask.unique_key_generator self args kwargs)) eqn:Hkey |].
  - unfold cache_delete. eexists. split; [reflexivity |].
    pose proof (interfere_frame v) as Hframe. split.
    + unfold same_apart_from_cache in *. cbn [broker log request_stack next_uuid backend heap
        outage set_cache]. exact Hframe.
    + cbn [cache interference set_cache]. rewrite interfere_interference.
      split; [auto | intros [| ]; discriminate].
  - exists v. split; [reflexivity |]. split; [apply same_apart_from_cache_refl |].
    split; [discriminate | auto].
  - exists v. split; [reflexivity |]. split; [apply same_apart_from_cache_refl |].
    split; [discriminate | auto].
Qed.

(** A terminal callback: the hook, and the key released. *)
Lemma terminal_callback_spec self args kwargs (e : Event) w :
  exists w',
    (emit e ;; _clear_unique_key self args kwargs) w = (Ok tt, w')
    /\ log w' = log w ++ [e]
    /\ broker w' = broker w /\ request_stack w' = request_stack w /\ heap w' = heap w
    /\ outage w' = outage w
    /\ released self args kwargs w w'.
Proof.
  unfold bind, emit.
  destruct (clear_unique_key_spec self args kwargs (set_log (log w ++ [e]) w))
    as (w' & -> & (Hb & Hl & Hr & _ & _ & Hh & Ho) & Hreleased).
  exists w'. split; [reflexivity |].
  cbn [log broker request_stack heap outage set_log] in *.
  split; [exact Hl |]. split; [exact Hb |]. split; [exact Hr |]. split; [exact Hh |].
  split; [exact Ho |].
  unfold released in *. rewrite interfere_set_log in Hreleased. exact Hreleased.
Qed.

(** The interference that comes next depends on the cache, the clock and
    what is pending, and on nothing else. *)
Lemma interfere_ext v w :
  interference v = interference w -> cache v = cache w -> clock v = clock w ->
  cache (interfere v) = cache (interfere w).
Proof.
  intros Hi Hc Hclock. unfold interfere. rewrite Hi.
  destruct (interference w) as [| i rest]; [exact Hc |].
  destruct i as [| d | k value ttl | k]; cbn [apply_interference cache set_cache set_clock
    set_interference]; try assumption.
  - unfold store_add, cache_lookup. cbn [cache clock set_interference]. rewrite Hc, Hclock.
    destruct (cache w !! k) as [e |]; [destruct (live (clock w) e) |];
      cbn [snd cache set_cache set_interference]; congruence.
  - congruence.
Qed.

(** What [released] reads of the world it starts from. *)
Lemma released_ext self args kwargs v w w' :
  interference v = interference w -> cache v = cache w -> clock v = clock w ->
  released self args kwargs v w' -> released self args kwargs w w'.
Proof.
  unfold released. intros Hi Hc Hclock (Hcleared & Hkept). split.
  - intros Hunique Hkey. rewrite <- (interfere_ext v w Hi Hc Hclock), <- Hi.
    apply Hcleared; assumption.
  - intros Hskip. rewrite <- Hc, <- Hi, <- Hclock. apply Hkept, Hskip.
Qed.

(** Celery's tracer: the task is started under a fresh request, and when the
    handler is back the terminal callback follows and the request is gone. *)
Lemma trace_task_spec self task_id args kwargs attempt w :
  exists w',
    trace_task self task_id args kwargs attempt w
    = (match DjangoTask.run self args kwargs with Blocks => Blocks | o => Ok o end, w')
    /\ log w' = log w ++ run_events task_id args kwargs (DjangoTask.run self args kwargs)
    /\ broker w' = broker w /\ heap w' = heap w /\ outage w' = outage w
    /\ (DjangoTask.run self args kwargs <> Blocks ->
        request_stack w' = request_stack w /\ released self args kwargs w w').
Proof.
  unfold trace_task, push_request. unfold bind at 1.
  unfold bind at 1, caught, __call__. unfold bind at 1, request_stack_top.
  cbn [request_stack set_request_stack head called_directly _protected req_id].
  unfold bind at 1, protect_top. cbn [request_stack set_request_stack].
  unfold bind at 1, on_task_start, emit, _start, lift.
  match goal with
  | |- context [set_log ?l (set_request_stack ?st (set_request_stack ?st0 w))] =>
      set (started := set_log l (set_request_stack st (set_request_stack st0 w)))
  end.
  destruct (DjangoTask.run self args kwargs) as [retval | exc |] eqn:Hrun.
  - unfold on_success, on_task_success.
    destruct (terminal_callback_spec self args kwargs
                (Ev_on_task_success task_id args kwargs retval) started)
      as (w1 & Hdone & Hl & Hb & Hr & Hh & Ho & Hreleased).
    unfold bind at 1. rewrite Hdone. unfold bind, pop_request, ret.
    eexists. split; [reflexivity |].
    cbn [log broker heap outage request_stack set_request_stack run_events].
    rewrite Hl, Hb, Hh, Ho, Hr. subst started.
    cbn [log broker heap outage request_stack set_request_stack set_log tail].
    rewrite <- app_assoc.
    split; [reflexivity |]. split; [reflexivity |]. split; [reflexivity |].
    split; [reflexivity |]. intros _. split; [reflexivity |].
    refine (released_ext self args kwargs _ w _ _ _ _ Hreleased); reflexivity.
  - unfold on_failure, on_task_failure.
    destruct (terminal_callback_spec self args kwargs
                (Ev_on_task_failure task_id args kwargs exc) started)
      as (w1 & Hdone & Hl & Hb & Hr & Hh & Ho & Hreleased).
    unfold bind at 1. rewrite Hdone. unfold bind, pop_request, ret.
    eexists. split; [reflexivity |].
    cbn [log broker heap outage request_stack set_request_stack run_events].
    rewrite Hl, Hb, Hh, Ho, Hr. subst started.
    cbn [log broker heap outage request_stack set_request_stack set_log tail].
    rewrite <- app_assoc.
    split; [reflexivity |]. split; [reflexivity |]. split; [reflexivity |].
    split; [reflexivity |]. intros _. split; [reflexivity |].
    refine (released_ext self args kwargs _ w _ _ _ _ Hreleased); reflexivity.
  - eexists. split; [reflexivity |]. subst started.
    cbn [log broker heap outage set_request_stack set_log run_events].
    split; [reflexivity |]. split; [reflexivity |]. split; [reflexivity |].
    split; [reflexivity |]. congruence.
Qed.

(** [Task.apply]: the call is taken, the task runs in place under the task
    id of the options, or a fresh one, and the reference holds what the
    handler returned or raised. *)
Lemma super_apply_spec self args kwargs options task_id w w0 :
  or_task_uuid (o_task_id options) w = (Ok task_id, w0) ->
  exists w',
    super_apply self args kwargs options w
    = (match DjangoTask.run self args kwargs with
       | Blocks => Blocks
       | o => Ok (EagerResult task_id o)
       end, w')
    /\ log w' = log w0 ++ run_events task_id args kwargs (DjangoTask.run self args kwargs)
    /\ broker w' = broker w0 ++ [{| msg_task := DjangoTask.name self; msg_args := args;
                                    msg_kwargs := kwargs; msg_options := options;
                                    msg_async := default false (o_is_async options) |}]
    /\ heap w' = heap w0 /\ outage w' = outage w0
    /\ (DjangoTask.run self args kwargs <> Blocks ->
        request_stack w' = request_stack w0 /\ released self args kwargs w0 w').
Proof.
  intros Hid. unfold super_apply.
  rewrite (bind_Ok _ _ _ _ _ Hid).
  unfold bind at 1, accept.
  match goal with
  | |- context [bind (trace_task self task_id args kwargs ?n) _ ?v] =>
      destruct (trace_task_spec self task_id args kwargs n v)
        as (w' & Hrun & Hl & Hb & Hh & Ho & Hback)
  end.
  exists w'. unfold bind. rewrite Hrun.
  cbn [log broker heap outage set_broker] in Hl, Hb, Hh, Ho.
  split; [destruct (DjangoTask.run self args kwargs); reflexivity |].
  split; [exact Hl |]. split; [exact Hb |]. split; [exact Hh |]. split; [exact Ho |].
  intros Hreturns. destruct (Hback Hreturns) as (Hr & Hreleased).
  split; [exact Hr |].
  refine (released_ext self args kwargs _ w0 w' _ _ _ Hreleased); reflexivity.
Qed.

Section Wrapped.

Variables (self : DjangoTask.t) (args : Args) (kwargs : Kwargs).
Variables (options : Options) (task_id : string) (w : World).

Hypothesis Hid : o_task_id options = Some task_id.
Hypothesis Htruthy : truth task_id = true.

(** Asynchronously and not in always-eager mode, the message goes to the
    broker, which takes it or raises. *)
Lemma apply_and_get_wrapped_result_published :
  default false (o_is_async options) = true ->
  DjangoTask.task_always_eager self = false ->
  _apply_and_get_wrapped_result self args kwargs options w
  = match outage w with
    | Some ex => (Raise ex, w)
    | None =>
        (Ok (AsyncResultWrapper.Build (o_invocation_id options) (AsyncResult task_id) self
               args kwargs (without_invocation options)),
         set_broker
           (broker w ++ [{| msg_task := DjangoTask.name self; msg_args := args;
                            msg_kwargs := kwargs; msg_options := options;
                            msg_async := true |}]) w)
    end.
Proof.
  intros Hasync Hqueued. unfold _apply_and_get_wrapped_result.
  rewrite Hasync. unfold super_apply_async. rewrite Hid.
  unfold bind. rewrite (or_task_uuid_given task_id w Htruthy), Hqueued.
  unfold publish, ret.
  destruct (o_is_async options) as [[|] |]; try discriminate.
  destruct (outage w); reflexivity.
Qed.

(** Synchronously, or in always-eager mode, the task runs in place. *)
Lemma apply_and_get_wrapped_result_in_place :
  default false (o_is_async options) = false \/ DjangoTask.task_always_eager self = true ->
  exists w',
    _apply_and_get_wrapped_result self args kwargs options w
    = (match DjangoTask.run self args kwargs with
       | Blocks => Blocks
       | o => Ok (AsyncResultWrapper.Build (o_invocation_id options) (EagerResult task_id o)
                    self args kwargs (without_invocation options))
       end, w')
    /\ log w' = log w ++ run_events task_id args kwargs (DjangoTask.run self args kwargs)
    /\ broker w' = broker w ++ [{| msg_task := DjangoTask.name self; msg_args := args;
                                   msg_kwargs := kwargs; msg_options := options;
                                   msg_async := default false (o_is_async options) |}]
    /\ heap w' = heap w /\ outage w' = outage w
    /\ (DjangoTask.run self args kwargs <> Blocks ->
        request_stack w' = request_stack w /\ released self args kwargs w w').
Proof.
  intros Hplace.
  assert (Hgiven : or_task_uuid (o_task_id options) w = (Ok task_id, w))
    by (rewrite Hid; apply or_task_uuid_given, Htruthy).
  destruct (super_apply_spec self args kwargs options task_id w w Hgiven)
    as (w' & Hrun & Hrest).
  exists w'. split; [| exact Hrest].
  unfold _apply_and_get_wrapped_result.
  destruct (default false (o_is_async options)) eqn:Hasync.
  - destruct Hplace as [| Heager]; [discriminate |].
    unfold super_apply_async. rewrite Hid.
    unfold bind at 1. unfold bind at 1. rewrite (or_task_uuid_given task_id w Htruthy), Heager.
    rewrite (with_task_id_same _ _ Hid), Hrun.
    destruct (DjangoTask.run self args kwargs); reflexivity.
  - unfold bind. rewrite Hrun. destruct (DjangoTask.run self args kwargs); reflexivity.
Qed.

End Wrapped.

(** The [self.apply] that Celery's [apply_async] calls in always-eager mode
    for [_apply_and_get_wrapped_result]: with [is_async] among the options,
    [apply] is [super().apply]. *)
Lemma apply_with_is_async depth self args kwargs options :
  is_Some (o_retries options) \/ is_Some (o_is_async options) ->
  apply depth self args kwargs options
  = (result <- super_apply self args kwargs options ;; ret (Bare result)).
Proof.
  intros Hreentry. unfold apply.
  assert (bool_decide (is_Some (o_retries options))
          || bool_decide (is_Some (o_is_async options)) = true) as ->.
  { destruct Hreentry as [H | H].
    - rewrite (bool_decide_eq_true_2 _ H). reflexivity.
    - rewrite (bool_decide_eq_true_2 _ H). apply orb_true_r. }
  reflexivity.
Qed.

(** So the [self.apply] of [_apply_and_get_wrapped_result] is the [apply]
    of the task: with [is_async] among the options, Celery's [apply_async]
    calling [apply] is Celery's [apply_async] calling [super().apply]. *)
Lemma apply_async_calls_apply depth self args kwargs options w :
  is_Some (o_is_async options) ->
  super_apply_async (apply depth self) Bare self args kwargs options w
  = (result <- super_apply_async (super_apply self) id self args kwargs options ;;
     ret (Bare result)) w.
Proof.
  intros Hasync. unfold super_apply_async.
  destruct (or_task_uuid_spec (o_task_id options) w) as (task_id & w0 & Hid & _).
  unfold bind. rewrite Hid.
  destruct (DjangoTask.task_always_eager self).
  - rewrite apply_with_is_async by (right; exact Hasync). unfold bind.
    destruct (super_apply self args kwargs (with_task_id task_id options) w0)
      as [[r | ex |] w']; reflexivity.
  - unfold publish, ret. destruct (outage w0); reflexivity.
Qed.

(** ** Every way through [_trigger] *)

(** The choice of the task id touches the uuid counter only. *)
Lemma or_task_uuid_total x w :
  exists i w', or_task_uuid x w = (Ok i, w')
               /\ truth i = true
               /\ same_apart_from_uuid w w'.
Proof.
  unfold or_task_uuid, same_apart_from_uuid.
  destruct x as [i |]; [destruct (truth i) eqn:Hi |].
  - exists i, w. repeat split; assumption.
  - eexists _, _. split; [reflexivity |]. repeat split.
  - eexists _, _. split; [reflexivity |]. repeat split.
Qed.

Section Trigger_cases.

Variables (depth : nat) (self : DjangoTask.t) (args : Args) (kwargs : Kwargs).
Variables (options : Options) (w w0 : World) (task_id : string).

Hypothesis Hid : or_task_uuid (o_task_id options) w = (Ok task_id, w0).

(** A stale time limit that cannot be computed stops the trigger where it
    stands. *)
Lemma trigger_raises_stale ex :
  _get_stale_time_limit self (o_expires options)
    (_get_time_limit self (o_time_limit options)) (o_stale_time_limit options)
    (Datetime (clock w0)) = Raise ex ->
  _trigger depth self args kwargs options w = (Raise ex, w0).
Proof.
  intros Hstale. unfold _trigger.
  rewrite (bind_Ok _ _ _ _ _ Hid).
  unfold bind at 1, now. unfold bind at 1, lift. rewrite Hstale. reflexivity.
Qed.

(** With the unique task id resolved, the two ways out of [_trigger], and
    the options that go out with either: a reference to the holder of the key,
    or the hook [on_invocation_trigger] and the dispatch. *)
Lemma trigger_resolved stale uid w2 :
  _get_stale_time_limit self (o_expires options)
    (_get_time_limit self (o_time_limit options)) (o_stale_time_limit options)
    (Datetime (clock w0)) = Ok stale ->
  _get_unique_task_id depth self (_get_unique_key self args kwargs) task_id stale w0
  = (Ok uid, w2) ->
  exists sent,
    triggered self options sent task_id (Datetime (clock w0))
    /\ o_stale_time_limit sent = stale
    /\ _trigger depth self args kwargs options w
       = if default true (o_is_async options) && negb (String.eqb uid task_id)
         then
           (Ok (AsyncResultWrapper.Build (o_invocation_id options) (AsyncResult uid) self
                  args kwargs (with_task_id uid sent)),
            set_log (log w2 ++ [Ev_on_invocation_unique (o_invocation_id options) args
                                  kwargs uid (with_task_id uid sent)]) w2)
         else
           _apply_and_get_wrapped_result self args kwargs sent
             (set_log (log w2 ++ [Ev_on_invocation_trigger (o_invocation_id options) args
                                    kwargs task_id sent]) w2).
Proof.
  intros Hstale Hresolve. unfold _trigger.
  rewrite (bind_Ok _ _ _ _ _ Hid).
  unfold bind at 1, now. unfold bind at 1, lift. rewrite Hstale.
  rewrite (bind_Ok _ _ _ _ _ Hresolve).
  eexists. split; [| split]; cycle 2.
  - destruct (default true (o_is_async options) && negb (String.eqb uid task_id)) eqn:Hway.
    + unfold on_invocation_unique, bind, emit, ret. reflexivity.
    + unfold on_invocation_trigger. unfold bind at 1, emit. reflexivity.
  - unfold triggered. cbn. repeat split. exact Hstale.
  - reflexivity.
Qed.

End Trigger_cases.

(** The stale time limit is computed or raises; it does not block. *)
Lemma get_stale_time_limit_returns self expires time_limit stale_time_limit t :
  _get_stale_time_limit self expires time_limit stale_time_limit t <> Blocks.
Proof.
  unfold _get_stale_time_limit.
  repeat match goal with
         | |- context [match ?x with _ => _ end] => destruct x
         end; discriminate.
Qed.

(** Every run of [_trigger], split by the way it takes: the stale time
    limit raises; resolving the unique task id raises; a reference to the
    holder of the key is returned; [on_invocation_trigger] is called and the
    invocation is dispatched. *)
Lemma trigger_ways depth self args kwargs options w :
  exists task_id w0,
    or_task_uuid (o_task_id options) w = (Ok task_id, w0)
    /\ truth task_id = true
    /\ same_apart_from_uuid w w0
    /\ outage w0 = outage w
    /\ ((exists ex, _trigger depth self args kwargs options w = (Raise ex, w0))
        \/ (exists ex w2,
               same_apart_from_cache w0 w2
               /\ _trigger depth self args kwargs options w = (Raise ex, w2))
        \/ (exists uid w2 sent,
               _get_unique_task_id depth self (_get_unique_key self args kwargs) task_id
                 (o_stale_time_limit sent) w0 = (Ok uid, w2)
               /\ same_apart_from_cache w0 w2
               /\ triggered self options sent task_id (Datetime (clock w0))
               /\ _trigger depth self args kwargs options w
                  = if default true (o_is_async options) && negb (String.eqb uid task_id)
                    then
                      (Ok (AsyncResultWrapper.Build (o_invocation_id options)
                             (AsyncResult uid) self args kwargs (with_task_id uid sent)),
                       set_log (log w2 ++ [Ev_on_invocation_unique (o_invocation_id options)
                                             args kwargs uid (with_task_id uid sent)]) w2)
                    else
                      _apply_and_get_wrapped_result self args kwargs sent
                        (set_log (log w2 ++ [Ev_on_invocation_trigger
                                               (o_invocation_id options) args kwargs
                                               task_id sent]) w2))).
Proof.
  destruct (or_task_uuid_total (o_task_id options) w) as (task_id & w0 & Hid & Htruthy & Hsame).
  exists task_id, w0. split; [exact Hid |]. split; [exact Htruthy |]. split; [exact Hsame |].
  split.
  { pose proof (or_task_uuid_outage (o_task_id options) w) as Ho. rewrite Hid in Ho.
    exact Ho. }
  destruct (_get_stale_time_limit self (o_expires options)
              (_get_time_limit self (o_time_limit options)) (o_stale_time_limit options)
              (Datetime (clock w0))) as [stale | ex |] eqn:Hstale.
  - destruct (_get_unique_task_id depth self (_get_unique_key self args kwargs) task_id
                stale w0) as [[uid | ex |] w2] eqn:Hresolve.
    + right. right.
      destruct (trigger_resolved depth self args kwargs options w w0 task_id Hid stale uid w2
                  Hstale Hresolve) as (sent & Hsent & Hlimit & Hrun).
      exists uid, w2, sent. rewrite Hlimit.
      split; [exact Hresolve |].
      split; [apply (unique_task_id_frame _ _ _ _ _ _ _ _ Hresolve) |]. auto.
    + right. left. exists ex, w2.
      split; [apply (unique_task_id_frame _ _ _ _ _ _ _ _ Hresolve) |].
      apply (trigger_raises depth self args kwargs options w w0 task_id stale Hid Hstale).
      exact Hresolve.
    + destruct (unique_task_id_frame _ _ _ _ _ _ _ _ Hresolve) as (_ & Hnot).
      contradiction.
  - left. exists ex. apply (trigger_raises_stale depth self args kwargs options w w0 task_id Hid).
    exact Hstale.
  - destruct (get_stale_time_limit_returns _ _ _ _ _ Hstale).
Qed.

(** Every run of [_trigger], by its outcome. A run that returns has given
    a reference to another dispatch, on the asynchronous path, or has
    dispatched the invocation under its own task id: to the broker, or in
    place when the path is synchronous or the mode always-eager. A run that
    raises has dispatched nothing: it raised before the hook, or the broker
    was out of reach after it. A run that does not return is a run in place of
    a handler that does not return. *)
Lemma trigger_outcome depth self args kwargs options w :
  let run := _trigger depth self args kwargs options w in
  let is_async := default true (o_is_async options) in
  let in_place := negb is_async || DjangoTask.task_always_eager self in
  let invocation_id := o_invocation_id options in
  exists task_id,
    fst (or_task_uuid (o_task_id options) w) = Ok task_id
    /\ truth task_id = true
    /\ heap (snd run) = heap w /\ outage (snd run) = outage w
    /\ match fst run with
       | Ok h =>
           AsyncResultWrapper._task h = self /\ AsyncResultWrapper._args h = args
           /\ AsyncResultWrapper._kwargs h = kwargs
           /\ AsyncResultWrapper._invocation_id h = invocation_id
           /\ request_stack (snd run) = request_stack w
           /\ ((is_async = true /\ AsyncResultWrapper_task_id h <> task_id
                /\ broker (snd run) = broker w
                /\ exists sent,
                    o_task_id sent = Some (AsyncResultWrapper_task_id h)
                    /\ log (snd run)
                       = log w ++ [Ev_on_invocation_unique invocation_id args kwargs
                                     (AsyncResultWrapper_task_id h) sent])
               \/ (AsyncResultWrapper_task_id h = task_id
                   /\ exists sent,
                       triggered self options sent task_id (Datetime (clock w))
                       /\ broker (snd run)
                          = broker w ++ [{| msg_task := DjangoTask.name self;
                                            msg_args := args; msg_kwargs := kwargs;
                                            msg_options := sent; msg_async := is_async |}]
                       /\ if in_place
                          then AsyncResultWrapper._result h
                               = EagerResult task_id (DjangoTask.run self args kwargs)
                               /\ DjangoTask.run self args kwargs <> Blocks
                               /\ log (snd run)
                                  = log w ++ Ev_on_invocation_trigger invocation_id args
                                               kwargs task_id sent
                                             :: run_events task_id args kwargs
                                                  (DjangoTask.run self args kwargs)
                          else AsyncResultWrapper._result h = AsyncResult task_id
                               /\ outage w = None
                               /\ log (snd run)
                                  = log w ++ [Ev_on_invocation_trigger invocation_id args
                                                kwargs task_id sent]))
       | Raise ex =>
           broker (snd run) = broker w
           /\ (log (snd run) = log w
               \/ (in_place = false /\ outage w = Some ex
                   /\ exists sent,
                       log (snd run)
                       = log w ++ [Ev_on_invocation_trigger invocation_id args kwargs
                                     task_id sent]))
       | Blocks =>
           in_place = true /\ DjangoTask.run self args kwargs = Blocks
           /\ exists sent,
               triggered self options sent task_id (Datetime (clock w))
               /\ broker (snd run)
                  = broker w ++ [{| msg_task := DjangoTask.name self; msg_args := args;
                                    msg_kwargs := kwargs; msg_options := sent;
                                    msg_async := is_async |}]
               /\ log (snd run)
                  = log w ++ [Ev_on_invocation_trigger invocation_id args kwargs task_id sent;
                              Ev_on_task_start (Some task_id) args kwargs]
       end.
Proof.
  cbv zeta.
  destruct (trigger_ways depth self args kwargs options w)
    as (task_id & w0 & Hid & Htruthy & Hsame & Ho0 & Hways).
  destruct Hsame as (Hc0 & _ & _ & Hb0 & Hl0 & Hr0 & _ & Hh0 & _).
  exists task_id. rewrite Hid. split; [reflexivity |]. split; [exact Htruthy |].
  destruct Hways as [(ex & Hrun) | [(ex & w2 & Hframe & Hrun)
                                   | (uid & w2 & sent & Hresolve & Hframe & Hsent & Hrun)]].
  - rewrite Hrun. cbn [fst snd]. auto.
  - rewrite Hrun. cbn [fst snd].
    destruct Hframe as (Hb & Hl & _ & _ & _ & Hh & Ho).
    split; [congruence |]. split; [congruence |]. split; [congruence |]. left. congruence.
  - destruct Hframe as (Hb & Hl & Hr & _ & _ & Hh & Ho).
    pose proof Hsent as (Hinv & Htask & _ & _ & _ & _ & Hasync & _).
    rewrite Hc0 in Hsent. rewrite Hrun.
    assert (Hflag : default false (o_is_async sent) = default true (o_is_async options))
      by (rewrite Hasync; reflexivity).
    destruct (default true (o_is_async options)) eqn:His_async; cbn [andb negb orb].
    + destruct (String.eqb_spec uid task_id) as [-> | Hother]; cbn [negb].
      * (* the invocation's own id, asynchronously *)
        destruct (DjangoTask.task_always_eager self) eqn:Heager.
        -- match goal with
           | |- context [_apply_and_get_wrapped_result self args kwargs sent ?v] =>
               destruct (apply_and_get_wrapped_result_in_place self args kwargs sent task_id v
                           Htask Htruthy (or_intror Heager))
                 as (w' & Hcall & Hl' & Hb' & Hh' & Ho' & Hback)
           end.
           rewrite Hcall. cbn [log broker heap outage set_log] in Hl', Hb', Hh', Ho'.
           rewrite Hflag in Hb'.
           destruct (DjangoTask.run self args kwargs) as [retval | exc |] eqn:Hhandler;
             cbn [fst snd].
           ++ destruct (Hback ltac:(discriminate)) as (Hr' & _).
              cbn [request_stack set_log] in Hr'.
              split; [congruence |]. split; [congruence |]. rewrite Hinv.
              repeat (split; [reflexivity |]). split; [congruence |].
              right. split; [reflexivity |]. exists sent. split; [exact Hsent |].
              split; [rewrite Hb', Hb, Hb0; reflexivity |].
              split; [reflexivity |]. split; [discriminate |].
              rewrite Hl', Hl, Hl0, <- app_assoc. reflexivity.
           ++ destruct (Hback ltac:(discriminate)) as (Hr' & _).
              cbn [request_stack set_log] in Hr'.
              split; [congruence |]. split; [congruence |]. rewrite Hinv.
              repeat (split; [reflexivity |]). split; [congruence |].
              right. split; [reflexivity |]. exists sent. split; [exact Hsent |].
              split; [rewrite Hb', Hb, Hb0; reflexivity |].
              split; [reflexivity |]. split; [discriminate |].
              rewrite Hl', Hl, Hl0, <- app_assoc. reflexivity.
           ++ split; [congruence |]. split; [congruence |].
              split; [reflexivity |]. split; [reflexivity |].
              exists sent. split; [exact Hsent |].
              split; [rewrite Hb', Hb, Hb0; reflexivity |].
              rewrite Hl', Hl, Hl0, <- app_assoc. reflexivity.
        -- rewrite (apply_and_get_wrapped_result_published self args kwargs sent task_id _
                      Htask Htruthy) by (exact Hflag || exact Heager).
           cbn [outage set_log]. rewrite Ho, Ho0.
           destruct (outage w) as [ex |] eqn:Hreach; cbn [fst snd heap broker log set_log
             set_broker outage request_stack].
           ++ split; [congruence |]. split; [congruence |]. split; [congruence |].
              right. split; [reflexivity |]. split; [reflexivity |].
              exists sent. rewrite Hl, Hl0. reflexivity.
           ++ split; [congruence |]. split; [congruence |]. rewrite Hinv.
              repeat (split; [reflexivity |]). split; [congruence |].
              right. split; [reflexivity |]. exists sent. split; [exact Hsent |].
              split; [rewrite Hb, Hb0; reflexivity |].
              split; [reflexivity |]. split; [reflexivity |].
              rewrite Hl, Hl0. reflexivity.
      * (* a reference to the holder *)
        cbn [fst snd heap outage set_log request_stack broker log AsyncResultWrapper._task
             AsyncResultWrapper._args AsyncResultWrapper._kwargs
             AsyncResultWrapper._invocation_id].
        split; [congruence |]. split; [congruence |].
        repeat (split; [reflexivity |]). split; [congruence |].
        left. split; [reflexivity |]. split; [exact Hother |]. split; [congruence |].
        eexists. split; [| rewrite Hl, Hl0; reflexivity]. reflexivity.
    + (* synchronously *)
      match goal with
      | |- context [_apply_and_get_wrapped_result self args kwargs sent ?v] =>
          destruct (apply_and_get_wrapped_result_in_place self args kwargs sent task_id v
                      Htask Htruthy (or_introl Hflag))
            as (w' & Hcall & Hl' & Hb' & Hh' & Ho' & Hback)
      end.
      rewrite Hcall. cbn [log broker heap outage set_log] in Hl', Hb', Hh', Ho'.
      rewrite Hflag in Hb'.
      destruct (DjangoTask.run self args kwargs) as [retval | exc |] eqn:Hhandler;
        cbn [fst snd].
      * destruct (Hback ltac:(discriminate)) as (Hr' & _).
        cbn [request_stack set_log] in Hr'.
        split; [congruence |]. split; [congruence |]. rewrite Hinv.
        repeat (split; [reflexivity |]). split; [congruence |].
        right. split; [reflexivity |]. exists sent. split; [exact Hsent |].
        split; [rewrite Hb', Hb, Hb0; reflexivity |].
        split; [reflexivity |]. split; [discriminate |].
        rewrite Hl', Hl, Hl0, <- app_assoc. reflexivity.
      * destruct (Hback ltac:(discriminate)) as (Hr' & _).
        cbn [request_stack set_log] in Hr'.
        split; [congruence |]. split; [congruence |]. rewrite Hinv.
        repeat (split; [reflexivity |]). split; [congruence |].
        right. split; [reflexivity |]. exists sent. split; [exact Hsent |].
        split; [rewrite Hb', Hb, Hb0; reflexivity |].
        split; [reflexivity |]. split; [discriminate |].
        rewrite Hl', Hl, Hl0, <- app_assoc. reflexivity.
      * split; [congruence |]. split; [congruence |].
        split; [reflexivity |]. split; [reflexivity |].
        exists sent. split; [exact Hsent |].
        split; [rewrite Hb', Hb, Hb0; reflexivity |].
        rewrite Hl', Hl, Hl0, <- app_assoc. reflexivity.
Qed.

(** X1. Hooks and queue in step. A run of [_trigger] that returns has
    called exactly one of [on_invocation_unique] and [on_invocation_trigger],
    with the task id of the handle it returns. With [on_invocation_unique],
    which happens on the asynchronous path only, nothing is dispatched. With
    [on_invocation_trigger] one dispatch follows, under that task id: to the
    broker, and then no other hook is called, or, on the synchronous path and
    in always-eager mode, in place, and then [on_task_start] follows and, when
    the handler returns, [on_task_success]. A run that raises has dispatched
    nothing: either no hook was called, or [on_invocation_trigger] was and the
    broker was out of reach. A run that does not return is a run in place of a
    handler that does not return. *)
Theorem trigger_hook_and_message depth self args kwargs options w :
  let run := _trigger depth self args kwargs options w in
  let is_async := default true (o_is_async options) in
  let in_place := negb is_async || DjangoTask.task_always_eager self in
  match fst run with
  | Ok h =>
      (exists sent,
          is_async = true
          /\ log (snd run)
             = log w ++ [Ev_on_invocation_unique (o_invocation_id options) args kwargs
                           (AsyncResultWrapper_task_id h) sent]
          /\ broker (snd run) = broker w)
      \/ (exists sent ran,
             log (snd run)
             = log w ++ Ev_on_invocation_trigger (o_invocation_id options) args kwargs
                          (AsyncResultWrapper_task_id h) sent :: ran
             /\ broker (snd run)
                = broker w ++ [{| msg_task := DjangoTask.name self; msg_args := args;
                                  msg_kwargs := kwargs; msg_options := sent;
                                  msg_async := is_async |}]
             /\ o_task_id sent = Some (AsyncResultWrapper_task_id h)
             /\ (in_place = false -> ran = [])
             /\ (in_place = true ->
                 exists rest,
                   ran = Ev_on_task_start (Some (AsyncResultWrapper_task_id h)) args kwargs
                         :: rest
                   /\ forall retval,
                       DjangoTask.run self args kwargs = Ok retval ->
                       rest = [Ev_on_task_success (AsyncResultWrapper_task_id h) args kwargs
                                 retval]))
  | Raise ex =>
      broker (snd run) = broker w
      /\ (log (snd run) = log w
          \/ (in_place = false /\ outage w = Some ex
              /\ exists task_id sent,
                  log (snd run)
                  = log w ++ [Ev_on_invocation_trigger (o_invocation_id options) args kwargs
                                task_id sent]))
  | Blocks => in_place = true /\ DjangoTask.run self args kwargs = Blocks
  end.
Proof.
  cbv zeta.
  destruct (trigger_outcome depth self args kwargs options w)
    as (task_id & _ & _ & _ & _ & Hout).
  cbv zeta in Hout.
  destruct (fst (_trigger depth self args kwargs options w)) as [h | ex |].
  - destruct Hout as (_ & _ & _ & _ & _ & [(Hasync & _ & Hb & sent & _ & Hl)
                                          | (Hh & sent & Hsent & Hb & Hplace)]).
    + left. exists sent. auto.
    + right. rewrite Hh.
      destruct (negb (default true (o_is_async options)) || DjangoTask.task_always_eager self).
      * destruct Hplace as (_ & _ & Hl). exists sent. eexists.
        split; [exact Hl |]. split; [exact Hb |]. split; [apply Hsent |].
        split; [discriminate |]. intros _. unfold run_events. eexists. split; [reflexivity |].
        intros retval ->. reflexivity.
      * destruct Hplace as (_ & _ & Hl). exists sent, [].
        split; [exact Hl |]. split; [exact Hb |]. split; [apply Hsent |].
        split; [reflexivity | discriminate].
  - destruct Hout as (Hb & [Hl | (Hplace & Hreach & sent & Hl)]).
    + auto.
    + split; [exact Hb |]. right. split; [exact Hplace |]. split; [exact Hreach |]. eauto.
  - destruct Hout as (Hplace & Hhandler & _). auto.
Qed.

(** Hooks and queue at work: [report] applied synchronously runs in place,
    whoever holds the key; with the broker out of reach the asynchronous
    trigger raises after its hook; and the synchronous trigger of a handler
    that does not return does not return. *)
Example hooks_and_queue_at_work :
  (exists opts,
      log (snd (_trigger 1 Sample.report [] [] (with_is_async false no_options) Sample.owned))
      = [Ev_on_invocation_trigger None [] [] "uuid-0" opts;
         Ev_on_task_start (Some "uuid-0") [] [];
         Ev_on_task_success "uuid-0" [] [] PyNone])
  /\ (exists opts,
         _trigger 1 Sample.report [] [] no_options unreachable
         = (Raise (KombuOperationalError "[Errno 111] Connection refused"),
            set_log [Ev_on_invocation_trigger None [] [] "uuid-0" opts]
              (snd (_get_unique_task_id 1 Sample.report (Some "key-report") "uuid-0" (Some 161)
                      (set_next_uuid 1 unreachable)))))
  /\ fst (_trigger 1 stuck [] [] (with_is_async false no_options) Sample.quiet) = Blocks.
Proof.
  split; [eexists; vm_compute; reflexivity |].
  split; [eexists; vm_compute; reflexivity |]. vm_compute. reflexivity.
Qed.

Lemma not_grown {A} (l : list A) (x : A) : l <> l ++ [x].
Proof.
  intros Heq. apply (f_equal length) in Heq. rewrite length_app in Heq. cbn in Heq. lia.
Qed.

(** X2. What goes out with the message. The message that [_trigger] hands
    to the queue names the task and carries the arguments as they came, and in
    its options the task id given or else a fresh one, the trigger time read
    before the cache was consulted, the resolved time limit and stale time
    limit, the expiry computed from them, and the eta with the countdown
    folded in: the countdown itself is gone. *)
Theorem queued_message_options depth self args kwargs options w m :
  broker (snd (_trigger depth self args kwargs options w)) = broker w ++ [m] ->
  exists task_id,
    fst (or_task_uuid (o_task_id options) w) = Ok task_id
    /\ triggered self options (msg_options m) task_id (Datetime (clock w))
    /\ msg_task m = DjangoTask.name self /\ msg_args m = args /\ msg_kwargs m = kwargs
    /\ msg_async m = default true (o_is_async options).
Proof.
  destruct (trigger_outcome depth self args kwargs options w)
    as (task_id & Hid & _ & _ & _ & Hout).
  cbv zeta in Hout. intros Hgrown. exists task_id. split; [exact Hid |].
  assert (Hsent : exists sent,
             triggered self options sent task_id (Datetime (clock w))
             /\ broker (snd (_trigger depth self args kwargs options w))
                = broker w ++ [{| msg_task := DjangoTask.name self; msg_args := args;
                                  msg_kwargs := kwargs; msg_options := sent;
                                  msg_async := default true (o_is_async options) |}]).
  { destruct (fst (_trigger depth self args kwargs options w)) as [h | ex |].
    - destruct Hout as (_ & _ & _ & _ & _ & [(_ & _ & Hb & _) | (_ & sent & Hsent & Hb & _)]).
      + rewrite Hb in Hgrown. destruct (not_grown _ _ Hgrown).
      + eauto.
    - destruct Hout as (Hb & _). rewrite Hb in Hgrown. destruct (not_grown _ _ Hgrown).
    - destruct Hout as (_ & _ & sent & Hsent & Hb & _). eauto. }
  destruct Hsent as (sent & Hsent & Hb). rewrite Hb in Hgrown.
  apply app_inv_head in Hgrown. injection Hgrown as <-. cbn. auto.
Qed.

(** [queued_message_options] for the task [report], applied with a
    countdown of 30 seconds. *)
Lemma queued_message_options_witness :
  exists m task_id,
    broker (snd (_trigger 1 Sample.report [] []
                   {| o_invocation_id := Some "inv"; o_task_id := None;
                      o_trigger_time := None; o_time_limit := None; o_eta := None;
                      o_countdown := Some 30; o_expires := None; o_is_async := None;
                      o_stale_time_limit := None; o_queue := None; o_apply_time := None;
                      o_is_on_commit := None; o_using := None; o_retries := None |}
                   Sample.quiet)) = [m]
    /\ o_task_id (msg_options m) = Some task_id
    /\ o_countdown (msg_options m) = None
    /\ o_eta (msg_options m) = Some (Datetime 1030).
Proof.
  eexists. 
  edestruct (queued_message_options 1 Sample.report [] []
              {| o_invocation_id := Some "inv"; o_task_id := None;
                 o_trigger_time := None; o_time_limit := None; o_eta := None;
                 o_countdown := Some 30; o_expires := None; o_is_async := None;
                 o_stale_time_limit := None; o_queue := None; o_apply_time := None;
                 o_is_on_commit := None; o_using := None; o_retries := None |}
              Sample.quiet) as (task_id & _ & Hsent & _).
  - vm_compute. reflexivity.
  - exists task_id. split; [vm_compute; reflexivity |].
    destruct Hsent as (_ & Htask & _ & _ & Heta & Hcountdown & _).
    split; [exact Htask |]. split; [exact Hcountdown | exact Heta].
Defined.

(** ** When the cache is not consulted *)

(** With no truthy key, or in always-eager mode with a truthy stale time
    limit, the unique task id is the invocation's own and the world is as it
    was. *)
Lemma unique_task_id_skipped depth self unique_key task_id stale w :
  truth unique_key = false \/ (DjangoTask.task_always_eager self = true /\ truth stale = true) ->
  _get_unique_task_id (S depth) self unique_key task_id stale w = (Ok task_id, w).
Proof.
  intros [Hkey | (Heager & Hstale)]; cbn [_get_unique_task_id].
  - rewrite Hkey. reflexivity.
  - rewrite Heager, Hstale. cbn [negb]. rewrite !andb_false_r. reflexivity.
Qed.

(** X3. A task that is not unique, or whose key generator gives an empty
    key, or any task in always-eager mode with a usable stale time limit,
    reserves nothing: the cache is not consulted before the dispatch, which
    is under the invocation's own task id at every invocation. Handed to the
    broker, the invocation leaves the cache as it was. Run in place, which it
    is in always-eager mode, its terminal callback releases the key of the
    arguments all the same, whoever holds it. *)
Theorem dedup_skipped depth self args kwargs options w stale :
  _get_stale_time_limit self (o_expires options)
    (_get_time_limit self (o_time_limit options)) (o_stale_time_limit options)
    (Datetime (clock w)) = Ok stale ->
  truth (_get_unique_key self args kwargs) = false
  \/ (DjangoTask.task_always_eager self = true /\ truth stale = true) ->
  exists task_id sent,
    fst (or_task_uuid (o_task_id options) w) = Ok task_id
    /\ (default true (o_is_async options) = true ->
        DjangoTask.task_always_eager self = false -> outage w = None ->
        exists h w',
          _trigger (S depth) self args kwargs options w = (Ok h, w')
          /\ AsyncResultWrapper_task_id h = task_id
          /\ cache w' = cache w /\ interference w' = interference w /\ clock w' = clock w
          /\ broker w' = broker w ++ [{| msg_task := DjangoTask.name self; msg_args := args;
                                         msg_kwargs := kwargs; msg_options := sent;
                                         msg_async := true |}]
          /\ log w' = log w ++ [Ev_on_invocation_trigger (o_invocation_id options) args kwargs
                                  task_id sent])
    /\ (default true (o_is_async options) = false
        \/ DjangoTask.task_always_eager self = true ->
        forall retval,
          DjangoTask.run self args kwargs = Ok retval ->
          exists h w',
            _trigger (S depth) self args kwargs options w = (Ok h, w')
            /\ AsyncResultWrapper_task_id h = task_id
            /\ broker w' = broker w ++ [{| msg_task := DjangoTask.name self;
                                           msg_args := args; msg_kwargs := kwargs;
                                           msg_options := sent;
                                           msg_async := default true (o_is_async options) |}]
            /\ log w' = log w ++ [Ev_on_invocation_trigger (o_invocation_id options) args
                                    kwargs task_id sent;
                                  Ev_on_task_start (Some task_id) args kwargs;
                                  Ev_on_task_success task_id args kwargs retval]
            /\ released self args kwargs w w').
Proof.
  intros Hstale Hskip.
  destruct (or_task_uuid_total (o_task_id options) w) as (task_id & w0 & Hid & Htruthy & Hsame).
  pose proof (or_task_uuid_outage (o_task_id options) w) as Ho0. rewrite Hid in Ho0.
  cbn [snd] in Ho0.
  destruct Hsame as (Hc0 & Hca0 & Hi0 & Hb0 & Hl0 & _).
  rewrite <- Hc0 in Hstale.
  pose proof (unique_task_id_skipped depth self (_get_unique_key self args kwargs) task_id
                stale w0 Hskip) as Hresolve.
  destruct (trigger_resolved (S depth) self args kwargs options w w0 task_id Hid stale
              task_id w0 Hstale Hresolve) as (sent & Hsent & _ & Hrun).
  rewrite String.eqb_refl, andb_false_r in Hrun.
  pose proof Hsent as (_ & Htask & _ & _ & _ & _ & Hasync & _).
  exists task_id, sent. rewrite Hid. split; [reflexivity |]. split.
  - intros His_async Hqueued Hreach.
    assert (Hflag : default false (o_is_async sent) = true)
      by (rewrite Hasync, His_async; reflexivity).
    match type of Hrun with
    | context [_apply_and_get_wrapped_result self args kwargs sent ?v] =>
        rewrite (apply_and_get_wrapped_result_published self args kwargs sent task_id v
                   Htask Htruthy Hflag Hqueued) in Hrun
    end.
    cbn [outage set_log] in Hrun. rewrite Ho0, Hreach in Hrun.
    eexists _, _. split; [exact Hrun |].
    cbn [cache interference clock broker log set_broker set_log].
    rewrite Hca0, Hi0, Hc0, Hb0, Hl0. repeat split.
  - intros Hplace retval Hhandler.
    match type of Hrun with
    | context [_apply_and_get_wrapped_result self args kwargs sent ?v] =>
        destruct (apply_and_get_wrapped_result_in_place self args kwargs sent task_id v
                    Htask Htruthy)
          as (w' & Hcall & Hl' & Hb' & _ & _ & Hback)
    end.
    { rewrite Hasync. destruct Hplace as [-> | Heager]; [left; reflexivity | right; exact Heager]. }
    rewrite Hcall, Hhandler in Hrun. rewrite Hhandler in Hl'.
    destruct Hback as (_ & Hreleased); [rewrite Hhandler; discriminate |].
    eexists _, w'. split; [exact Hrun |]. split; [reflexivity |].
    cbn [broker log set_log run_events] in Hb', Hl'.
    rewrite Hasync in Hb'. cbn [default] in Hb'.
    split; [rewrite Hb', Hb0; reflexivity |].
    split; [rewrite Hl', Hl0, <- app_assoc; reflexivity |].
    refine (released_ext self args kwargs _ w w' _ _ _ Hreleased);
      cbn [interference cache clock set_log]; assumption.
Qed.

(** [dedup_skipped] in always-eager mode while the key is held by
    ["owner"]: the task runs in place all the same, and the owner's key is
    gone. *)
Lemma dedup_skipped_witness :
  exists h w',
    _trigger 1 eager_report [] [] no_options Sample.owned = (Ok h, w')
    /\ AsyncResultWrapper_task_id h = "uuid-0"
    /\ cache_lookup "key-report" Sample.owned = Some "owner"
    /\ cache w' = ∅
    /\ length (broker w') = 1%nat.
Proof.
  destruct (dedup_skipped 0 eager_report [] [] no_options Sample.owned (Some 65) eq_refl
              (or_intror (conj eq_refl eq_refl)))
    as (task_id & sent & Hid & _ & Hplace).
  destruct (Hplace (or_intror eq_refl) PyNone eq_refl)
    as (h & w' & Hrun & Hh & Hb & _ & Hcleared & _).
  exists h, w'. split; [exact Hrun |].
  rewrite Hh. injection Hid as <-. split; [reflexivity |]. split; [reflexivity |].
  destruct (Hcleared eq_refl eq_refl) as (Hcache & _).
  rewrite Hcache, Hb. split; reflexivity.
Defined.

(** X4. On the synchronous path a run of [_trigger] that returns has
    handed the task to Celery, to be run in place, under the invocation's own
    task id, whatever the cache holds: a holder of the key does not stop it.
    A run that raises has handed nothing over, and a run that does not return
    is the run of a handler that does not return. *)
Theorem synchronous_trigger_not_deduplicated depth self args kwargs options w :
  o_is_async options = Some false ->
  let run := _trigger depth self args kwargs options w in
  match fst run with
  | Ok h =>
      exists sent,
        fst (or_task_uuid (o_task_id options) w) = Ok (AsyncResultWrapper_task_id h)
        /\ broker (snd run)
           = broker w ++ [{| msg_task := DjangoTask.name self; msg_args := args;
                             msg_kwargs := kwargs; msg_options := sent; msg_async := false |}]
        /\ o_task_id sent = Some (AsyncResultWrapper_task_id h)
  | Raise _ => broker (snd run) = broker w
  | Blocks => DjangoTask.run self args kwargs = Blocks
  end.
Proof.
  intros Hsync. cbv zeta.
  destruct (trigger_outcome depth self args kwargs options w)
    as (task_id & Hid & _ & _ & _ & Hout).
  cbv zeta in Hout. rewrite Hsync in Hout. cbn [default] in Hout.
  destruct (fst (_trigger depth self args kwargs options w)) as [h | ex |].
  - destruct Hout as (_ & _ & _ & _ & _ & [(Hasync & _) | (Hh & sent & Hsent & Hb & _)]);
      [discriminate |].
    exists sent. rewrite Hh. split; [exact Hid |]. split; [exact Hb | apply Hsent].
  - apply Hout.
  - apply Hout.
Qed.

(** [synchronous_trigger_not_deduplicated] while the key is held by
    ["owner"]. *)
Lemma synchronous_trigger_not_deduplicated_witness :
  exists h w',
    _trigger 1 Sample.report [] [] (with_is_async false no_options) Sample.owned = (Ok h, w')
    /\ cache_lookup "key-report" Sample.owned = Some "owner"
    /\ AsyncResultWrapper_task_id h = "uuid-0"
    /\ length (broker w') = 1%nat.
Proof.
  pose proof (synchronous_trigger_not_deduplicated 1 Sample.report [] []
                (with_is_async false no_options) Sample.owned eq_refl) as Hrun.
  cbv zeta in Hrun.
  destruct (_trigger 1 Sample.report [] [] (with_is_async false no_options) Sample.owned)
    as [[h | ex |] w'] eqn:Hcall; cbn [fst snd] in Hrun.
  - exists h, w'. destruct Hrun as (sent & Hid & Hb & _).
    split; [reflexivity |]. split; [reflexivity |].
    split; [injection Hid as <-; reflexivity |]. rewrite Hb. reflexivity.
  - vm_compute in Hcall. discriminate.
  - vm_compute in Hcall. discriminate.
Defined.

(** ** The retry loop of the reserve *)

Lemma cache_lookup_Some key w v :
  cache_lookup key w = Some v ->
  exists e, cache w !! key = Some e /\ ce_value e = v.
Proof.
  unfold cache_lookup. destruct (cache w !! key) as [e |]; [| discriminate].
  destruct (live (clock w) e); [| discriminate]. intros [= <-]. eauto.
Qed.

Lemma truthy_under_interfere key w : truthy_under key w -> truthy_under key (interfere w).
Proof.
  unfold truthy_under. intros (Hcache & Hpending). rewrite interfere_interference.
  unfold interfere. destruct (interference w) as [| i rest] eqn:Hi.
  { split; [exact Hcache | constructor]. }
  apply Forall_cons in Hpending as (Hhead & Hrest). cbn [tail]. split; [| exact Hrest].
  destruct i as [| d | k v ttl | k]; cbn [apply_interference]; try exact Hcache.
  - unfold store_add. destruct (cache_lookup k _); cbn [snd]; [exact Hcache |].
    cbn [cache set_cache set_interference]. intros e.
    destruct (decide (k = key)) as [-> | Hne].
    + rewrite lookup_insert_eq. intros [= <-]. apply Hhead. reflexivity.
    + rewrite lookup_insert_ne by exact Hne. apply Hcache.
  - cbn [cache set_cache set_interference]. intros e.
    destruct (decide (k = key)) as [-> | Hne].
    + rewrite lookup_delete_eq. discriminate.
    + rewrite lookup_delete_ne by exact Hne. apply Hcache.
Qed.

(** X5. The loop ends: while the other users of the cache store truthy
    values only, a recursion depth beyond half the number of their pending
    actions is enough for [_get_unique_task_id] to return, with the
    invocation's own id or with the id that holds the key. *)
Theorem unique_task_id_returns depth self key task_id ttl w :
  truth key = true -> truth ttl = true -> DjangoTask.task_always_eager self = false ->
  truthy_under key w ->
  (length (interference w) < 2 * depth)%nat ->
  exists uid w',
    _get_unique_task_id depth self (Some key) task_id (Some ttl) w = (Ok uid, w')
    /\ (uid = task_id \/ (cache_lookup key w' = Some uid /\ truth uid = true)).
Proof.
  intros Hkey Httl Hqueued. revert w.
  induction depth as [| depth IH]; intros w Htruthy Hlen; [lia |].
  cbn [_get_unique_task_id].
  change (truth (Some key)) with (truth key). change (truth (Some ttl)) with (truth ttl).
  rewrite Hkey, Httl, Hqueued. cbn [negb andb].
  unfold bind at 1, cache_add, store_add.
  pose proof (truthy_under_interfere key w Htruthy) as Htruthy1.
  pose proof (interfere_interference w) as Hpending1.
  destruct (cache_lookup key (interfere w)) as [holder |] eqn:Hheld.
  2:{ eexists _, _. split; [reflexivity | left; reflexivity]. }
  set (w1 := interfere w) in *.
  unfold bind at 1, cache_get.
  pose proof (truthy_under_interfere key w1 Htruthy1) as Htruthy2.
  pose proof (interfere_interference w1) as Hpending2.
  destruct (cache_lookup key (interfere w1)) as [owner |] eqn:Hread.
  - destruct (cache_lookup_Some _ _ _ Hread) as (e & He & <-).
    rewrite (proj1 Htruthy2 e He).
    eexists _, _. split; [reflexivity |]. right. split; [exact Hread | apply Htruthy2, He].
  - apply IH; [exact Htruthy2 |].
    rewrite Hpending2, Hpending1.
    destruct (interference w) as [| i0 [| i1 rest]] eqn:Hi.
    + exfalso. unfold interfere in Hread. fold w1 in Hread.
      cbn [tail] in Hpending1. rewrite Hpending1 in Hread. congruence.
    + exfalso. unfold interfere in Hread. fold w1 in Hread.
      cbn [tail] in Hpending1. rewrite Hpending1 in Hread. congruence.
    + cbn [tail length] in *. lia.
Qed.

(** [unique_task_id_returns] in the race of the absent read: two pending
    actions of the owner, a depth of 2. *)
Lemma unique_task_id_returns_witness :
  exists uid w',
    _get_unique_task_id 2 Sample.report (Some "key-report") "mine" (Some 161)
      (set_interference [Idle; ForeignDelete "key-report"] Sample.owned) = (Ok uid, w')
    /\ (uid = "mine" \/ (cache_lookup "key-report" w' = Some uid /\ truth uid = true)).
Proof.
  apply (unique_task_id_returns 2 Sample.report "key-report" "mine" 161
           (set_interference [Idle; ForeignDelete "key-report"] Sample.owned));
    try reflexivity.
  - split.
    + intros e He. vm_compute in He. injection He as <-. reflexivity.
    + repeat constructor.
  - cbn. lia.
Defined.

(** X6. A live row with an empty value under the key is taken for no row
    by the read and for a row by the reserve: with nothing else happening to
    the cache, [_get_unique_task_id] calls itself until the recursion limit,
    whatever the limit, and the cache is as it was. *)
Theorem empty_cached_value_never_resolves depth self key task_id ttl w v :
  truth key = true -> truth ttl = true -> DjangoTask.task_always_eager self = false ->
  interference w = [] ->
  cache_lookup key w = Some v -> truth v = false ->
  _get_unique_task_id depth self (Some key) task_id (Some ttl) w = (Raise RecursionError, w).
Proof.
  intros Hkey Httl Hqueued Hquiet Hheld Hempty.
  induction depth as [| depth IH]; [reflexivity |].
  cbn [_get_unique_task_id].
  change (truth (Some key)) with (truth key). change (truth (Some ttl)) with (truth ttl).
  rewrite Hkey, Httl, Hqueued. cbn [negb andb].
  rewrite (bind_Ok _ _ _ _ _ (cache_add_held key task_id (Some ttl) w v Hquiet Hheld)).
  rewrite (bind_Ok _ _ _ _ _ (cache_get_held key w Hquiet)).
  rewrite Hheld, Hempty. exact IH.
Qed.

(** [empty_cached_value_never_resolves] with an empty string cached under
    the key of [report], at a depth of 50. *)
Lemma empty_cached_value_never_resolves_witness :
  let w := set_cache {["key-report" := {| ce_value := ""; ce_expires := None |}]}
             Sample.quiet in
  _get_unique_task_id 50 Sample.report (Some "key-report") "mine" (Some 161) w
  = (Raise RecursionError, w).
Proof.
  cbv zeta.
  apply (empty_cached_value_never_resolves 50 Sample.report "key-report" "mine" 161 _ "");
    reflexivity.
Defined.

(** ** Deduplication in a quiet world *)

(** With nothing else happening to the cache, a free key is reserved: the
    invocation's own id, and the key now holds it. *)
Lemma unique_task_id_quiet_free depth self key task_id ttl w :
  truth key = true -> truth ttl = true -> DjangoTask.task_always_eager self = false ->
  interference w = [] -> cache_lookup key w = None ->
  _get_unique_task_id (S depth) self (Some key) task_id (Some ttl) w
  = (Ok task_id,
     set_cache (<[key := {| ce_value := task_id; ce_expires := Some (clock w + ttl) |}]>
                  (cache w)) w).
Proof.
  intros Hkey Httl Hqueued Hquiet Hfree. cbn [_get_unique_task_id].
  change (truth (Some key)) with (truth key). change (truth (Some ttl)) with (truth ttl).
  rewrite Hkey, Httl, Hqueued. cbn [negb andb].
  unfold bind, cache_add, store_add, interfere. rewrite Hquiet, Hfree. reflexivity.
Qed.

(** And a held key gives the holder's id, the world staying as it is. *)
Lemma unique_task_id_quiet_held depth self key task_id ttl w owner :
  truth key = true -> truth ttl = true -> DjangoTask.task_always_eager self = false ->
  interference w = [] -> cache_lookup key w = Some owner -> truth owner = true ->
  _get_unique_task_id (S depth) self (Some key) task_id (Some ttl) w = (Ok owner, w).
Proof.
  intros Hkey Httl Hqueued Hquiet Hheld Howner. cbn [_get_unique_task_id].
  change (truth (Some key)) with (truth key). change (truth (Some ttl)) with (truth ttl).
  rewrite Hkey, Httl, Hqueued. cbn [negb andb].
  rewrite (bind_Ok _ _ _ _ _ (cache_add_held key task_id (Some ttl) w owner Hquiet Hheld)).
  rewrite (bind_Ok _ _ _ _ _ (cache_get_held key w Hquiet)).
  rewrite Hheld, Howner. reflexivity.
Qed.

(** A row set with a positive time to live is live at once. *)
Lemma cache_lookup_reserved key value ttl w :
  0 < ttl ->
  cache_lookup key
    (set_cache (<[key := {| ce_value := value; ce_expires := Some (clock w + ttl) |}]>
                  (cache w)) w) = Some value.
Proof.
  intros Hpos. unfold cache_lookup, live. cbn [cache clock set_cache].
  rewrite lookup_insert_eq. cbn [ce_expires ce_value].
  destruct (Z.ltb_spec (clock w) (clock w + ttl)); [reflexivity | lia].
Qed.

Lemma or_task_uuid_fst x w task_id :
  fst (or_task_uuid x w) = Ok task_id ->
  exists w0, or_task_uuid x w = (Ok task_id, w0) /\ truth task_id = true
             /\ same_apart_from_uuid w w0.
Proof.
  destruct (or_task_uuid_total x w) as (i & w0 & Hid & Hi & Hsame).
  rewrite Hid. cbn [fst]. intros [= <-]. eauto.
Qed.

Section Quiet.

Variables (self : DjangoTask.t) (args : Args) (kwargs : Kwargs).

Hypothesis Hunique : DjangoTask.unique self = true.
Hypothesis Hkey : truth (DjangoTask.unique_key_generator self args kwargs) = true.
Hypothesis Hqueued : DjangoTask.task_always_eager self = false.

(** An asynchronous invocation that finds the key free takes it, calls
    [on_invocation_trigger] and goes to the broker, which takes the message
    or raises. *)
Lemma trigger_quiet_reserved depth options w task_id ttl :
  interference w = [] ->
  cache_lookup (DjangoTask.unique_key_generator self args kwargs) w = None ->
  default true (o_is_async options) = true ->
  fst (or_task_uuid (o_task_id options) w) = Ok task_id ->
  _get_stale_time_limit self (o_expires options)
    (_get_time_limit self (o_time_limit options)) (o_stale_time_limit options)
    (Datetime (clock w)) = Ok (Some ttl) ->
  0 < ttl ->
  exists sent w2,
    interference w2 = [] /\ clock w2 = clock w /\ outage w2 = outage w
    /\ cache_lookup (DjangoTask.unique_key_generator self args kwargs) w2 = Some task_id
    /\ broker w2 = broker w
    /\ log w2 = log w ++ [Ev_on_invocation_trigger (o_invocation_id options) args kwargs
                            task_id sent]
    /\ o_task_id sent = Some task_id
    /\ _trigger (S depth) self args kwargs options w
       = match outage w with
         | Some ex => (Raise ex, w2)
         | None =>
             (Ok (AsyncResultWrapper.Build (o_invocation_id sent) (AsyncResult task_id) self
                    args kwargs (without_invocation sent)),
              set_broker
                (broker w2 ++ [{| msg_task := DjangoTask.name self; msg_args := args;
                                  msg_kwargs := kwargs; msg_options := sent;
                                  msg_async := true |}]) w2)
         end.
Proof.
  intros Hquiet Hfree His_async Hfst Hstale Hpos.
  destruct (or_task_uuid_fst _ _ _ Hfst) as (w0 & Hid & Htruthy & Hsame).
  pose proof (or_task_uuid_outage (o_task_id options) w) as Ho0. rewrite Hid in Ho0.
  cbn [snd] in Ho0.
  destruct Hsame as (Hc0 & Hca0 & Hi0 & Hb0 & Hl0 & _).
  assert (Httl : truth ttl = true) by (apply truth_Z_true; lia).
  assert (Hfree0 : cache_lookup (DjangoTask.unique_key_generator self args kwargs) w0 = None).
  { unfold cache_lookup in *. rewrite Hca0, Hc0. exact Hfree. }
  rewrite <- Hc0 in Hstale. rewrite <- Hi0 in Hquiet.
  pose proof (unique_task_id_quiet_free depth self _ task_id ttl w0 Hkey Httl Hqueued
                Hquiet Hfree0) as Hresolve.
  rewrite <- (get_unique_key_unique self args kwargs Hunique) in Hresolve.
  destruct (trigger_resolved (S depth) self args kwargs options w w0 task_id Hid _ _ _
              Hstale Hresolve) as (sent & Hsent & _ & Hrun).
  rewrite String.eqb_refl, andb_false_r in Hrun.
  pose proof Hsent as (_ & Htask & _ & _ & _ & _ & Hasync & _).
  assert (Hflag : default false (o_is_async sent) = true)
    by (rewrite Hasync, His_async; reflexivity).
  match type of Hrun with
  | context [_apply_and_get_wrapped_result self args kwargs sent ?v] =>
      rewrite (apply_and_get_wrapped_result_published self args kwargs sent task_id v
                 Htask Htruthy Hflag Hqueued) in Hrun;
      exists sent, v
  end.
  cbn [outage set_log set_cache] in Hrun. rewrite Ho0 in Hrun.
  split; [exact Hquiet |]. split; [exact Hc0 |]. split; [exact Ho0 |].
  split.
  { unfold cache_lookup. cbn [cache clock set_log].
    apply (cache_lookup_reserved _ _ _ w0 Hpos). }
  split; [exact Hb0 |].
  split; [cbn [log set_log set_cache]; rewrite Hl0; reflexivity |].
  split; [exact Htask | exact Hrun].
Qed.

(** With the broker within reach, the message is in the queue. *)
Lemma trigger_quiet_free depth options w task_id ttl :
  interference w = [] ->
  cache_lookup (DjangoTask.unique_key_generator self args kwargs) w = None ->
  default true (o_is_async options) = true -> outage w = None ->
  fst (or_task_uuid (o_task_id options) w) = Ok task_id ->
  _get_stale_time_limit self (o_expires options)
    (_get_time_limit self (o_time_limit options)) (o_stale_time_limit options)
    (Datetime (clock w)) = Ok (Some ttl) ->
  0 < ttl ->
  exists h w' sent,
    _trigger (S depth) self args kwargs options w = (Ok h, w')
    /\ AsyncResultWrapper_task_id h = task_id
    /\ interference w' = [] /\ clock w' = clock w /\ outage w' = None
    /\ cache_lookup (DjangoTask.unique_key_generator self args kwargs) w' = Some task_id
    /\ broker w' = broker w ++ [{| msg_task := DjangoTask.name self; msg_args := args;
                                   msg_kwargs := kwargs; msg_options := sent;
                                   msg_async := true |}]
    /\ o_task_id sent = Some task_id.
Proof.
  intros Hquiet Hfree His_async Hreach Hfst Hstale Hpos.
  destruct (trigger_quiet_reserved depth options w task_id ttl Hquiet Hfree His_async Hfst
              Hstale Hpos)
    as (sent & w2 & Hi & Hc & Ho & Hheld & Hb & _ & Htask & Hrun).
  rewrite Hreach in Hrun, Ho.
  eexists _, _, sent. split; [exact Hrun |].
  cbn [interference clock outage broker set_broker]. rewrite Hb.
  unfold cache_lookup in *. cbn [cache clock set_broker].
  repeat split; assumption.
Qed.

(** An asynchronous invocation under another task id that finds the key
    held gets a handle on the holder, and nothing else changes. *)
Lemma trigger_quiet_held depth options w task_id ttl owner :
  interference w = [] ->
  cache_lookup (DjangoTask.unique_key_generator self args kwargs) w = Some owner ->
  truth owner = true ->
  default true (o_is_async options) = true ->
  fst (or_task_uuid (o_task_id options) w) = Ok task_id -> task_id <> owner ->
  _get_stale_time_limit self (o_expires options)
    (_get_time_limit self (o_time_limit options)) (o_stale_time_limit options)
    (Datetime (clock w)) = Ok (Some ttl) ->
  truth ttl = true ->
  exists h w',
    _trigger (S depth) self args kwargs options w = (Ok h, w')
    /\ AsyncResultWrapper_task_id h = owner
    /\ interference w' = [] /\ clock w' = clock w /\ cache w' = cache w
    /\ broker w' = broker w.
Proof.
  intros Hquiet Hheld Howner Hasync Hfst Hother Hstale Httl.
  destruct (or_task_uuid_fst _ _ _ Hfst) as (w0 & Hid & _ & Hsame).
  destruct Hsame as (Hc0 & Hca0 & Hi0 & Hb0 & _).
  assert (Hheld0 : cache_lookup (DjangoTask.unique_key_generator self args kwargs) w0
                   = Some owner).
  { unfold cache_lookup in *. rewrite Hca0, Hc0. exact Hheld. }
  rewrite <- Hc0 in Hstale. rewrite <- Hi0 in Hquiet.
  pose proof (unique_task_id_quiet_held depth self _ task_id ttl w0 owner Hkey Httl Hqueued
                Hquiet Hheld0 Howner) as Hresolve.
  rewrite <- (get_unique_key_unique self args kwargs Hunique) in Hresolve.
  destruct (trigger_resolved (S depth) self args kwargs options w w0 task_id Hid _ _ _
              Hstale Hresolve) as (sent & _ & _ & Hrun).
  rewrite Hasync in Hrun.
  destruct (String.eqb_spec owner task_id) as [Heq | _]; [congruence |].
  cbn [negb andb] in Hrun.
  eexists _, _. split; [exact Hrun |].
  cbn [interference clock cache broker set_log]. repeat split; assumption.
Qed.

End Quiet.

(** X7. Two invocations of a unique task with the same arguments, one after
    the other with nothing else happening to the cache and the broker within
    reach: the first, asynchronous, finds the key free and is handed to the
    broker; the second, asynchronous and under another task id, gets a handle
    on the first one's task id, and the queue holds the one message. *)
Theorem identical_invocations_collapse self args kwargs depth depth' first w task_id ttl :
  let key := DjangoTask.unique_key_generator self args kwargs in
  DjangoTask.unique self = true -> truth key = true ->
  DjangoTask.task_always_eager self = false ->
  interference w = [] -> cache_lookup key w = None ->
  default true (o_is_async first) = true -> outage w = None ->
  fst (or_task_uuid (o_task_id first) w) = Ok task_id ->
  _get_stale_time_limit self (o_expires first)
    (_get_time_limit self (o_time_limit first)) (o_stale_time_limit first)
    (Datetime (clock w)) = Ok (Some ttl) ->
  0 < ttl ->
  exists h w' m,
    _trigger (S depth) self args kwargs first w = (Ok h, w')
    /\ AsyncResultWrapper_task_id h = task_id
    /\ broker w' = broker w ++ [m]
    /\ forall second task_id' ttl',
        default true (o_is_async second) = true ->
        fst (or_task_uuid (o_task_id second) w') = Ok task_id' -> task_id' <> task_id ->
        _get_stale_time_limit self (o_expires second)
          (_get_time_limit self (o_time_limit second)) (o_stale_time_limit second)
          (Datetime (clock w')) = Ok (Some ttl') ->
        truth ttl' = true ->
        exists h' w'',
          _trigger (S depth') self args kwargs second w' = (Ok h', w'')
          /\ AsyncResultWrapper_task_id h' = task_id
          /\ broker w'' = broker w ++ [m].
Proof.
  intros key Hunique Hkey Hqueued Hquiet Hfree Hfirst Hreach Hfst Hstale Hpos.
  destruct (trigger_quiet_free self args kwargs Hunique Hkey Hqueued depth first w task_id ttl
              Hquiet Hfree Hfirst Hreach Hfst Hstale Hpos)
    as (h & w' & sent & Hrun & Hh & Hquiet' & Hclock' & _ & Hheld' & Hbroker & _).
  destruct (or_task_uuid_fst _ _ _ Hfst) as (_ & _ & Htruthy & _).
  eexists h, w', _. split; [exact Hrun |]. split; [exact Hh |]. split; [exact Hbroker |].
  intros second task_id' ttl' Hasync Hfst' Hother Hstale' Httl'.
  destruct (trigger_quiet_held self args kwargs Hunique Hkey Hqueued depth' second w' task_id'
              ttl' task_id Hquiet' Hheld' Htruthy Hasync Hfst' Hother Hstale' Httl')
    as (h' & w'' & Hrun' & Hh' & _ & _ & _ & Hbroker').
  exists h', w''. split; [exact Hrun' |]. split; [exact Hh' |]. congruence.
Qed.

(** [identical_invocations_collapse] for the task [report] applied twice in
    the quiet world: both handles are on ["uuid-0"]. *)
Lemma identical_invocations_collapse_witness :
  exists h w' h' w'',
    _trigger 1 Sample.report [] [] no_options Sample.quiet = (Ok h, w')
    /\ _trigger 1 Sample.report [] [] no_options w' = (Ok h', w'')
    /\ AsyncResultWrapper_task_id h = "uuid-0"
    /\ AsyncResultWrapper_task_id h' = "uuid-0"
    /\ length (broker w'') = 1%nat.
Proof.
  destruct (identical_invocations_collapse Sample.report [] [] 0 0 no_options Sample.quiet
              "uuid-0" 161 eq_refl eq_refl eq_refl eq_refl eq_refl eq_refl eq_refl eq_refl
              eq_refl eq_refl)
    as (h & w' & m & Hrun & Hh & Hbroker & Hsecond).
  assert (Hw' : w' = snd (_trigger 1 Sample.report [] [] no_options Sample.quiet))
    by (rewrite Hrun; reflexivity).
  destruct (Hsecond no_options "uuid-1" 161 eq_refl) as (h' & w'' & Hrun' & Hh' & Hbroker').
  - rewrite Hw'. vm_compute. reflexivity.
  - discriminate.
  - rewrite Hw'. vm_compute. reflexivity.
  - reflexivity.
  - exists h, w', h', w''. rewrite Hbroker'. repeat split; assumption.
Defined.

(** X8. Release and reserve again: after [on_success] or [on_failure] of
    a dispatch of the unique task, with nothing else happening to the cache,
    the next asynchronous invocation with the same arguments finds the key
    free whoever held it, is handed to the broker under its own task id and
    holds the key. *)
Theorem released_key_is_reserved_anew self args kwargs depth options w finished task_id ttl :
  let key := DjangoTask.unique_key_generator self args kwargs in
  DjangoTask.unique self = true -> truth key = true ->
  DjangoTask.task_always_eager self = false ->
  interference w = [] ->
  (exists retval ended, finished = snd (on_success self retval ended args kwargs w))
  \/ (exists exc ended, finished = snd (on_failure self exc ended args kwargs w)) ->
  default true (o_is_async options) = true -> outage w = None ->
  fst (or_task_uuid (o_task_id options) finished) = Ok task_id ->
  _get_stale_time_limit self (o_expires options)
    (_get_time_limit self (o_time_limit options)) (o_stale_time_limit options)
    (Datetime (clock finished)) = Ok (Some ttl) ->
  0 < ttl ->
  exists h w' m,
    _trigger (S depth) self args kwargs options finished = (Ok h, w')
    /\ AsyncResultWrapper_task_id h = task_id
    /\ cache_lookup key w' = Some task_id
    /\ broker w' = broker w ++ [m].
Proof.
  intros key Hunique Hkey Hqueued Hquiet Hfinished His_async Hreach Hfst Hstale Hpos.
  assert (Hclear : forall v, interference v = [] ->
             _clear_unique_key self args kwargs v
             = (Ok tt, set_cache (delete key (cache v)) v)).
  { intros v Hv. unfold _clear_unique_key.
    rewrite (get_unique_key_unique self args kwargs Hunique). fold key. rewrite Hkey.
    unfold cache_delete, interfere. rewrite Hv. reflexivity. }
  assert (Hstate : interference finished = [] /\ cache_lookup key finished = None
                   /\ broker finished = broker w /\ outage finished = None).
  { destruct Hfinished as [(retval & ended & ->) | (exc & ended & ->)].
    - unfold on_success, on_task_success, bind, emit. rewrite Hclear by exact Hquiet.
      cbn [snd interference broker outage set_cache set_log].
      split; [exact Hquiet |]. split; [| auto].
      unfold cache_lookup. cbn [cache set_cache]. rewrite lookup_delete_eq. reflexivity.
    - unfold on_failure, on_task_failure, bind, emit. rewrite Hclear by exact Hquiet.
      cbn [snd interference broker outage set_cache set_log].
      split; [exact Hquiet |]. split; [| auto].
      unfold cache_lookup. cbn [cache set_cache]. rewrite lookup_delete_eq. reflexivity. }
  destruct Hstate as (Hquiet' & Hfree & Hbroker & Hreach').
  destruct (trigger_quiet_free self args kwargs Hunique Hkey Hqueued depth options finished
              task_id ttl Hquiet' Hfree His_async Hreach' Hfst Hstale Hpos)
    as (h & w' & sent & Hrun & Hh & _ & _ & _ & Hheld & Hb & _).
  eexists h, w', _. split; [exact Hrun |]. split; [exact Hh |]. split; [exact Hheld |].
  rewrite Hb, Hbroker. reflexivity.
Qed.

(** [released_key_is_reserved_anew] after the success of the owner of the
    key of [report]. *)
Lemma released_key_is_reserved_anew_witness :
  let finished := snd (on_success Sample.report PyNone "owner" [] [] Sample.owned) in
  exists h w' m,
    _trigger 1 Sample.report [] [] no_options finished = (Ok h, w')
    /\ AsyncResultWrapper_task_id h = "uuid-0"
    /\ cache_lookup "key-report" w' = Some "uuid-0"
    /\ broker w' = [m].
Proof.
  cbv zeta.
  apply (released_key_is_reserved_anew Sample.report [] [] 0 no_options Sample.owned
           (snd (on_success Sample.report PyNone "owner" [] [] Sample.owned)) "uuid-0" 161);
    try reflexivity.
  left. exists PyNone, "owner". reflexivity.
Defined.

(** ** Bounds of the time policy *)

Lemma sum_nonnegative (l : list Z) : Forall (Z.le 0) l -> 0 <= sum l.
Proof.
  induction 1 as [| x l Hx _ IH]; [reflexivity |]. unfold sum in *. cbn [foldr]. lia.
Qed.

(** The derived stale time limit, with non-negative settings, is at least a
    time limit and a queue wait. *)
Lemma derived_stale_time_limit_bound self expires time_limit wait t :
  DjangoTask.stale_time_limit self = None ->
  DjangoTask.max_queue_waiting_time self = Some wait ->
  0 <= time_limit -> 0 < wait ->
  Forall (Z.le 0) (default [] (DjangoTask.default_retry_delays self)) ->
  0 <= DjangoTask.default_retry_delay self ->
  (exists m, DjangoTask.max_retries self = Some m /\ 0 <= m) ->
  exists s,
    _get_stale_time_limit self expires (Some time_limit) None t = Ok (Some s)
    /\ time_limit + wait <= s.
Proof.
  intros Hnone Hwait Hlimit Hpos Hdelays Hdelay (m & Hm & Hmpos).
  unfold _get_stale_time_limit. rewrite Hnone, Hwait, Hm.
  assert (truth wait = true) as -> by (apply truth_Z_true; lia).
  destruct (truth (DjangoTask.autoretry_for self)); cbn [andb].
  - destruct (DjangoTask.default_retry_delays self) as [[| d delays] |];
      cbn [truth option_truth list_truth default] in *.
    + eexists. split; [reflexivity | nia].
    + eexists. split; [reflexivity |].
      unfold id in *. pose proof (sum_nonnegative _ Hdelays) as Hsum.
      assert (Hlen : 1 <= len (d :: delays)) by (unfold len; cbn [length]; lia).
      nia.
    + eexists. split; [reflexivity | nia].
  - eexists. split; [reflexivity | lia].
Qed.

(** X9. With no stale time limit configured, a non-negative time limit, a
    positive queue wait, non-negative retry delays and a non-negative
    [max_retries], [_get_stale_time_limit] yields a limit that is at least the
    time limit plus the queue wait, and so one that a unique task can be
    dispatched with. *)
Theorem stale_time_limit_covers_a_run self expires time_limit wait t :
  DjangoTask.stale_time_limit self = None ->
  DjangoTask.max_queue_waiting_time self = Some wait ->
  0 <= time_limit -> 0 < wait ->
  Forall (Z.le 0) (default [] (DjangoTask.default_retry_delays self)) ->
  0 <= DjangoTask.default_retry_delay self ->
  (exists m, DjangoTask.max_retries self = Some m /\ 0 <= m) ->
  exists s,
    _get_stale_time_limit self expires (Some time_limit) None t = Ok (Some s)
    /\ time_limit + wait <= s
    /\ truth s = true.
Proof.
  intros Hnone Hwait Hlimit Hpos Hdelays Hdelay Hmax.
  destruct (derived_stale_time_limit_bound self expires time_limit wait t
              Hnone Hwait Hlimit Hpos Hdelays Hdelay Hmax) as (s & Hs & Hbound).
  exists s. split; [exact Hs |]. split; [exact Hbound |]. apply truth_Z_true. lia.
Qed.

(** [stale_time_limit_covers_a_run] for the task [report]: 161 covers
    60 + 5. *)
Lemma stale_time_limit_covers_a_run_witness :
  exists s,
    _get_stale_time_limit Sample.report None (Some 60) None (Datetime 1000) = Ok (Some s)
    /\ 60 + 5 <= s /\ truth s = true.
Proof.
  apply (stale_time_limit_covers_a_run Sample.report None 60 5 (Datetime 1000));
    try reflexivity; try (cbn; lia).
  - change (Forall (Z.le 0) [10; 20]).
    repeat (apply Forall_cons_2; [lia |]). apply Forall_nil_2.
  - exists 3. split; [reflexivity | lia].
Defined.

(** X10. When the expiry is derived, that is with no [expires] passed or
    set on the task, and the stale time limit is derived too, the message
    expires no sooner than the queue wait after the trigger time. *)
Theorem derived_expiry_leaves_the_queue_wait self time_limit wait t :
  DjangoTask.expires self = None ->
  DjangoTask.stale_time_limit self = None ->
  DjangoTask.max_queue_waiting_time self = Some wait ->
  0 <= time_limit -> 0 < wait ->
  Forall (Z.le 0) (default [] (DjangoTask.default_retry_delays self)) ->
  0 <= DjangoTask.default_retry_delay self ->
  (exists m, DjangoTask.max_retries self = Some m /\ 0 <= m) ->
  exists s at_,
    _get_stale_time_limit self None (Some time_limit) None t = Ok (Some s)
    /\ _compute_expires self None (Some time_limit) (Some s) t = Some at_
    /\ seconds t + wait <= seconds at_
    /\ seconds at_ + time_limit = seconds t + s.
Proof.
  intros Hexpires Hnone Hwait Hlimit Hpos Hdelays Hdelay Hmax.
  destruct (derived_stale_time_limit_bound self None time_limit wait t
              Hnone Hwait Hlimit Hpos Hdelays Hdelay Hmax) as (s & Hs & Hbound).
  exists s. eexists. split; [exact Hs |].
  unfold _compute_expires. rewrite Hexpires. split; [reflexivity |].
  unfold plus_seconds. cbn [seconds]. lia.
Qed.

(** [derived_expiry_leaves_the_queue_wait] for the task [report] triggered
    at second 1000: it expires at second 1101. *)
Lemma derived_expiry_leaves_the_queue_wait_witness :
  exists s at_,
    _get_stale_time_limit Sample.report None (Some 60) None (Datetime 1000) = Ok (Some s)
    /\ _compute_expires Sample.report None (Some 60) (Some s) (Datetime 1000) = Some at_
    /\ 1000 + 5 <= seconds at_
    /\ seconds at_ + 60 = 1000 + s.
Proof.
  apply (derived_expiry_leaves_the_queue_wait Sample.report 60 5 (Datetime 1000));
    try reflexivity; try (cbn; lia).
  - change (Forall (Z.le 0) [10; 20]).
    repeat (apply Forall_cons_2; [lia |]). apply Forall_nil_2.
  - exists 3. split; [reflexivity | lia].
Defined.

(** X11. A task retried automatically with the flat policy and with
    [max_retries = None], a time limit and a queue wait but no stale time
    limit configured, cannot be applied: computing the stale time limit
    multiplies by [None], and [_trigger] raises [TypeError] before the cache
    and the queue are reached, unique task or not. *)
Theorem unbounded_retries_break_the_trigger depth self args kwargs options w time_limit wait :
  o_stale_time_limit options = None ->
  DjangoTask.stale_time_limit self = None ->
  _get_time_limit self (o_time_limit options) = Some time_limit ->
  DjangoTask.max_queue_waiting_time self = Some wait -> wait <> 0 ->
  truth (DjangoTask.autoretry_for self) = true ->
  truth (DjangoTask.default_retry_delays self) = false ->
  DjangoTask.max_retries self = None ->
  exists msg w',
    _trigger depth self args kwargs options w = (Raise (TypeError msg), w')
    /\ cache w' = cache w /\ interference w' = interference w
    /\ broker w' = broker w /\ log w' = log w.
Proof.
  intros Hexplicit Hnone Hlimit Hwait Hne Hauto Hlist Hmax.
  destruct (or_task_uuid_total (o_task_id options) w) as (task_id & w0 & Hid & _ & Hsame).
  destruct Hsame as (_ & Hc & Hi & Hb & Hl & _).
  eexists _, w0. split; [| repeat split; assumption].
  apply (trigger_raises_stale depth self args kwargs options w w0 task_id Hid).
  unfold _get_stale_time_limit. rewrite Hexplicit, Hnone, Hlimit, Hwait, Hauto, Hlist, Hmax.
  rewrite (proj2 (truth_Z_true wait) Hne). reflexivity.
Qed.

(** [unbounded_retries_break_the_trigger] for a task that is not unique. *)
Lemma unbounded_retries_break_the_trigger_witness :
  exists msg w',
    _trigger 1 report_forever [] [] no_options Sample.quiet = (Raise (TypeError msg), w')
    /\ cache w' = cache Sample.quiet /\ interference w' = interference Sample.quiet
    /\ broker w' = broker Sample.quiet /\ log w' = log Sample.quiet.
Proof.
  apply (unbounded_retries_break_the_trigger 1 report_forever [] [] no_options Sample.quiet
           60 5); try reflexivity.
  discriminate.
Defined.

(** ** The paths of [_trigger], at work *)

(** The reserve succeeds in the quiet world: [report] is handed to the
    queue under its own task id. *)
Lemma unique_reserved_dispatches_witness :
  exists h opts w',
    _trigger 1 Sample.report [] [] no_options Sample.quiet = (Ok h, w')
    /\ AsyncResultWrapper_task_id h = "uuid-0"
    /\ broker w' = [{| msg_task := "report"; msg_args := []; msg_kwargs := [];
                       msg_options := opts; msg_async := true |}]
    /\ o_task_id opts = Some "uuid-0"
    /\ log w' = [Ev_on_invocation_trigger None [] [] "uuid-0" opts].
Proof.
  apply (unique_reserved_dispatches 0 Sample.report [] [] no_options Sample.quiet
           (set_next_uuid 1 Sample.quiet)
           (snd (cache_add "key-report" "uuid-0" (Some 161) (set_next_uuid 1 Sample.quiet)))
           "uuid-0" 161); reflexivity.
Defined.

(** The key is held by ["owner"]: a second asynchronous invocation gets a
    handle on ["owner"] and nothing is handed to the queue. *)
Lemma unique_reference_returned_witness :
  exists h opts w',
    _trigger 1 Sample.report [] [] no_options Sample.owned = (Ok h, w')
    /\ AsyncResultWrapper_task_id h = "owner"
    /\ broker w' = []
    /\ log w' = [Ev_on_invocation_unique None [] [] "owner" opts]
    /\ o_task_id opts = Some "owner"
    /\ cache_lookup "key-report" w' = Some "owner".
Proof.
  apply (unique_reference_returned 0 Sample.report [] [] no_options Sample.owned
           (set_next_uuid 1 Sample.owned) (set_next_uuid 1 Sample.owned)
           (set_next_uuid 1 Sample.owned) "uuid-0" 161 "owner"); try reflexivity.
  discriminate.
Defined.

(** The reference of the dispatch ["job"] raises [TimeoutError]: the hook
    is called and the error raised again. *)
Lemma get_timeout_callback_witness :
  AsyncResultWrapper_get Sample.handle None true timed_out
  = (Raise (TimeoutError "The operation timed out."),
     set_log [Ev_on_invocation_timeout (Some "inv") [] [] "job"
                (TimeoutError "The operation timed out.") no_options] timed_out).
Proof.
  apply (get_timeout_callback Sample.handle None true timed_out
           (TimeoutError "The operation timed out.") timed_out); reflexivity.
Defined.

(** The handle at address 0 is bound to a handle on ["job"]: the caller's
    [get] is that handle's. *)
Lemma deferred_get_shared_witness :
  let bound := snd (heap_set_result 0 Sample.handle pending) in
  Handle_get (Deferred 0) (Some 5) true bound
  = AsyncResultWrapper_get Sample.handle (Some 5) true bound.
Proof.
  cbv zeta.
  apply (deferred_get_shared 0 Sample.handle (Some 5) true pending).
  - exists OnCommitAsyncResult_init. reflexivity.
  - reflexivity.
Defined.

(** ** Applying *)


Lemma absent_key {A} : bool_decide (is_Some (@None A)) = false.
Proof. apply bool_decide_eq_false_2, is_Some_None. Qed.

Lemma present_key {A} (a : A) : bool_decide (is_Some (Some a)) = true.
Proof. apply bool_decide_eq_true_2. eauto. Qed.

Section Deferred_apply.

Variables (depth : nat) (self : DjangoTask.t) (args : Args) (kwargs : Kwargs).
Variables (using' : option string) (options : Options) (w : World).

Hypothesis Hasync : o_is_async options = None.
Hypothesis Hcommit : o_is_on_commit options = None.

(** [apply_async_on_commit] up to the registration of the callback: the
    invocation id is chosen, the hook [on_invocation_apply] is called, a fresh
    unbound handle is made, and the callback that captures the task, the
    arguments and the options goes to the transaction. *)
Lemma apply_async_on_commit_registers :
  exists invocation_id hook w1,
    heap w !! hook_result hook = None
    /\ hook_task hook = self /\ hook_args hook = args /\ hook_kwargs hook = kwargs
    /\ o_invocation_id (hook_options hook) = Some invocation_id
    /\ o_is_async (hook_options hook) = Some true
    /\ heap w1 = <[hook_result hook := OnCommitAsyncResult_init]> (heap w)
    /\ log w1 = log w ++ [Ev_on_invocation_apply (Some invocation_id) args kwargs
                            (hook_options hook)]
    /\ broker w1 = broker w /\ cache w1 = cache w /\ interference w1 = interference w
    /\ clock w1 = clock w
    /\ in_atomic w1 = in_atomic w /\ run_on_commit w1 = run_on_commit w
    /\ apply_async_on_commit depth self args kwargs using' options w
       = (transaction_on_commit depth hook ;; ret (Deferred (hook_result hook))) w1.
Proof.
  unfold apply_async_on_commit. rewrite Hasync, Hcommit.
  rewrite !absent_key.
  destruct (or_task_uuid_total (o_invocation_id (with_on_commit using' (with_is_async true options))) w)
    as (invocation_id & w0 & Hid & _ & Hsame).
  destruct Hsame as (Hc & Hca & Hi & Hb & Hl & _ & _ & Hh & Ha & Hr).
  unfold _first_apply. rewrite (bind_Ok _ _ _ _ _ Hid).
  unfold bind at 1, now. unfold on_invocation_apply. unfold bind at 1, emit.
  change (default false (o_is_on_commit (with_on_commit using' (with_is_async true options))))
    with true.
  cbv iota. unfold bind at 1, heap_alloc.
  match goal with
  | |- context [bind (transaction_on_commit _ ?h) _ ?v] => exists invocation_id, h, v
  end.
  cbn [hook_result hook_task hook_args hook_kwargs hook_options o_invocation_id o_is_async
       heap log broker cache interference clock in_atomic run_on_commit set_heap set_log
       with_on_commit with_is_async default].
  rewrite Hh, Hl, Hb, Hca, Hi, Hc, Ha, Hr.
  split; [apply not_elem_of_dom, is_fresh |]. repeat split.
Qed.

End Deferred_apply.


(** X16. Inside a transaction [apply_async_on_commit] hands nothing to the
    queue and does not consult the cache: it calls [on_invocation_apply],
    keeps the callback for the commit and returns a fresh handle that is not
    bound, whose [get] raises [NotTriggeredCeleryError]. A rollback drops the
    callback: the queue is as it was and the handle stays unbound. *)
Theorem deferred_inside_transaction depth self args kwargs using' options w :
  o_is_async options = None -> o_is_on_commit options = None ->
  in_atomic w = true ->
  exists addr w',
    apply_async_on_commit depth self args kwargs using' options w = (Ok (Deferred addr), w')
    /\ heap w !! addr = None
    /\ (forall timeout propagate,
           Handle_get (Deferred addr) timeout propagate w'
           = (Raise (NotTriggeredCeleryError "Celery task has not been triggered yet"), w'))
    /\ broker w' = broker w /\ cache w' = cache w /\ interference w' = interference w
    /\ length (run_on_commit w') = S (length (run_on_commit w))
    /\ (exists invocation_id sent,
           log w' = log w ++ [Ev_on_invocation_apply (Some invocation_id) args kwargs sent])
    /\ let rolled_back := snd (transaction_rollback w') in
       broker rolled_back = broker w /\ run_on_commit rolled_back = []
       /\ deref addr rolled_back = OnCommitAsyncResult_init.
Proof.
  intros Hasync Hcommit Hatomic.
  destruct (apply_async_on_commit_registers depth self args kwargs using' options w
              Hasync Hcommit)
    as (invocation_id & hook & w1 & Hfresh & _ & _ & _ & _ & _ & Hheap & Hlog & Hb & Hc & Hi
        & _ & Ha & Hr & Hrun).
  rewrite Hrun. unfold bind, transaction_on_commit, ret. rewrite Ha, Hatomic.
  eexists _, _. split; [reflexivity |].
  cbn [heap broker cache interference run_on_commit log set_run_on_commit snd
       transaction_rollback set_in_atomic].
  assert (Hunbound : forall v, heap v = heap w1 ->
             deref (hook_result hook) v = OnCommitAsyncResult_init).
  { intros v Hv. unfold deref. rewrite Hv, Hheap, lookup_insert_eq. reflexivity. }
  split; [exact Hfresh |]. split.
  { intros timeout propagate. unfold Handle_get. rewrite Hunbound by reflexivity. reflexivity. }
  rewrite Hb, Hc, Hi, Hr, Hlog, length_app. cbn [length].
  repeat split; [lia | eauto |]. apply Hunbound. reflexivity.
Qed.

(** [deferred_inside_transaction] for [report] in a transaction opened in
    the quiet world. *)
Lemma deferred_inside_transaction_witness :
  exists addr w',
    apply_async_on_commit 1 Sample.report [] [] None no_options
      (set_in_atomic true Sample.quiet) = (Ok (Deferred addr), w')
    /\ broker w' = [] /\ cache w' = ∅
    /\ Handle_get (Deferred addr) None true w'
       = (Raise (NotTriggeredCeleryError "Celery task has not been triggered yet"), w').
Proof.
  destruct (deferred_inside_transaction 1 Sample.report [] [] None no_options
              (set_in_atomic true Sample.quiet) eq_refl eq_refl eq_refl)
    as (addr & w' & Hrun & _ & Hget & Hb & Hc & _).
  exists addr, w'. split; [exact Hrun |]. split; [exact Hb |]. split; [exact Hc |]. apply Hget.
Defined.





(** X19. The calls that Celery makes itself go straight to Celery and are
    not deduplicated. [apply] with [retries] or [is_async] among its options
    runs the task in place: none of the invocation hooks is called and the
    cache is not consulted, the handler runs whoever holds the key, and when
    it returns [on_task_success] follows and the key of the arguments is
    released. [apply_async] while the task's request has an id, for a task
    that is not in always-eager mode and with the broker within reach, hands
    the message over with the options as they were passed: no hook is called
    and the cache is not touched. *)
Theorem reentry_goes_straight_to_the_queue depth self args kwargs options w :
  (is_Some (o_retries options) \/ is_Some (o_is_async options) ->
   forall retval,
     DjangoTask.run self args kwargs = Ok retval ->
     exists task_id w',
       fst (or_task_uuid (o_task_id options) w) = Ok task_id
       /\ apply depth self args kwargs options w
          = (Ok (Bare (EagerResult task_id (Ok retval))), w')
       /\ log w' = log w ++ [Ev_on_task_start (Some task_id) args kwargs;
                             Ev_on_task_success task_id args kwargs retval]
       /\ broker w' = broker w ++ [{| msg_task := DjangoTask.name self; msg_args := args;
                                      msg_kwargs := kwargs; msg_options := options;
                                      msg_async := default false (o_is_async options) |}]
       /\ released self args kwargs w w')
  /\ (forall req below,
         request_stack w = req :: below -> truth (req_id req) = true ->
         DjangoTask.task_always_eager self = false -> outage w = None ->
         exists task_id w',
           apply_async depth self args kwargs options w
           = (Ok (Bare (AsyncResult task_id)), w')
           /\ log w' = log w /\ cache w' = cache w /\ interference w' = interference w
           /\ broker w' = broker w ++ [{| msg_task := DjangoTask.name self; msg_args := args;
                                          msg_kwargs := kwargs; msg_options := options;
                                          msg_async := default true (o_is_async options) |}]).
Proof.
  destruct (or_task_uuid_total (o_task_id options) w) as (task_id & w0 & Hid & _ & Hsame).
  pose proof (or_task_uuid_outage (o_task_id options) w) as Ho0. rewrite Hid in Ho0.
  cbn [snd] in Ho0.
  destruct Hsame as (Hc0 & Hca0 & Hi0 & Hb0 & Hl0 & _).
  split.
  - intros Hreentry retval Hhandler.
    rewrite (apply_with_is_async depth self args kwargs options Hreentry).
    destruct (super_apply_spec self args kwargs options task_id w w0 Hid)
      as (w' & Hrun & Hl & Hb & _ & _ & Hback).
    rewrite Hhandler in Hrun, Hl. cbn [run_events] in Hl.
    destruct Hback as (_ & Hreleased); [rewrite Hhandler; discriminate |].
    exists task_id, w'. rewrite Hid. split; [reflexivity |].
    split; [rewrite (bind_Ok _ _ _ _ _ Hrun); reflexivity |].
    split; [rewrite Hl, Hl0; reflexivity |]. split; [rewrite Hb, Hb0; reflexivity |].
    apply (released_ext self args kwargs w0 w w' Hi0 Hca0 Hc0 Hreleased).
  - intros req below Hstack Hrequest Hqueued Hreach.
    exists task_id. eexists. split.
    + unfold apply_async, try_except, request. unfold bind at 1. rewrite Hstack.
      cbn [head default]. unfold id. rewrite Hrequest. unfold super_apply_async.
      rewrite (bind_Ok _ _ _ _ _ Hid), Hqueued. unfold bind, publish, ret.
      rewrite Ho0, Hreach. reflexivity.
    + cbn [log cache interference broker set_broker]. rewrite Hl0, Hca0, Hi0, Hb0.
      repeat split.
Qed.

(** [reentry_goes_straight_to_the_queue] for the unique task [report] while
    its key is held by ["owner"]: applied as Celery applies a retry, it runs
    in place and the owner's key is gone; applied asynchronously from inside
    the worker that runs ["owner"], a second message goes out. *)
Lemma reentry_goes_straight_to_the_queue_witness :
  let running :=
    set_request_stack
      [{| req_id := Some "owner"; called_directly := false; _protected := true;
          retries := 0 |}] Sample.owned in
  (exists w',
      apply 1 Sample.report [] [] (with_retries 1 no_options) Sample.owned
      = (Ok (Bare (EagerResult "uuid-0" (Ok PyNone))), w')
      /\ log w' = [Ev_on_task_start (Some "uuid-0") [] [];
                   Ev_on_task_success "uuid-0" [] [] PyNone]
      /\ cache_lookup "key-report" Sample.owned = Some "owner"
      /\ cache w' = ∅)
  /\ exists task_id w',
      apply_async 1 Sample.report [] [] no_options running
      = (Ok (Bare (AsyncResult task_id)), w')
      /\ log w' = [] /\ length (broker w') = 1%nat.
Proof.
  cbv zeta. split.
  - destruct (reentry_goes_straight_to_the_queue 1 Sample.report [] []
                (with_retries 1 no_options) Sample.owned) as (Hplace & _).
    destruct (Hplace (or_introl (ex_intro _ 1%nat eq_refl)) PyNone eq_refl)
      as (task_id & w' & Hid & Hrun & Hlog & _ & Hcleared & _).
    injection Hid as <-. exists w'. split; [exact Hrun |]. split; [exact Hlog |].
    split; [reflexivity |].
    destruct (Hcleared eq_refl eq_refl) as (Hcache & _). rewrite Hcache. reflexivity.
  - destruct (reentry_goes_straight_to_the_queue 1 Sample.report [] [] no_options
                (set_request_stack
                   [{| req_id := Some "owner"; called_directly := false; _protected := true;
                       retries := 0 |}] Sample.owned)) as (_ & Hasync).
    destruct (Hasync _ _ eq_refl eq_refl eq_refl eq_refl)
      as (task_id & w' & Hrun & Hlog & _ & _ & Hbroker).
    exists task_id, w'. split; [exact Hrun |]. rewrite Hlog, Hbroker. split; reflexivity.
Defined.

(** X20. [apply_async_and_get_result] with a timeout that is zero or
    negative does not wait: once the task is applied and a bound handle has
    come back, [on_invocation_timeout] is called once and [TimeoutError] is
    raised, the result store not being asked and the clock where it was. When
    the handle that comes back is a deferred one, which has no [timeout]
    method, the call raises [AttributeError] instead. *)
Theorem no_wait_raises_at_once depth self args kwargs timeout propagate options w h w1 :
  timeout <= 0 ->
  apply_async depth self args kwargs options w = (Ok h, w1) ->
  (forall r,
      h = Bound r ->
      apply_async_and_get_result depth self args kwargs (Some timeout) propagate options w
      = (Raise (TimeoutError "The operation timed out."),
         set_log (log w1 ++ [Ev_on_invocation_timeout (AsyncResultWrapper._invocation_id r)
                               (AsyncResultWrapper._args r) (AsyncResultWrapper._kwargs r)
                               (AsyncResultWrapper_task_id r)
                               (TimeoutError "The operation timed out.")
                               (AsyncResultWrapper._options r)]) w1))
  /\ (forall addr,
         h = Deferred addr ->
         exists msg,
           apply_async_and_get_result depth self args kwargs (Some timeout) propagate options w
           = (Raise (AttributeError msg), w1)).
Proof.
  intros Hpast Happlied.
  assert (Hbranch : bool_decide (Some timeout = None)
                    || bool_decide (0 < default 0 (Some timeout)) = false).
  { cbn [default]. unfold id. rewrite bool_decide_eq_false_2 by discriminate.
    rewrite bool_decide_eq_false_2 by lia. reflexivity. }
  unfold apply_async_and_get_result. rewrite (bind_Ok _ _ _ _ _ Happlied), Hbranch.
  split.
  - intros r ->. reflexivity.
  - intros addr ->. eexists. reflexivity.
Qed.

(** [no_wait_raises_at_once] for [report] in the quiet world, with a
    timeout of 0. *)
Lemma no_wait_raises_at_once_witness :
  exists w',
    apply_async_and_get_result 1 Sample.report [] [] (Some 0) true no_options Sample.quiet
    = (Raise (TimeoutError "The operation timed out."), w')
    /\ clock w' = 1000 /\ length (log w') = 3%nat.
Proof.
  destruct (apply_async 1 Sample.report [] [] no_options Sample.quiet) as [r w1] eqn:Happlied.
  assert (Hr : r = fst (apply_async 1 Sample.report [] [] no_options Sample.quiet))
    by (rewrite Happlied; reflexivity).
  assert (Hw : w1 = snd (apply_async 1 Sample.report [] [] no_options Sample.quiet))
    by (rewrite Happlied; reflexivity).
  vm_compute in Hr.
  match type of Hr with
  | r = Ok (Bound ?b) =>
      rewrite Hr in Happlied;
      destruct (no_wait_raises_at_once 1 Sample.report [] [] 0 true no_options Sample.quiet
                  (Bound b) w1 ltac:(lia) Happlied) as (Hbound & _);
      pose proof (Hbound b eq_refl) as Hraise
  end.
  eexists. split; [exact Hraise |]. rewrite Hw. split; vm_compute; reflexivity.
Defined.

(** ** Retrying, whatever is passed *)

(** X21. [retry] always goes through: [on_task_retry] and then Celery's
    retry are called, with one and the same eta; an eta that is passed is that
    eta. With no delay list passed or set on the task, [max_retries] goes to
    Celery as it was passed, and with no eta and no countdown either the
    retry is for now plus [default_retry_delay]. *)
Theorem retry_hook_sees_the_eta self args kwargs exc throw eta countdown max_retries passed
    options w :
  let req := default default_request (head (request_stack w)) in
  exists eta' max_retries',
    retry self args kwargs exc throw eta countdown max_retries passed options w
    = (Ok tt,
       set_log (log w ++ [Ev_on_task_retry (req_id req) args kwargs exc eta';
                          Ev_super_retry args kwargs exc throw eta' max_retries']) w)
    /\ (forall e, eta = Some e -> eta' = e)
    /\ (truth passed = false -> truth (DjangoTask.default_retry_delays self) = false ->
        max_retries' = max_retries
        /\ (eta = None -> countdown = None ->
            eta' = plus_seconds (Datetime (clock w)) (DjangoTask.default_retry_delay self))).
Proof.
  intros req. unfold retry. rewrite (bind_Ok request _ w req w eq_refl). cbv beta zeta.
  match goal with
  | |- context [bind ?m _ w] =>
      destruct (m w) as [r w1] eqn:Heta
  end.
  assert (Hw1 : w1 = w /\ exists e, r = Ok e).
  { revert Heta. destruct eta as [e |]; cbn [truth option_truth datetime_truth];
      unfold ret, bind, now; intros [= <- <-]; eauto. }
  destruct Hw1 as (-> & e & ->).
  rewrite (bind_Ok _ _ _ _ _ Heta), retry_resubmits.
  eexists _, _. split; [reflexivity |]. split.
  - intros e' ->. cbn in Heta. unfold ret in Heta. congruence.
  - intros Hpassed Hlist. rewrite Hpassed, Hlist, andb_false_r. cbn [orb fst snd].
    split; [reflexivity |]. intros -> ->.
    rewrite Hpassed, Hlist, andb_false_r in Heta. cbn in Heta.
    unfold bind, now, ret in Heta. congruence.
Qed.

(** X22. An empty delay list that is passed takes the place of the task's
    list: with no eta and no countdown passed and a non-empty list on the
    task, [retry(default_retry_delays=[])] hands [max_retries = 0] to Celery,
    for now plus [default_retry_delay]. *)
Theorem retry_with_an_empty_list self args kwargs exc throw max_retries options w :
  truth (DjangoTask.default_retry_delays self) = true ->
  let req := default default_request (head (request_stack w)) in
  let eta := plus_seconds (Datetime (clock w)) (DjangoTask.default_retry_delay self) in
  retry self args kwargs exc throw None None max_retries (Some []) options w
  = (Ok tt,
     set_log (log w ++ [Ev_on_task_retry (req_id req) args kwargs exc eta;
                        Ev_super_retry args kwargs exc throw eta (Some 0)]) w).
Proof.
  intros Hlist req eta. unfold retry. rewrite (bind_Ok request _ w req w eq_refl).
  cbv beta zeta. rewrite Hlist. cbn [truth option_truth list_truth orb andb fst snd default].
  erewrite bind_Ok; [apply retry_resubmits |].
  unfold len, id. cbn [length]. destruct (Z.of_nat (retries req) <? Z.of_nat 0) eqn:Hlt.
  - apply Z.ltb_lt in Hlt. lia.
  - reflexivity.
Qed.

(** [retry_with_an_empty_list] for the task with the delays 10, 30, 90 at
    its first attempt. *)
Lemma retry_with_an_empty_list_witness :
  retry Sample.backoff [] [] None true None None (Some 5) (Some []) no_options
    (Sample.working 0)
  = (Ok tt,
     set_log [Ev_on_task_retry (Some "job") [] [] None (Datetime 1180);
              Ev_super_retry [] [] None true (Datetime 1180) (Some 0)] (Sample.working 0)).
Proof.
  apply (retry_with_an_empty_list Sample.backoff [] [] None true (Some 5) no_options
           (Sample.working 0)). reflexivity.
Defined.

(** ** The terminal callbacks and the cache *)

(** X23. [on_success] and [on_failure] call their hook and delete at most
    the key of their arguments: every other row of the cache is as the other
    users of the cache left it, and for a task that is not unique, or whose
    key is empty, the cache is not reached at all. Nothing goes to the
    queue. *)
Theorem terminal_callbacks_clear_their_key_only self args kwargs w :
  let key := DjangoTask.unique_key_generator self args kwargs in
  let cleared (done : M unit) (e : Event) :=
    exists w',
      done w = (Ok tt, w') /\ log w' = log w ++ [e] /\ broker w' = broker w
      /\ (DjangoTask.unique self = true -> truth key = true ->
          cache w' = delete key (cache (interfere w))
          /\ interference w' = tail (interference w))
      /\ (DjangoTask.unique self = false \/ truth key = false ->
          cache w' = cache w /\ interference w' = interference w /\ clock w' = clock w) in
  (forall retval task_id,
      cleared (on_success self retval task_id args kwargs)
        (Ev_on_task_success task_id args kwargs retval))
  /\ (forall exc task_id,
         cleared (on_failure self exc task_id args kwargs)
           (Ev_on_task_failure task_id args kwargs exc)).
Proof.
  intros key cleared.
  assert (Hclear : forall v,
             exists v',
               _clear_unique_key self args kwargs v = (Ok tt, v')
               /\ log v' = log v /\ broker v' = broker v
               /\ (DjangoTask.unique self = true -> truth key = true ->
                   cache v' = delete key (cache (interfere v))
                   /\ interference v' = tail (interference v))
               /\ (DjangoTask.unique self = false \/ truth key = false ->
                   v' = v)).
  { intros v. unfold _clear_unique_key, _get_unique_key. fold key.
    destruct (DjangoTask.unique self); [destruct (truth key) eqn:Hkey |].
    - unfold cache_delete. eexists. split; [reflexivity |].
      destruct (interfere_frame v) as (Hb & Hl & _).
      cbn [log broker cache interference set_cache]. rewrite interfere_interference.
      repeat split; try assumption. intros [| ]; discriminate.
    - exists v. repeat split; try discriminate.
    - exists v. repeat split; discriminate. }
  split.
  - intros retval task_id. unfold cleared, on_success, on_task_success, bind, emit.
    destruct (Hclear (set_log (log w ++ [Ev_on_task_success task_id args kwargs retval]) w))
      as (v' & -> & Hl & Hb & Hunique & Hplain).
    rewrite interfere_set_log in Hunique.
    exists v'. split; [reflexivity |]. split; [exact Hl |]. split; [exact Hb |].
    split; [exact Hunique |]. intros Hskip. rewrite (Hplain Hskip). repeat split.
  - intros exc task_id. unfold cleared, on_failure, on_task_failure, bind, emit.
    destruct (Hclear (set_log (log w ++ [Ev_on_task_failure task_id args kwargs exc]) w))
      as (v' & -> & Hl & Hb & Hunique & Hplain).
    rewrite interfere_set_log in Hunique.
    exists v'. split; [reflexivity |]. split; [exact Hl |]. split; [exact Hb |].
    split; [exact Hunique |]. intros Hskip. rewrite (Hplain Hskip). repeat split.
Qed.

(** [retry_hook_sees_the_eta] for a task with no delay list, retried with
    nothing passed at second 1000: 180 seconds from now, [max_retries] as
    passed. *)
Lemma retry_hook_sees_the_eta_witness :
  exists eta' max_retries',
    retry Sample.report_flat [] [] None true None None (Some 7) None no_options
      (Sample.working 1)
    = (Ok tt,
       set_log [Ev_on_task_retry (Some "job") [] [] None eta';
                Ev_super_retry [] [] None true eta' max_retries'] (Sample.working 1))
    /\ max_retries' = Some 7 /\ eta' = Datetime 1180.
Proof.
  destruct (retry_hook_sees_the_eta Sample.report_flat [] [] None true None None (Some 7) None
              no_options (Sample.working 1)) as (eta' & max_retries' & Hrun & _ & Hflat).
  destruct (Hflat eq_refl eq_refl) as (Hmax & Heta).
  exists eta', max_retries'. split; [exact Hrun |]. split; [exact Hmax |].
  apply (Heta eq_refl eq_refl).
Defined.

(** [terminal_callbacks_clear_their_key_only] for the task [backoff], which
    is not unique, while another task's key is held. *)
Lemma terminal_callbacks_clear_their_key_only_witness :
  exists w',
    on_success Sample.backoff PyNone "job" [] [] Sample.owned = (Ok tt, w')
    /\ cache w' = cache Sample.owned
    /\ log w' = [Ev_on_task_success "job" [] [] PyNone].
Proof.
  destruct (terminal_callbacks_clear_their_key_only Sample.backoff [] [] Sample.owned)
    as (Hsuccess & _).
  destruct (Hsuccess PyNone "job") as (w' & Hrun & Hlog & _ & _ & Hplain).
  exists w'. split; [exact Hrun |].
  destruct (Hplain (or_introl eq_refl)) as (Hcache & _). split; assumption.
Defined.

(** ** Applying from outside the worker *)

(** [_first_apply] on the path that triggers at once: the invocation id is
    the one given or else a fresh one, the queue is the name, made a string,
    of the one given, else of the task's, else the app's default, and
    [on_invocation_apply] is called before [_trigger] runs with these
    options. *)
Lemma first_apply_triggers depth self args kwargs options w :
  default false (o_is_on_commit options) = false ->
  exists invocation_id sent w1,
    o_invocation_id sent = Some invocation_id
    /\ (forall given, o_invocation_id options = Some given -> truth given = true ->
                      invocation_id = given)
    /\ o_queue sent
       = Some (PyStr (str (match o_queue options with
                           | Some q => q
                           | None => default (PyStr (DjangoTask.task_default_queue self))
                                       (DjangoTask.queue self)
                           end)))
    /\ o_is_async sent = Some (default true (o_is_async options))
    /\ o_task_id sent = o_task_id options
    /\ o_apply_time sent = Some (Datetime (clock w))
    /\ log w1 = log w ++ [Ev_on_invocation_apply (Some invocation_id) args kwargs sent]
    /\ broker w1 = broker w /\ cache w1 = cache w /\ interference w1 = interference w
    /\ outage w1 = outage w /\ clock w1 = clock w
    /\ o_expires sent = o_expires options /\ o_time_limit sent = o_time_limit options
    /\ o_stale_time_limit sent = o_stale_time_limit options
    /\ _first_apply depth self args kwargs options w
       = (result <- _trigger depth self args kwargs sent ;; ret (Bound result)) w1.
Proof.
  intros Hnow.
  destruct (or_task_uuid_total (o_invocation_id options) w)
    as (invocation_id & w0 & Hid & _ & Hsame).
  pose proof (or_task_uuid_outage (o_invocation_id options) w) as Ho0. rewrite Hid in Ho0.
  cbn [snd] in Ho0.
  destruct Hsame as (Hc & Hca & Hi & Hb & Hl & _).
  unfold _first_apply. rewrite (bind_Ok _ _ _ _ _ Hid).
  unfold bind at 1, now. unfold on_invocation_apply. unfold bind at 1, emit.
  rewrite Hnow.
  match goal with
  | |- context [bind (_trigger depth self args kwargs ?o) _ ?v] => exists invocation_id, o, v
  end.
  cbn [o_invocation_id o_queue o_is_async o_task_id o_apply_time o_expires o_time_limit
       o_stale_time_limit log broker cache interference outage clock set_log].
  rewrite Hc, Hl, Hb, Hca, Hi, Ho0. repeat split.
  intros given Hgiven Htruthy. unfold or_task_uuid in Hid. rewrite Hgiven, Htruthy in Hid.
  unfold ret in Hid. congruence.
Qed.

(** X24. [apply_async] from outside the worker, for an invocation that is
    not deferred: when it returns, [on_invocation_apply] has been called and
    then exactly one of [on_invocation_trigger] and [on_invocation_unique],
    both with the invocation id that the handle carries, which is the id that
    was passed when one was; the queue named in the options of the hooks is
    [str] of the one passed, else of the task's, else the app's default, so
    that a queue that is [None] is named ['None']. After
    [on_invocation_trigger] no other hook follows unless the task is in
    always-eager mode, where it runs in place and [on_task_start] is next.
    When the call raises, nothing has been dispatched, and it fails to return
    only for a handler that does not return, run in always-eager mode. *)
Theorem apply_async_correlates depth self args kwargs options w :
  truth (req_id (default default_request (head (request_stack w)))) = false ->
  o_is_async options = None ->
  default false (o_is_on_commit options) = false ->
  match apply_async depth self args kwargs options w with
  | (Ok h, w') =>
      exists r invocation_id applied sent,
        h = Bound r
        /\ AsyncResultWrapper._invocation_id r = Some invocation_id
        /\ (forall given, o_invocation_id options = Some given -> truth given = true ->
                          invocation_id = given)
        /\ o_queue applied
           = Some (PyStr (str (match o_queue options with
                               | Some q => q
                               | None =>
                                   default (PyStr (DjangoTask.task_default_queue self))
                                     (DjangoTask.queue self)
                               end)))
        /\ ((exists ran,
                log w'
                = log w ++ Ev_on_invocation_apply (Some invocation_id) args kwargs applied
                           :: Ev_on_invocation_trigger (Some invocation_id) args kwargs
                                (AsyncResultWrapper_task_id r) sent
                           :: ran
                /\ (DjangoTask.task_always_eager self = false -> ran = [])
                /\ (DjangoTask.task_always_eager self = true ->
                    exists rest,
                      ran = Ev_on_task_start (Some (AsyncResultWrapper_task_id r)) args kwargs
                            :: rest))
            \/ log w'
               = log w ++ [Ev_on_invocation_apply (Some invocation_id) args kwargs applied;
                           Ev_on_invocation_unique (Some invocation_id) args kwargs
                             (AsyncResultWrapper_task_id r) sent])
  | (Raise _, w') => broker w' = broker w
  | (Blocks, _) =>
      DjangoTask.task_always_eager self = true /\ DjangoTask.run self args kwargs = Blocks
  end.
Proof.
  intros Hrequest Hasync Hnow.
  destruct (first_apply_triggers depth self args kwargs (with_is_async true options) w Hnow)
    as (invocation_id & applied & w1 & Hinv & Hgiven & Hqueue & Hflag & _ & _ & Hlog & Hb1 & _
        & _ & _ & _ & _ & _ & _ & Hrun).
  assert (Hcall : apply_async depth self args kwargs options w
                  = try_except
                      (_first_apply depth self args kwargs (with_is_async true options))
                      (fun ex => match ex with
                                 | InterfaceError _ | OperationalError _ => true
                                 | _ => false
                                 end)
                      (fun ex => close_old_connections ;; raise ex) w).
  { unfold apply_async, try_except, request. unfold bind at 1. rewrite Hrequest, Hasync.
    rewrite absent_key. reflexivity. }
  rewrite Hcall. unfold try_except. rewrite Hrun.
  destruct (trigger_outcome depth self args kwargs applied w1)
    as (task_id & _ & _ & _ & _ & Hout).
  cbv zeta in Hout. rewrite Hflag in Hout. cbn [default negb orb with_is_async o_is_async] in Hout.
  unfold bind.
  destruct (_trigger depth self args kwargs applied w1) as [[r | ex |] w2];
    cbn [fst snd ret] in *.
  - destruct Hout as (_ & _ & _ & Hcarried & _ & Hway).
    exists r, invocation_id, applied.
    destruct Hway as [(_ & _ & _ & sent & _ & Hl) | (Hh & sent & _ & _ & Hplace)].
    + exists sent. split; [reflexivity |]. split; [congruence |].
      split; [exact Hgiven |]. split; [exact Hqueue |]. right.
      rewrite Hl, Hlog, <- app_assoc, Hinv. reflexivity.
    + exists sent. split; [reflexivity |]. split; [congruence |].
      split; [exact Hgiven |]. split; [exact Hqueue |]. left. rewrite Hh.
      destruct (DjangoTask.task_always_eager self).
      * destruct Hplace as (_ & _ & Hl). eexists.
        split; [rewrite Hl, Hlog, <- app_assoc, Hinv; reflexivity |].
        split; [discriminate |]. intros _. unfold run_events. eauto.
      * destruct Hplace as (_ & _ & Hl). exists [].
        split; [rewrite Hl, Hlog, <- app_assoc, Hinv; reflexivity |].
        split; [reflexivity | discriminate].
  - destruct Hout as (Hb & _). destruct ex; cbn; congruence.
  - destruct Hout as (Hplace & Hhandler & _). auto.
Qed.

(** [apply_async_correlates] for [report] applied in the quiet world with
    the invocation id ["inv"] and the queue [None]. *)
Lemma apply_async_correlates_witness :
  let options :=
    {| o_invocation_id := Some "inv"; o_task_id := None; o_trigger_time := None;
       o_time_limit := None; o_eta := None; o_countdown := None; o_expires := None;
       o_is_async := None; o_stale_time_limit := None; o_queue := Some PyNone;
       o_apply_time := None; o_is_on_commit := None; o_using := None; o_retries := None |} in
  exists r w' applied,
    apply_async 1 Sample.report [] [] options Sample.quiet = (Ok (Bound r), w')
    /\ AsyncResultWrapper._invocation_id r = Some "inv"
    /\ o_queue applied = Some (PyStr "None")
    /\ exists e, log w' = [Ev_on_invocation_apply (Some "inv") [] [] applied; e].
Proof.
  cbv zeta.
  match goal with
  | |- context [apply_async 1 Sample.report [] [] ?o Sample.quiet] =>
      pose proof (apply_async_correlates 1 Sample.report [] [] o Sample.quiet
                    eq_refl eq_refl eq_refl) as Hrun;
      destruct (apply_async 1 Sample.report [] [] o Sample.quiet) as [[h | ex |] w'] eqn:Hcall
  end.
  - destruct Hrun as (r & invocation_id & applied & sent & -> & Hinv & Hgiven & Hqueue & Hlog).
    rewrite <- (Hgiven "inv" eq_refl eq_refl).
    exists r, w', applied. split; [reflexivity |]. split; [exact Hinv |]. split; [exact Hqueue |].
    destruct Hlog as [(ran & -> & Hran & _) | ->]; [rewrite (Hran eq_refl) |];
      eexists; reflexivity.
  - vm_compute in Hcall. discriminate.
  - destruct Hrun as (Heager & _). discriminate.
Defined.

(** ** When the broker is out of reach *)

(** X25. The hook and the reserve come before the dispatch, and nothing
    undoes them when the dispatch fails. With the broker out of reach, the
    asynchronous invocation of a unique task that finds its key free reserves
    the key, calls [on_invocation_trigger] and raises what the broker raised:
    nothing is in the queue, and the key stays with the task id of an
    invocation that was never dispatched. With nothing else happening to the
    cache, the next asynchronous invocation with the same arguments is given a
    reference to that task id and dispatches nothing either. *)
Theorem failed_dispatch_keeps_the_key self args kwargs depth depth' options w task_id ttl ex :
  let key := DjangoTask.unique_key_generator self args kwargs in
  DjangoTask.unique self = true -> truth key = true ->
  DjangoTask.task_always_eager self = false ->
  interference w = [] -> cache_lookup key w = None ->
  default true (o_is_async options) = true -> outage w = Some ex ->
  fst (or_task_uuid (o_task_id options) w) = Ok task_id ->
  _get_stale_time_limit self (o_expires options)
    (_get_time_limit self (o_time_limit options)) (o_stale_time_limit options)
    (Datetime (clock w)) = Ok (Some ttl) ->
  0 < ttl ->
  exists w' sent,
    _trigger (S depth) self args kwargs options w = (Raise ex, w')
    /\ broker w' = broker w
    /\ log w' = log w ++ [Ev_on_invocation_trigger (o_invocation_id options) args kwargs
                            task_id sent]
    /\ cache_lookup key w' = Some task_id
    /\ forall second task_id' ttl',
        default true (o_is_async second) = true ->
        fst (or_task_uuid (o_task_id second) w') = Ok task_id' -> task_id' <> task_id ->
        _get_stale_time_limit self (o_expires second)
          (_get_time_limit self (o_time_limit second)) (o_stale_time_limit second)
          (Datetime (clock w')) = Ok (Some ttl') ->
        truth ttl' = true ->
        exists h' w'',
          _trigger (S depth') self args kwargs second w' = (Ok h', w'')
          /\ AsyncResultWrapper_task_id h' = task_id
          /\ broker w'' = broker w.
Proof.
  intros key Hunique Hkey Hqueued Hquiet Hfree His_async Hdown Hfst Hstale Hpos.
  destruct (trigger_quiet_reserved self args kwargs Hunique Hkey Hqueued depth options w
              task_id ttl Hquiet Hfree His_async Hfst Hstale Hpos)
    as (sent & w' & Hquiet' & _ & _ & Hheld & Hb & Hl & _ & Hrun).
  rewrite Hdown in Hrun.
  destruct (or_task_uuid_fst _ _ _ Hfst) as (_ & _ & Htruthy & _).
  exists w', sent. split; [exact Hrun |]. split; [exact Hb |]. split; [exact Hl |].
  split; [exact Hheld |].
  intros second task_id' ttl' Hasync Hfst' Hother Hstale' Httl'.
  destruct (trigger_quiet_held self args kwargs Hunique Hkey Hqueued depth' second w' task_id'
              ttl' task_id Hquiet' Hheld Htruthy Hasync Hfst' Hother Hstale' Httl')
    as (h' & w'' & Hrun' & Hh' & _ & _ & _ & Hbroker').
  exists h', w''. split; [exact Hrun' |]. split; [exact Hh' |]. congruence.
Qed.

(** [failed_dispatch_keeps_the_key] for [report] with the broker out of
    reach: the trigger raises, the queue is empty and the key is held by
    ["uuid-0"]. *)
Lemma failed_dispatch_keeps_the_key_witness :
  exists w',
    _trigger 1 Sample.report [] [] no_options unreachable
    = (Raise (KombuOperationalError "[Errno 111] Connection refused"), w')
    /\ broker w' = []
    /\ cache_lookup "key-report" w' = Some "uuid-0".
Proof.
  destruct (failed_dispatch_keeps_the_key Sample.report [] [] 0 0 no_options unreachable
              "uuid-0" 161 (KombuOperationalError "[Errno 111] Connection refused")
              eq_refl eq_refl eq_refl eq_refl eq_refl eq_refl eq_refl eq_refl eq_refl eq_refl)
    as (w' & sent & Hrun & Hb & _ & Hheld & _).
  exists w'. split; [exact Hrun |]. split; [exact Hb | exact Hheld].
Defined.

(** X26. What the broker raises, [apply_async] raises, and it calls
    [close_old_connections] first exactly when the error is Django's
    [InterfaceError] or [OperationalError]. For a task that is not unique and
    not in always-eager mode, applied from outside the worker with the broker
    out of reach: [on_invocation_apply] and [on_invocation_trigger] have been
    called, nothing is in the queue, and the error comes back as it was. *)
Theorem broker_error_passes_through depth self args kwargs options w ex stale :
  truth (req_id (default default_request (head (request_stack w)))) = false ->
  o_is_async options = None ->
  default false (o_is_on_commit options) = false ->
  DjangoTask.unique self = false -> DjangoTask.task_always_eager self = false ->
  outage w = Some ex ->
  _get_stale_time_limit self (o_expires options)
    (_get_time_limit self (o_time_limit options)) (o_stale_time_limit options)
    (Datetime (clock w)) = Ok stale ->
  exists w' invocation_id applied task_id sent,
    apply_async (S depth) self args kwargs options w = (Raise ex, w')
    /\ broker w' = broker w
    /\ log w'
       = log w ++ [Ev_on_invocation_apply (Some invocation_id) args kwargs applied;
                   Ev_on_invocation_trigger (Some invocation_id) args kwargs task_id sent]
               ++ match ex with
                  | InterfaceError _ | OperationalError _ => [Ev_close_old_connections]
                  | _ => []
                  end.
Proof.
  intros Hrequest Hasync Hnow Hplain Hqueued Hdown Hstale.
  destruct (first_apply_triggers (S depth) self args kwargs (with_is_async true options) w
              Hnow)
    as (invocation_id & applied & w1 & Hinv & _ & _ & Hflag & _ & _ & Hlog & Hb1 & _
        & _ & Ho1 & Hclock & Hexpires & Hlimit & Hexplicit & Hrun).
  assert (Hcall : apply_async (S depth) self args kwargs options w
                  = try_except
                      (_first_apply (S depth) self args kwargs (with_is_async true options))
                      (fun ex => match ex with
                                 | InterfaceError _ | OperationalError _ => true
                                 | _ => false
                                 end)
                      (fun ex => close_old_connections ;; raise ex) w).
  { unfold apply_async, try_except, request. unfold bind at 1. rewrite Hrequest, Hasync.
    rewrite absent_key. reflexivity. }
  rewrite Hcall. unfold try_except. rewrite Hrun.
  destruct (or_task_uuid_total (o_task_id applied) w1) as (task_id & w0 & Hid & Htruthy & Hsame).
  pose proof (or_task_uuid_outage (o_task_id applied) w1) as Ho0. rewrite Hid in Ho0.
  cbn [snd] in Ho0.
  destruct Hsame as (Hc0 & _ & _ & Hb0 & Hl0 & _).
  assert (Hstale' : _get_stale_time_limit self (o_expires applied)
                      (_get_time_limit self (o_time_limit applied))
                      (o_stale_time_limit applied) (Datetime (clock w0)) = Ok stale).
  { rewrite Hexpires, Hlimit, Hexplicit, Hc0, Hclock. exact Hstale. }
  assert (Hskip : truth (_get_unique_key self args kwargs) = false).
  { unfold _get_unique_key. rewrite Hplain. reflexivity. }
  pose proof (unique_task_id_skipped depth self (_get_unique_key self args kwargs) task_id
                stale w0 (or_introl Hskip)) as Hresolve.
  destruct (trigger_resolved (S depth) self args kwargs applied w1 w0 task_id Hid stale
              task_id w0 Hstale' Hresolve) as (sent & Hsent & _ & Htrigger).
  rewrite String.eqb_refl, andb_false_r in Htrigger.
  pose proof Hsent as (_ & Htask & _ & _ & _ & _ & Hsent_async & _).
  assert (Hpublished : default false (o_is_async sent) = true)
    by (rewrite Hsent_async, Hflag; reflexivity).
  match type of Htrigger with
  | context [_apply_and_get_wrapped_result self args kwargs sent ?v] =>
      rewrite (apply_and_get_wrapped_result_published self args kwargs sent task_id v
                 Htask Htruthy Hpublished Hqueued) in Htrigger
  end.
  cbn [outage set_log] in Htrigger. rewrite Ho0, Ho1, Hdown in Htrigger.
  rewrite (bind_Raise _ _ _ _ _ Htrigger).
  exists (snd (if match ex with
                   | InterfaceError _ | OperationalError _ => true
                   | _ => false
                   end
               then (close_old_connections ;; raise ex)
                      (set_log (log w0 ++ [Ev_on_invocation_trigger (o_invocation_id applied)
                                             args kwargs task_id sent]) w0)
               else (Raise ex : Res Handle,
                     set_log (log w0 ++ [Ev_on_invocation_trigger (o_invocation_id applied)
                                           args kwargs task_id sent]) w0))),
    invocation_id, applied, task_id, sent.
  rewrite Hinv.
  destruct ex; cbn [snd broker log set_log close_old_connections emit bind raise];
    unfold bind, close_old_connections, emit, raise; cbn [snd broker log set_log];
    rewrite ?Hb0, ?Hb1, Hl0, Hlog, <- ?app_assoc; repeat split.
Qed.

(** [broker_error_passes_through] for the task [backoff], which is not
    unique, applied with the broker out of reach: Kombu's error is none of
    Django's, and the old connections are left alone. *)
Lemma broker_error_passes_through_witness :
  exists w' applied sent,
    apply_async 1 Sample.backoff [] [] no_options unreachable
    = (Raise (KombuOperationalError "[Errno 111] Connection refused"), w')
    /\ broker w' = []
    /\ log w' = [Ev_on_invocation_apply (Some "uuid-0") [] [] applied;
                 Ev_on_invocation_trigger (Some "uuid-0") [] [] "uuid-1" sent].
Proof.
  destruct (broker_error_passes_through 0 Sample.backoff [] [] no_options unreachable
              (KombuOperationalError "[Errno 111] Connection refused") None
              eq_refl eq_refl eq_refl eq_refl eq_refl eq_refl eq_refl)
    as (w' & invocation_id & applied & task_id & sent & Hrun & Hb & Hl).
  exists w'.
  assert (Hw' : w' = snd (apply_async 1 Sample.backoff [] [] no_options unreachable))
    by (rewrite Hrun; reflexivity).
  assert (Hlog : exists a s,
             log w' = [Ev_on_invocation_apply (Some "uuid-0") [] [] a;
                       Ev_on_invocation_trigger (Some "uuid-0") [] [] "uuid-1" s]).
  { rewrite Hw'. eexists _, _. vm_compute. reflexivity. }
  destruct Hlog as (a & s & Hlog). exists a, s.
  split; [exact Hrun |]. split; [exact Hb | exact Hlog].
Defined.
